(** * Floral-Reading: the reader's annotation, search and inline-note logic

    A shallow embedding of the state-handling code of the in-browser
    e-book reader (src/components/Reader.tsx, the storage helpers, the
    library and the chat of the application shell, and the chat service),
    with the properties the specification states about it and further
    properties of the same code.

    Conventions of the embedding.
    - A React state variable is a field of a record; an event handler is a
      function from the state it closes over (the state of the render that
      created it) to the state after its updates were applied.
    - [Date.now()], [new Date().toISOString()] and [uuidv4()] are inputs
      of the handler that calls them.
    - Strings are [string]s over [ascii]; the character functions
      ([toLowerCase], the [\s] class) are those of the 7-bit range.
    - epub.js, the DOM and [localStorage] are collaborators: only the part
      of their behaviour that the reader relies on is modelled, each with
      a note saying what was taken from where. *)

From Stdlib Require Import ZArith QArith Lqa String Ascii.
From stdpp Require Import gmap strings list pretty.

Local Open Scope string_scope.
Local Open Scope list_scope.

(** ** JavaScript string helpers *)

Module Js.

Definition code (c : ascii) : nat := nat_of_ascii c.

Definition between (lo hi : nat) (c : ascii) : bool :=
  (lo <=? code c)%nat && (code c <=? hi)%nat.

(** [String.prototype.toLowerCase] on the 7-bit range: A-Z move to a-z. *)
Definition lower_char (c : ascii) : ascii :=
  if between 65 90 c then ascii_of_nat (code c + 32) else c.

Fixpoint toLowerCase (s : string) : string :=
  match s with
  | EmptyString => EmptyString
  | String c r => String (lower_char c) (toLowerCase r)
  end.

(** The regular-expression class [\s]: tab, line feed, vertical tab, form
    feed, carriage return and space. *)
Definition is_ws (c : ascii) : bool :=
  between 9 13 c || (code c =? 32)%nat.

(** [s.replace(/\s+/g, ' ')]: every maximal run of white space becomes
    one space. [in_run] says that the previous character was white. *)
Fixpoint collapse_ws_from (in_run : bool) (s : string) : string :=
  match s with
  | EmptyString => EmptyString
  | String c r =>
      if is_ws c
      then (if in_run then collapse_ws_from true r
            else String " "%char (collapse_ws_from true r))
      else String c (collapse_ws_from false r)
  end.

Definition collapse_ws (s : string) : string := collapse_ws_from false s.

(** [!s.trim()]: the string holds nothing but white space. *)
Fixpoint blank (s : string) : bool :=
  match s with
  | EmptyString => true
  | String c r => is_ws c && blank r
  end.

(** [s.replace(/[^a-z0-9]/g, '')] *)
Definition is_slug_char (c : ascii) : bool :=
  between 97 122 c || between 48 57 c.

Fixpoint strip_non_slug (s : string) : string :=
  match s with
  | EmptyString => EmptyString
  | String c r =>
      if is_slug_char c then String c (strip_non_slug r) else strip_non_slug r
  end.

(** [s.indexOf(needle, from)]; [None] stands for -1. *)
Definition indexOf (needle : string) (from : nat) (s : string) : option nat :=
  String.index from needle s.

(** [s.includes(needle)] *)
Definition includes (needle s : string) : bool :=
  match indexOf needle 0 s with Some _ => true | None => false end.

(** [s.substring(a, b)] for [a <= b]. *)
Definition substring (a b : nat) (s : string) : string :=
  String.substring a (b - a) s.

(** [s.endsWith(suffix)] *)
Definition endsWith (suffix s : string) : bool :=
  (String.length suffix <=? String.length s)%nat
  && String.eqb (String.substring (String.length s - String.length suffix)
                                  (String.length suffix) s) suffix.

(** [s.split('\n')] *)
Fixpoint split_lines_from (cur : string) (s : string) : list string :=
  match s with
  | EmptyString => [String.rev cur]
  | String c r =>
      if (code c =? 10)%nat
      then String.rev cur :: split_lines_from EmptyString r
      else split_lines_from (String c cur) r
  end.

Definition split_lines (s : string) : list string :=
  split_lines_from EmptyString s.

(** A JavaScript string in a boolean position: empty is falsy. *)
Definition truthy (s : string) : bool := negb (String.eqb s "").

(** [a || b] on strings. *)
Definition or_else (a b : string) : string := if truthy a then a else b.

End Js.

(** ** Data model (src/types.ts) *)

Inductive FileType := epub | txt | pdf | unsupported.

Inductive Style := highlight | underline.

(** The literal the style is written as where a string is expected. *)
Definition style_name (s : Style) : string :=
  match s with highlight => "highlight" | underline => "underline" end.

Module Annotation.
Record t := mk {
  cfiRange : string;
  text : string;
  note : string;
  color : string;
  style : Style;
  tags : list string;
  date : string
}.
End Annotation.

Module BookmarkData.
Record t := mk { cfi : string; text : string; date : string }.
End BookmarkData.

(** [Partial<BookUserData>]: every field may be missing. A field that is
    [None] is a key the object does not have. *)
Module BookUserData.
Record t := mk {
  id : option string;
  lastCfi : option string;
  progress : option Q;
  bookmarks : option (list BookmarkData.t);
  annotations : option (list Annotation.t);
  lastRead : option Z
}.

Definition empty : t := mk None None None None None None.

(** One key of [{ ...a, ...b }]: [b]'s value when [b] has the key. *)
Definition pick {A} (a b : option A) : option A :=
  match b with Some v => Some v | None => a end.

(** [{ ...a, ...b }] *)
Definition spread (a b : t) : t :=
  mk (pick (id a) (id b)) (pick (lastCfi a) (lastCfi b))
     (pick (progress a) (progress b)) (pick (bookmarks a) (bookmarks b))
     (pick (annotations a) (annotations b)) (pick (lastRead a) (lastRead b)).
End BookUserData.

(** ** Per-book storage (utils/storage) *)

Module Storage.

(** What [localStorage.getItem('lumina_reader_data')] holds: nothing, a
    text [JSON.parse] throws on, or the serialised dictionary from book
    id to bundle. [JSON.stringify] followed by [JSON.parse] is taken to
    give the dictionary back. *)
Inductive Item :=
| Missing
| Malformed
| Json (store : gmap string BookUserData.t).

(** [quota_exceeded]: [setItem] throws. *)
Record LocalStorage := mkLS { DATA : Item; quota_exceeded : bool }.

(** [JSON.parse(localStorage.getItem(KEY) || '{}')]; [None] when it throws. *)
Definition parse (ls : LocalStorage) : option (gmap string BookUserData.t) :=
  match DATA ls with
  | Missing => Some ∅
  | Malformed => None
  | Json store => Some store
  end.

(** [localStorage.setItem(KEY, JSON.stringify(store))]; [None] when it throws. *)
Definition setItem (ls : LocalStorage) (store : gmap string BookUserData.t)
  : option LocalStorage :=
  if quota_exceeded ls then None
  else Some (mkLS (Json store) (quota_exceeded ls)).

(** [store[bookId]], or the empty object when the key is missing (spreading
    [undefined] adds no key). *)
Definition bundle (store : gmap string BookUserData.t) (bookId : string)
  : BookUserData.t :=
  default BookUserData.empty (store !! bookId).

Definition stamped (bookId : string) (now : Z) (b : BookUserData.t)
  : BookUserData.t :=
  BookUserData.mk (Some bookId) (BookUserData.lastCfi b)
    (BookUserData.progress b) (BookUserData.bookmarks b)
    (BookUserData.annotations b) (Some now).

(** [saveUserData]: the [try] body, and the state left untouched when
    anything in it throws. *)
Definition saveUserData (bookId : string) (data : BookUserData.t) (now : Z)
    (ls : LocalStorage) : LocalStorage :=
  match parse ls with
  | None => ls
  | Some store =>
      let store' :=
        <[bookId := stamped bookId now
                      (BookUserData.spread (bundle store bookId) data)]> store in
      match setItem ls store' with
      | None => ls
      | Some ls' => ls'
      end
  end.

(** [loadUserData]: [store[bookId] || null], and [null] on a throw. *)
Definition loadUserData (bookId : string) (ls : LocalStorage)
  : option BookUserData.t :=
  match parse ls with
  | None => None
  | Some store => store !! bookId
  end.

(** The storage can be read and written. *)
Definition usable (ls : LocalStorage) : bool :=
  match DATA ls with
  | Malformed => false
  | _ => negb (quota_exceeded ls)
  end.

(** A field of the bundle stored for a book, [None] when there is no
    bundle or the bundle lacks the field. *)
Definition stored {A} (f : BookUserData.t -> option A) (bookId : string)
    (ls : LocalStorage) : option A :=
  loadUserData bookId ls ≫= f.

End Storage.

(** ** The rendering engine (epub.js), as far as the reader uses it *)

Module Epub.

(** An entry of [rendition.annotations._annotations]. epub.js files the
    entry made by [add(type, cfiRange, data, cb, className)] under the
    hash of [cfiRange + type] and keeps [type], [cfiRange] and
    [className] on it; [remove(cfiRange, type)] deletes the entry under
    that hash when there is one. The pair stands for the hash. *)
Record Mark := mkMark {
  type : string;
  cfiRange : string;
  className : string
}.

Abbreviation Marks := (gmap (string * string) Mark).

Definition add (type cfiRange className : string) (m : Marks) : Marks :=
  <[(cfiRange, type) := mkMark type cfiRange className]> m.

Definition remove (cfiRange type : string) (m : Marks) : Marks :=
  delete (cfiRange, type) m.

(** [annotations]: the overlay registry; [displayed]: the target of the
    last [rendition.display(target)]. *)
Record Rendition := mkRendition {
  annotations : Marks;
  displayed : option string
}.

Definition display (target : string) (r : Rendition) : Rendition :=
  mkRendition (annotations r) (Some target).

Definition mark (f : Marks -> Marks) (r : Rendition) : Rendition :=
  mkRendition (f (annotations r)) (displayed r).

(** What [book.load(href)] resolves to: it rejects, it gives a document
    without a body, or a body with its [innerText] and [textContent]
    (the empty string for a missing or empty property). *)
Inductive Loaded :=
| LoadThrows
| NoBody
| Body (innerText textContent : string).

(** A hit of the engine's own [item.find(query)]. *)
Record Found := mkFound { cfi : string; excerpt : string }.

(** A spine item; [find q] is [None] when loading the item or searching
    it rejects. *)
Record SpineItem := mkSpineItem {
  href : string;
  idref : string;
  find : string -> option (list Found)
}.

Record Book := mkBook {
  spineItems : list SpineItem;
  load : string -> Loaded;
  locations_length : nat;
  percentageFromCfi : string -> Q
}.

(** [spine.get(i)] *)
Definition spine_get (b : Book) (i : nat) : option SpineItem :=
  spineItems b !! i.

End Epub.

(** ** The live content document, as far as the inline notes use it

    [paragraphs] are the [innerText]s of the [p] elements; [mounts] sends
    the index of a paragraph to the node that is its next sibling when
    that node is an [inline-ai-portal-mount] container; [next_node] is the
    node [createElement] hands out next. *)

Module Dom.

Record t := mk {
  paragraphs : list string;
  next_node : nat;
  mounts : gmap nat nat
}.

(** [doc.createElement('div')] *)
Definition createElement (d : t) : nat * t :=
  (next_node d, mk (paragraphs d) (S (next_node d)) (mounts d)).

(** [p.insertAdjacentElement('afterend', container)] *)
Definition insertAfter (p container : nat) (d : t) : t :=
  mk (paragraphs d) (next_node d) (<[p := container]> (mounts d)).

(** [node.remove()]: detaches the node; nothing happens when it is not
    attached. *)
Definition remove (node : nat) (d : t) : t :=
  mk (paragraphs d) (next_node d)
     (filter (fun kv => snd kv <> node) (mounts d)).

End Dom.

(** ** The reader component (src/components/Reader.tsx) *)

Module Reader.

Inductive AiDisplayMode := inline | popup.

Inductive Content :=
| Text (s : string)
| Buffer (bytes : string).

Module Book.
Record t := mk {
  id : string;
  title : string;
  author : string;
  content : Content;
  type : FileType;
  coverUrl : option string;
  textContent : option string;
  isContextEnabled : bool
}.
End Book.

Record SelectionMenu := mkMenu {
  visible : bool;
  x : Q;
  y : Q;
  cfiRange : option string;
  text : string
}.

Module ActiveInlineNote.
Record t := mk {
  id : string;
  cfi : option string;
  textContext : string;
  aiResponse : string;
  isLoading : bool;
  domNode : option nat
}.
End ActiveInlineNote.

Record Pending := mkPending { pending_cfi : string; pending_text : string }.

(** What the annotation modal hands to [handleSaveAnnotation]. *)
Record AnnotationForm := mkForm {
  form_note : string;
  form_color : string;
  form_style : Style;
  form_tags : list string
}.

(** An element of the list [performSearch] returns. *)
Record SearchResult := mkResult {
  result_cfi : string;
  result_excerpt : string;
  result_label : string;
  result_context : string
}.

(** *** State *)

Record Props := mkProps {
  book : option Book.t;
  aiDisplayMode : AiDisplayMode
}.

Record View := mkView {
  menu : SelectionMenu;
  currentCfi : string;
  progress : Q
}.

Record AnnotationUi := mkAnnotationUi {
  bookmarks : list BookmarkData.t;
  annotations : list Annotation.t;
  isAnnotationModalOpen : bool;
  pendingAnnotation : option Pending;
  editingAnnotation : option Annotation.t
}.

Record SearchBar := mkSearchBar {
  isSearchBarOpen : bool;
  searchQuery : string;
  searchMatches : list Epub.Found;
  currentMatchIndex : Z;
  isSearching : bool
}.

Record AiNotes := mkAiNotes {
  inlineNotes : list ActiveInlineNote.t;
  activePopupNote : option ActiveInlineNote.t
}.

(** The refs and the world outside React. *)
Record Env := mkEnv {
  renditionRef : option Epub.Rendition;
  bookRef : option Epub.Book;
  selectionTimeRef : Z;
  localStorage : Storage.LocalStorage;
  dom : Dom.t
}.

Record State := mkState {
  props : Props;
  view : View;
  annot : AnnotationUi;
  search : SearchBar;
  notes : AiNotes;
  env : Env
}.

(** *** State setters

    [setX f st] is React's [setX(prev => f prev)]; [setX (fun _ => v)] is
    [setX(v)]. *)

Definition onView (f : View -> View) (st : State) : State :=
  mkState (props st) (f (view st)) (annot st) (search st) (notes st) (env st).
Definition onAnnot (f : AnnotationUi -> AnnotationUi) (st : State) : State :=
  mkState (props st) (view st) (f (annot st)) (search st) (notes st) (env st).
Definition onSearch (f : SearchBar -> SearchBar) (st : State) : State :=
  mkState (props st) (view st) (annot st) (f (search st)) (notes st) (env st).
Definition onNotes (f : AiNotes -> AiNotes) (st : State) : State :=
  mkState (props st) (view st) (annot st) (search st) (f (notes st)) (env st).
Definition onEnv (f : Env -> Env) (st : State) : State :=
  mkState (props st) (view st) (annot st) (search st) (notes st) (f (env st)).

Definition setMenu (f : SelectionMenu -> SelectionMenu) : State -> State :=
  onView (fun v => mkView (f (menu v)) (currentCfi v) (progress v)).
Definition setCurrentCfi (c : string) : State -> State :=
  onView (fun v => mkView (menu v) c (progress v)).
Definition setProgress (p : Q) : State -> State :=
  onView (fun v => mkView (menu v) (currentCfi v) p).

Definition setAnnotations (f : list Annotation.t -> list Annotation.t)
  : State -> State :=
  onAnnot (fun a => mkAnnotationUi (bookmarks a) (f (annotations a))
                      (isAnnotationModalOpen a) (pendingAnnotation a)
                      (editingAnnotation a)).
Definition setIsAnnotationModalOpen (b : bool) : State -> State :=
  onAnnot (fun a => mkAnnotationUi (bookmarks a) (annotations a) b
                      (pendingAnnotation a) (editingAnnotation a)).
Definition setPendingAnnotation (p : option Pending) : State -> State :=
  onAnnot (fun a => mkAnnotationUi (bookmarks a) (annotations a)
                      (isAnnotationModalOpen a) p (editingAnnotation a)).
Definition setEditingAnnotation (e : option Annotation.t) : State -> State :=
  onAnnot (fun a => mkAnnotationUi (bookmarks a) (annotations a)
                      (isAnnotationModalOpen a) (pendingAnnotation a) e).

Definition setIsSearchBarOpen (b : bool) : State -> State :=
  onSearch (fun s => mkSearchBar b (searchQuery s) (searchMatches s)
                       (currentMatchIndex s) (isSearching s)).
Definition setSearchQuery (q : string) : State -> State :=
  onSearch (fun s => mkSearchBar (isSearchBarOpen s) q (searchMatches s)
                       (currentMatchIndex s) (isSearching s)).
Definition setSearchMatches (m : list Epub.Found) : State -> State :=
  onSearch (fun s => mkSearchBar (isSearchBarOpen s) (searchQuery s) m
                       (currentMatchIndex s) (isSearching s)).
Definition setCurrentMatchIndex (i : Z) : State -> State :=
  onSearch (fun s => mkSearchBar (isSearchBarOpen s) (searchQuery s)
                       (searchMatches s) i (isSearching s)).
Definition setIsSearching (b : bool) : State -> State :=
  onSearch (fun s => mkSearchBar (isSearchBarOpen s) (searchQuery s)
                       (searchMatches s) (currentMatchIndex s) b).

Definition setInlineNotes
    (f : list ActiveInlineNote.t -> list ActiveInlineNote.t) : State -> State :=
  onNotes (fun n => mkAiNotes (f (inlineNotes n)) (activePopupNote n)).
Definition setActivePopupNote (p : option ActiveInlineNote.t) : State -> State :=
  onNotes (fun n => mkAiNotes (inlineNotes n) p).

(** [renditionRef.current?.f(...)]: nothing happens without a rendition. *)
Definition onRendition (f : Epub.Rendition -> Epub.Rendition) : State -> State :=
  onEnv (fun e => mkEnv (f <$> renditionRef e) (bookRef e) (selectionTimeRef e)
                    (localStorage e) (dom e)).
Definition setSelectionTime (t : Z) : State -> State :=
  onEnv (fun e => mkEnv (renditionRef e) (bookRef e) t (localStorage e) (dom e)).
Definition onLocalStorage
    (f : Storage.LocalStorage -> Storage.LocalStorage) : State -> State :=
  onEnv (fun e => mkEnv (renditionRef e) (bookRef e) (selectionTimeRef e)
                    (f (localStorage e)) (dom e)).
Definition onDom (f : Dom.t -> Dom.t) : State -> State :=
  onEnv (fun e => mkEnv (renditionRef e) (bookRef e) (selectionTimeRef e)
                    (localStorage e) (f (dom e))).

(** [if (book) saveUserData(book.id, data)] *)
Definition saveForBook (data : BookUserData.t) (now : Z) (st : State) : State :=
  match book (props st) with
  | Some b => onLocalStorage (Storage.saveUserData (Book.id b) data now) st
  | None => st
  end.

(** *** Inline AI notes *)

(** [openInlinePanel(text, contextId, domNode)]; [noteId] is the value
    [uuidv4()] returned. *)
Definition openInlinePanel (text : string) (contextId : string)
    (domNode : option nat) (noteId : string) (st : State) : State :=
  let newNote :=
    ActiveInlineNote.mk noteId (Some contextId) text "" false domNode in
  match aiDisplayMode (props st) with
  | popup => setActivePopupNote (Some newNote) st
  | inline => setInlineNotes (fun prev => prev ++ [newNote]) st
  end.

(** [inlineNotes.find(n => n.id === id)] *)
Definition findNote (id : string) (l : list ActiveInlineNote.t)
  : option ActiveInlineNote.t :=
  List.find (fun n => String.eqb (ActiveInlineNote.id n) id) l.

(** [removeInlineNote(id)] *)
Definition removeInlineNote (id : string) (st : State) : State :=
  let st1 :=
    match findNote id (inlineNotes (notes st)) with
    | Some n =>
        match ActiveInlineNote.domNode n with
        | Some node => onDom (Dom.remove node) st
        | None => st
        end
    | None => st
    end in
  setInlineNotes
    (List.filter (fun n => negb (String.eqb (ActiveInlineNote.id n) id))) st1.

(** [closePopupNote()] *)
Definition closePopupNote (st : State) : State := setActivePopupNote None st.

(** The key the plain-text view gives paragraph [idx]: [`txt-${idx}`]. *)
Definition txtKey (idx : nat) : string := "txt-" +:+ pretty idx.

(** The [onClick] of the trigger button of paragraph [idx] in the
    plain-text view. The button exists when the paragraph is not blank;
    [inlineNote] is [inlineNotes.find(n => n.id === `txt-${idx}`)]. *)
Definition txtTriggerClick (idx : nat) (noteId : string) (st : State) : State :=
  match book (props st) with
  | Some b =>
      match Book.type b, Book.content b with
      | txt, Text body =>
          match Js.split_lines body !! idx with
          | Some para =>
              if Js.blank para then st
              else
                match findNote (txtKey idx) (inlineNotes (notes st)) with
                | Some _ => st
                | None => openInlinePanel para (txtKey idx) None noteId st
                end
          | None => st
          end
      | _, _ => st
      end
  | None => st
  end.

(** The [onclick] the content hook puts on the trigger of paragraph [p]
    of the mounted EPUB document. *)
Definition epubTriggerClick (p : nat) (now : Z) (noteId : string) (st : State)
  : State :=
  let d := dom (env st) in
  match Dom.paragraphs d !! p with
  | None => st
  | Some innerText =>
      match Dom.mounts d !! p with
      | Some _ => st
      | None =>
          match aiDisplayMode (props st) with
          | popup => openInlinePanel innerText ("p-" +:+ pretty now) None noteId st
          | inline =>
              let (container, d1) := Dom.createElement d in
              let st1 := onDom (fun _ => Dom.insertAfter p container d1) st in
              openInlinePanel innerText ("p-" +:+ pretty now) (Some container)
                noteId st1
          end
      end
  end.

(** *** Annotations *)

(** [handleOpenAnnotationModal()] *)
Definition handleOpenAnnotationModal (st : State) : State :=
  let m := menu (view st) in
  match cfiRange m with
  | Some c =>
      if Js.truthy c && Js.truthy (text m) then
        setMenu (fun prev => mkMenu false (x prev) (y prev) (cfiRange prev) (text prev))
          (setIsAnnotationModalOpen true
             (setEditingAnnotation None
                (setPendingAnnotation (Some (mkPending c (text m))) st)))
      else st
  | None => st
  end.

(** The class name of a user overlay: [`${prefix}-${color}`]. *)
Definition overlayClass (s : Style) (color : string) : string :=
  (match s with highlight => "hl" | underline => "ul" end) +:+ "-" +:+ color.

(** [handleSaveAnnotation(data)]; [iso] is [new Date().toISOString()] and
    [now] the [Date.now()] of the save. [clearSelection()] only touches
    the browser's selection, which is not part of the state. *)
Definition handleSaveAnnotation (data : AnnotationForm) (iso : string) (now : Z)
    (st : State) : State :=
  match renditionRef (env st) with
  | None => st
  | Some _ =>
      let editing := editingAnnotation (annot st) in
      let pending := pendingAnnotation (annot st) in
      let cfi :=
        match editing with
        | Some e => Some (Annotation.cfiRange e)
        | None => pending_cfi <$> pending
        end in
      let textContext :=
        match editing with
        | Some e => Some (Annotation.text e)
        | None => pending_text <$> pending
        end in
      match cfi, textContext with
      | Some cfi, Some textContext =>
          if negb (Js.truthy cfi) || negb (Js.truthy textContext) then st
          else
            let st1 :=
              match editing with
              | Some _ =>
                  onRendition
                    (Epub.mark (fun m => Epub.remove cfi "underline"
                                           (Epub.remove cfi "highlight" m))) st
              | None => st
              end in
            let className := overlayClass (form_style data) (form_color data) in
            let st2 :=
              onRendition
                (Epub.mark (Epub.add (style_name (form_style data)) cfi className))
                st1 in
            let newAnnotation :=
              Annotation.mk cfi textContext (form_note data) (form_color data)
                (form_style data) (form_tags data) iso in
            let updated :=
              match editing with
              | Some _ =>
                  List.map (fun a => if String.eqb (Annotation.cfiRange a) cfi
                                     then newAnnotation else a)
                    (annotations (annot st2))
              | None => annotations (annot st2) ++ [newAnnotation]
              end in
            let st3 := setAnnotations (fun _ => updated) st2 in
            let st4 :=
              saveForBook
                (BookUserData.mk None None None None (Some updated) None) now st3 in
            setEditingAnnotation None (setPendingAnnotation None st4)
      | _, _ => st
      end
  end.

(** [handleRemoveAnnotation(cfi)] *)
Definition handleRemoveAnnotation (cfi : string) (now : Z) (st : State) : State :=
  let st1 :=
    onRendition
      (Epub.mark (fun m => Epub.remove cfi "underline" (Epub.remove cfi "highlight" m)))
      st in
  let updated :=
    List.filter (fun a => negb (String.eqb (Annotation.cfiRange a) cfi))
      (annotations (annot st1)) in
  saveForBook (BookUserData.mk None None None None (Some updated) None) now
    (setAnnotations (fun _ => updated) st1).

(** [handleDeleteAnnotation()] *)
Definition handleDeleteAnnotation (now : Z) (st : State) : State :=
  match editingAnnotation (annot st) with
  | Some e =>
      if Js.truthy (Annotation.cfiRange e)
      then handleRemoveAnnotation (Annotation.cfiRange e) now st
      else st
  | None => st
  end.

(** *** Batch search over the spine *)

(** The body of [while (index !== -1)] in [performSearch], entered with
    [index] found at or after the last [startIndex]. [fuel] bounds the
    number of rounds; [scanUnit] starts it with more rounds than the text
    has characters. *)
Fixpoint scanMatches (fuel : nat) (item : Epub.SpineItem) (i : nat)
    (query lowerQuery cleanText lowerText : string) (index : option nat)
    (results : list SearchResult) : list SearchResult :=
  match fuel, index with
  | S fuel', Some index =>
      (* on [nat], [index - 30] is already 0 where the number is negative *)
      let start := Nat.max 0 (index - 30) in
      let end_ := Nat.min (String.length cleanText)
                          (index + String.length query + 30) in
      let excerpt := Js.substring start end_ cleanText in
      let results :=
        results ++ [mkResult (Epub.href item) excerpt
                      (Js.or_else (Epub.idref item) ("Chapter " +:+ pretty (i + 1)%nat))
                      excerpt] in
      let startIndex := (index + String.length query)%nat in
      let index := Js.indexOf lowerQuery startIndex lowerText in
      if (500 <? length results)%nat then results
      else scanMatches fuel' item i query lowerQuery cleanText lowerText index results
  | _, _ => results
  end.

(** The text of a loaded body, scanned for the query. *)
Definition scanUnit (item : Epub.SpineItem) (i : nat) (query lowerQuery : string)
    (innerText textContent : string) (results : list SearchResult)
  : list SearchResult :=
  let textContent := Js.or_else (Js.or_else innerText textContent) "" in
  let cleanText := Js.collapse_ws textContent in
  let lowerText := Js.toLowerCase cleanText in
  scanMatches (S (String.length lowerText)) item i query lowerQuery cleanText
    lowerText (Js.indexOf lowerQuery 0 lowerText) results.

(** One round of [for (let i = 0; i < spineLength; i++)]. The state of the
    loop is the result list and the list of the [href]s handed to
    [book.load] so far. *)
Definition searchSection (bk : Epub.Book) (query lowerQuery : string)
    (acc : list SearchResult * list string) (i : nat)
  : list SearchResult * list string :=
  let (results, loads) := acc in
  match Epub.spine_get bk i with
  | None => acc
  | Some item =>
      if negb (Js.truthy (Epub.href item)) then acc
      else
        let loads := loads ++ [Epub.href item] in
        match Epub.load bk (Epub.href item) with
        | Epub.LoadThrows => (results, loads)
        | Epub.NoBody => (results, loads)
        | Epub.Body innerText textContent =>
            (scanUnit item i query lowerQuery innerText textContent results, loads)
        end
  end.

(** [performSearch(query)] for the book behind [bookRef.current]. *)
Definition performSearchLog (bookRef : option Epub.Book) (query : string)
  : list SearchResult * list string :=
  match bookRef with
  | None => ([], [])
  | Some bk =>
      if negb (Js.truthy query) || (String.length query <? 2)%nat then ([], [])
      else
        let spineLength := length (Epub.spineItems bk) in
        let lowerQuery := Js.toLowerCase query in
        foldl (searchSection bk query lowerQuery) ([], []) (seq 0 spineLength)
  end.

(** The list [performSearch] resolves to. *)
Definition performSearch (st : State) (query : string) : list SearchResult :=
  fst (performSearchLog (bookRef (env st)) query).

(** The content units [performSearch] loaded on the way. *)
Definition unitsScanned (st : State) (query : string) : list string :=
  snd (performSearchLog (bookRef (env st)) query).

(** *** Interactive search *)

(** [matches[i]] for a JavaScript number [i]. *)
Definition at_index {A} (l : list A) (i : Z) : option A :=
  if (i <? 0)%Z then None else l !! Z.to_nat i.

(** [updateActiveSearchHighlight(index, matches)]. The function is a
    closure of one render: [seen] is the state of that render, from which
    it reads [currentMatchIndex]; [st] is the state its updates apply to.
    With no rendition every optional call is skipped; with one,
    [match.cfi] throws when [matches[index]] is missing, after the
    demotion and [setCurrentMatchIndex] happened. *)
Definition updateActiveSearchHighlight (seen : State) (index : Z)
    (matches : list Epub.Found) (st : State) : State :=
  let current := currentMatchIndex (search seen) in
  let st1 :=
    if negb (current =? -1)%Z then
      match at_index matches current with
      | Some m =>
          onRendition
            (Epub.mark (fun a => Epub.add "highlight" (Epub.cfi m) "search-result"
                                   (Epub.remove (Epub.cfi m) "highlight" a))) st
      | None => st
      end
    else st in
  let st2 := setCurrentMatchIndex index st1 in
  match at_index matches index with
  | Some m =>
      onRendition
        (fun r =>
           Epub.display (Epub.cfi m)
             (Epub.mark (fun a => Epub.add "highlight" (Epub.cfi m)
                                    "search-result-active"
                                    (Epub.remove (Epub.cfi m) "highlight" a)) r))
        st2
  | None => st2
  end.

(** [nextSearchMatch(indexOverride?, resultsOverride?)], a closure of the
    render whose state is [seen]. An array given as override is used even
    when it is empty. *)
Definition nextSearchMatch (seen : State) (indexOverride : option Z)
    (resultsOverride : option (list Epub.Found)) (st : State) : State :=
  let matches := default (searchMatches (search seen)) resultsOverride in
  if (length matches =? 0)%nat then st
  else
    let nextIndex := default (currentMatchIndex (search seen) + 1)%Z indexOverride in
    let nextIndex := if (Z.of_nat (length matches) <=? nextIndex)%Z then 0%Z
                     else nextIndex in
    updateActiveSearchHighlight seen nextIndex matches st.

(** [prevSearchMatch()], a closure of the render whose state is [seen]. *)
Definition prevSearchMatch (seen : State) (st : State) : State :=
  let matches := searchMatches (search seen) in
  if (length matches =? 0)%nat then st
  else
    let nextIndex := (currentMatchIndex (search seen) - 1)%Z in
    let nextIndex := if (nextIndex <? 0)%Z then (Z.of_nat (length matches) - 1)%Z
                     else nextIndex in
    updateActiveSearchHighlight seen nextIndex matches st.

(** The search bar's buttons and keys: [nextSearchMatch()] and
    [prevSearchMatch()] of the current render. *)
Definition next (st : State) : State := nextSearchMatch st None None st.
Definition previous (st : State) : State := prevSearchMatch st st.

(** The loop that opens [handleInteractiveSearch]: for every key of
    [_annotations], the entry is removed when its [type] is
    ['search-result'] or ['search-result-active']. *)
Definition clearByType (m : Epub.Marks) : Epub.Marks :=
  foldl (fun acc kv =>
           let note := snd kv in
           if String.eqb (Epub.type note) "search-result"
              || String.eqb (Epub.type note) "search-result-active"
           then Epub.remove (Epub.cfiRange note) (Epub.type note) acc
           else acc)
        m (map_to_list m).

(** The loop of [closeSearchBar]: the entry is removed as a highlight when
    its [className] includes ['search-result']. *)
Definition clearByClass (m : Epub.Marks) : Epub.Marks :=
  foldl (fun acc kv =>
           let note := snd kv in
           if Js.truthy (Epub.className note)
              && Js.includes "search-result" (Epub.className note)
           then Epub.remove (Epub.cfiRange note) "highlight" acc
           else acc)
        m (map_to_list m).

(** [handleInteractiveSearch()] with the query of the search bar. The
    results of the engine come from [item.find] of every spine item, a
    rejected item counting as no hit. Without a book the [map] over the
    spine throws and only the [finally] block runs. The handler and the
    [nextSearchMatch] it calls are closures of the same render, [st]. *)
Definition handleInteractiveSearch (st : State) : State :=
  let query := searchQuery (search st) in
  if Js.blank query then st
  else
    let st1 := setCurrentMatchIndex (-1) (setIsSearching true st) in
    let st2 := onRendition (Epub.mark clearByType) st1 in
    let st3 :=
      match bookRef (env st2) with
      | None => st2
      | Some bk =>
          let results :=
            List.map (fun item => default [] (Epub.find item query))
              (Epub.spineItems bk) in
          let flatResults :=
            List.map (fun res => Epub.mkFound (Epub.cfi res) (Epub.excerpt res))
              (concat results) in
          let st' := setSearchMatches flatResults st2 in
          if (0 <? length flatResults)%nat then
            let st'' :=
              foldl (fun s res =>
                       onRendition
                         (Epub.mark (Epub.add "highlight" (Epub.cfi res)
                                       "search-result")) s)
                st' flatResults in
            nextSearchMatch st (Some 0%Z) (Some flatResults) st''
          else st'
      end in
    setIsSearching false st3.

(** [closeSearchBar()] *)
Definition closeSearchBar (st : State) : State :=
  onRendition (Epub.mark clearByClass)
    (setCurrentMatchIndex (-1)
       (setSearchQuery ""
          (setSearchMatches [] (setIsSearchBarOpen false st)))).

(** *** Events of the rendition

    The listeners are registered once the book is displayed; they close
    over the [book] prop and the epub.js book of that effect. *)

Record Rect := mkRect { left : Q; top : Q; width : Q; height : Q }.

(** What the ['selected'] listener finds: the text of the first range of
    the selection (none when there is no selection), the rectangle of the
    range and the rectangle of the [iframe] (none when there is no
    [iframe]). *)
Record Selected := mkSelected {
  sel_cfiRange : string;
  sel_text : option string;
  sel_rect : Rect;
  sel_iframe : option Rect
}.

Definition hideMenu (st : State) : State :=
  setMenu (fun prev => mkMenu false (x prev) (y prev) (cfiRange prev) (text prev)) st.

(** [rendition.on('selected', ...)] *)
Definition on_selected (ev : Selected) (now : Z) (st : State) : State :=
  let st1 := setSelectionTime now st in
  match sel_text ev with
  | None => st1
  | Some t =>
      if Js.blank t then st1
      else
        match sel_iframe ev with
        | None => st1
        | Some iframeRect =>
            let rect := sel_rect ev in
            if Qeq_bool (width rect) 0 && Qeq_bool (height rect) 0 then st1
            else
              setMenu (fun _ =>
                         mkMenu true
                           (left iframeRect + left rect + width rect / 2)
                           (top iframeRect + top rect - 10)
                           (Some (sel_cfiRange ev)) t) st1
        end
  end.

(** [rendition.on('markClicked', ...)]; [data_cfi] is [data.cfiRange] when
    the overlay carries data. *)
Definition on_markClicked (cfi : string) (data_cfi : option string) (st : State)
  : State :=
  let hit (a : Annotation.t) :=
    String.eqb (Annotation.cfiRange a) cfi
    || match data_cfi with
       | Some d => String.eqb d (Annotation.cfiRange a)
       | None => false
       end in
  match List.find hit (annotations (annot st)) with
  | Some a =>
      setIsAnnotationModalOpen true
        (hideMenu (setPendingAnnotation None (setEditingAnnotation (Some a) st)))
  | None => st
  end.

(** [rendition.on('click', ...)] *)
Definition on_click (now : Z) (st : State) : State :=
  if (now - selectionTimeRef (env st) <? 300)%Z then st else hideMenu st.

(** [rendition.on('relocated', ...)]; [cfi] is [location.start.cfi]. *)
Definition on_relocated (b : Book.t) (epubBook : Epub.Book) (cfi : string)
    (now : Z) (st : State) : State :=
  let st1 := setCurrentCfi cfi (hideMenu st) in
  if (0 <? Epub.locations_length epubBook)%nat then
    let percentage := Epub.percentageFromCfi epubBook cfi in
    onLocalStorage
      (Storage.saveUserData (Book.id b)
         (BookUserData.mk None (Some cfi) (Some percentage) None None None) now)
      (setProgress percentage st1)
  else
    onLocalStorage
      (Storage.saveUserData (Book.id b)
         (BookUserData.mk None (Some cfi) None None None None) now)
      st1.

(** [rendition.on('resized', ...)] *)
Definition on_resized (st : State) : State := hideMenu st.

Inductive Event :=
| EvSelected (ev : Selected) (now : Z)
| EvMarkClicked (cfi : string) (data_cfi : option string)
| EvClick (now : Z)
| EvRelocated (b : Book.t) (epubBook : Epub.Book) (cfi : string) (now : Z)
| EvResized.

Definition handle (st : State) (e : Event) : State :=
  match e with
  | EvSelected ev now => on_selected ev now st
  | EvMarkClicked cfi data_cfi => on_markClicked cfi data_cfi st
  | EvClick now => on_click now st
  | EvRelocated b epubBook cfi now => on_relocated b epubBook cfi now st
  | EvResized => on_resized st
  end.

(** The events of a run, handled in order. *)
Definition run (st : State) (events : list Event) : State :=
  foldl handle st events.

(** An event that moves or resizes the page. *)
Definition relocates (e : Event) : bool :=
  match e with
  | EvRelocated _ _ _ _ | EvResized => true
  | _ => false
  end.

End Reader.

(** ** The application shell: book import *)

Module App.

(** The file handed to [handleAddBook] and what the [FileReader] read. *)
Record File := mkFile { name : string; data : string }.

(** What [bookObj.coverUrl()] does. *)
Inductive Cover :=
| CoverRejected
| CoverUrl (url : option string).

(** What opening the EPUB gives: [bookObj.ready] or the metadata rejects,
    or the metadata is read ([""] for a missing title or creator) and the
    cover is asked for. *)
Inductive Probe :=
| ProbeRejected
| Probed (meta_title creator : string) (cover : Cover).

(** The chain of [endsWith] tests on the lower-cased name. *)
Definition sniff (file : File) : FileType :=
  let n := Js.toLowerCase (name file) in
  if Js.endsWith ".epub" n then epub
  else if Js.endsWith ".txt" n then txt
  else if Js.endsWith ".pdf" n then pdf
  else unsupported.

(** [file.name.replace(/\.(epub|txt|pdf)$/i, '')] *)
Definition baseName (file : File) : string :=
  let n := name file in
  let l := Js.toLowerCase n in
  if Js.endsWith ".epub" l then String.substring 0 (String.length n - 5) n
  else if Js.endsWith ".txt" l || Js.endsWith ".pdf" l
       then String.substring 0 (String.length n - 4) n
  else n.

(** [`${title}-${author}`.toLowerCase().replace(/[^a-z0-9]/g, '')] *)
Definition idString (title author : string) : string :=
  Js.strip_non_slug (Js.toLowerCase (title +:+ "-" +:+ author)).

(** [idString || uuidv4()] *)
Definition bookId (title author uuid : string) : string :=
  Js.or_else (idString title author) uuid.

(** [title], [author] and [coverUrl] after "Logic A". *)
Definition describe (file : File) (type : FileType) (probe : Probe)
  : string * string * option string :=
  let title := baseName file in
  let author := "Unknown Author" in
  match type, probe with
  | epub, Probed meta_title creator cover =>
      (Js.or_else meta_title title, Js.or_else creator author,
       match cover with CoverUrl (Some url) => if Js.truthy url then Some url else None
                   | _ => None end)
  | _, _ => (title, author, None)
  end.

(** [handleAddBook(file)] up to the end of [reader.onload], as a function
    of the library. [probe] is what epub.js makes of the file (used for
    an EPUB only) and [uuid] what [uuidv4()] would return. An unsupported
    file is refused with an alert; a read whose result is falsy (the empty
    text) adds nothing. *)
Definition handleAddBook (file : File) (probe : Probe) (uuid : string)
    (books : list Reader.Book.t) : list Reader.Book.t :=
  let type := sniff file in
  match type with
  | unsupported => books
  | _ =>
      let result :=
        match type with
        | txt => Reader.Text (data file)
        | _ => Reader.Buffer (data file)
        end in
      let resultTruthy :=
        match result with
        | Reader.Text s => Js.truthy s
        | Reader.Buffer _ => true
        end in
      if negb resultTruthy then books
      else
        let '(title, author, coverUrl) := describe file type probe in
        let id := bookId title author uuid in
        let newBook :=
          Reader.Book.mk id title author result type coverUrl
            (match type with txt => Some (data file) | _ => None end)
            (match type with txt => true | _ => false end) in
        if existsb (fun b => String.eqb (Reader.Book.id b) id) books then books
        else books ++ [newBook]
  end.

End App.

(** ** What the properties look at *)

Module Observe.

Import Reader.

(** The number of annotations of a list that sit at an anchor. *)
Definition count_at (anchor : string) (l : list Annotation.t) : nat :=
  length (List.filter (fun a => String.eqb (Annotation.cfiRange a) anchor) l).

(** The class of the overlay the rendition holds at an anchor for a kind,
    if it holds one. *)
Definition overlayClassAt (anchor kind : string) (st : State) : option string :=
  renditionRef (env st) ≫= fun r =>
    Epub.className <$> (Epub.annotations r !! (anchor, kind)).

(** The number of overlays of the rendition. *)
Definition overlayCount (st : State) : nat :=
  match renditionRef (env st) with
  | Some r => size (Epub.annotations r)
  | None => 0
  end.

(** The inline notes opened from a trigger. *)
Definition notesOf (trigger : string) (st : State) : list ActiveInlineNote.t :=
  List.filter
    (fun n => match ActiveInlineNote.cfi n with
              | Some c => String.eqb c trigger
              | None => false
              end)
    (inlineNotes (notes st)).

(** The cursor of the interactive search. *)
Definition cursor (st : State) : Z := currentMatchIndex (search st).

(** The state with the storage of another state put in place of its own. *)
Definition withStorageOf (other : State) (st : State) : State :=
  onLocalStorage (fun _ => localStorage (env other)) st.

(** A stored field of a book, read through [loadUserData]. *)
Definition storedField {A} (f : BookUserData.t -> option A) (bookId : string)
    (st : State) : option A :=
  Storage.stored f bookId (localStorage (env st)).


End Observe.

(** ** The first render and some concrete inputs *)

Module Sample.

Import Reader.

(** The state of the first render: the initial values given to
    [useState] and [useRef], around what the component finds outside. *)
Definition initial (b : option Book.t) (mode : AiDisplayMode)
    (rendition : option Epub.Rendition) (epubBook : option Epub.Book)
    (ls : Storage.LocalStorage) (d : Dom.t) : State :=
  mkState (mkProps b mode)
    (mkView (mkMenu false 0 0 None "") "" 0)
    (mkAnnotationUi [] [] false None None)
    (mkSearchBar false "" [] (-1) false)
    (mkAiNotes [] None)
    (mkEnv rendition epubBook 0 ls d).

Definition emptyStorage : Storage.LocalStorage := Storage.mkLS Storage.Missing false.
Definition emptyDom : Dom.t := Dom.mk [] 0 ∅.
Definition blankRendition : Epub.Rendition := Epub.mkRendition ∅ None.

(** [n] copies of [s], one after the other. *)
Fixpoint copies (n : nat) (s : string) : string :=
  match n with
  | O => ""
  | S n' => s +:+ copies n' s
  end.

(** An EPUB of two chapters. The engine's own search finds the query
    ["cat"] once in each chapter and ["dog"] once in the second. *)
Definition hitsOf (chapter : string) (q : string) : option (list Epub.Found) :=
  if String.eqb q "cat" then Some [Epub.mkFound (chapter +:+ "/cat") "the cat sat"]
  else if String.eqb q "dog" && String.eqb chapter "ch2"
       then Some [Epub.mkFound "ch2/dog" "a dog ran"]
  else Some [].

Definition twoChapters : Epub.Book :=
  Epub.mkBook
    [Epub.mkSpineItem "ch1.xhtml" "ch1" (hitsOf "ch1");
     Epub.mkSpineItem "ch2.xhtml" "" (hitsOf "ch2")]
    (fun href =>
       if String.eqb href "ch1.xhtml" then Epub.Body "The cat sat." ""
       else Epub.Body "" "A  Cat and a dog ran.")
    0%nat (fun _ => 0%Q).

(** An EPUB of [units] chapters, each holding ["ab"] [hits] times. *)
Definition dense (units hits : nat) : Epub.Book :=
  Epub.mkBook
    (List.map (fun i => Epub.mkSpineItem ("ch" +:+ pretty i) "" (fun _ => Some []))
       (seq 0 units))
    (fun _ => Epub.Body (copies hits "ab") "")
    0%nat (fun _ => 0%Q).

Definition alphaBook : Book.t :=
  Book.mk "alphabob" "Alpha" "Bob" (Buffer "") epub None None false.

Definition reading (epubBook : Epub.Book) : State :=
  initial (Some alphaBook) inline (Some blankRendition) (Some epubBook)
    emptyStorage emptyDom.

(** A stored dictionary with a bundle for two books. *)
Definition anAnnotation : Annotation.t :=
  Annotation.mk "epubcfi(/6/4!/4/2,/1:0,/1:5)" "Alpha" "" "yellow" highlight []
    "2024-01-01T00:00:00.000Z".

Definition twoBundles : Storage.LocalStorage :=
  Storage.mkLS
    (Storage.Json
       (<["alphabob" :=
            BookUserData.mk (Some "alphabob") (Some "epubcfi(/6/4)") (Some (1 # 4))
              (Some []) (Some [anAnnotation]) (Some 100%Z)]>
          (<["other" :=
               BookUserData.mk (Some "other") (Some "epubcfi(/6/2)") None None None
                 (Some 50%Z)]> ∅)))
    false.

(** The partial bundle the relocation listener saves. *)
Definition aPosition : BookUserData.t :=
  BookUserData.mk None (Some "epubcfi(/6/8)") (Some (1 # 2)) None None None.

(** A text selection of five characters inside the page. *)
Definition aSelection : Selected :=
  mkSelected "epubcfi(/6/4!/4/2,/1:0,/1:5)" (Some "Alpha")
    (mkRect 10 20 40 12) (Some (mkRect 0 0 800 600)).

Definition newline : string := String "010"%char "".

(** A plain-text book of two paragraphs, read with inline notes. *)
Definition helloBook : Book.t :=
  Book.mk "hellounknownauthor" "hello" "Unknown Author"
    (Text ("Hello" +:+ newline +:+ "World")) txt None
    (Some ("Hello" +:+ newline +:+ "World")) true.

Definition readingText : State :=
  initial (Some helloBook) inline None None emptyStorage emptyDom.

Definition uuid1 : string := "9b1deb4d-3b7d-4bad-9bdd-2b0d7b3dcb6d".
Definition uuid2 : string := "1b9d6bcd-bbfd-4b2d-9b5d-ab8dfbbd4bed".

(** An EPUB page of two paragraphs. *)
Definition twoParagraphs : Dom.t := Dom.mk ["First."; "Second."] 0 ∅.

Definition readingPage : State :=
  initial (Some alphaBook) inline (Some blankRendition) (Some twoChapters)
    emptyStorage twoParagraphs.

(** The user selects a passage, opens the annotation modal from the menu
    and saves the form. *)
Definition annotate (sel : Selected) (form : AnnotationForm) (iso : string)
    (now : Z) (st : State) : State :=
  handleSaveAnnotation form iso now
    (handleOpenAnnotationModal (on_selected sel now st)).

Definition yellowHighlight : AnnotationForm := mkForm "" "yellow" highlight [].
Definition blueUnderline : AnnotationForm := mkForm "again" "blue" underline [].

Definition anchorA : string := "epubcfi(/6/4!/4/2,/1:0,/1:5)".

(** The reader with one annotation at [anchorA], saved at time 1000. *)
Definition annotatedOnce : State :=
  annotate aSelection yellowHighlight "2024-01-01T00:00:00.000Z" 1000
    (reading twoChapters).

(** The search bar after the query was typed and sent. *)
Definition searchFor (q : string) (st : State) : State :=
  handleInteractiveSearch (setSearchQuery q st).

(** A reader whose search holds [n] matches and whose cursor is unset. *)
Definition withMatches (n : nat) : State :=
  setSearchMatches
    (List.map (fun i => Epub.mkFound ("m" +:+ pretty i) "") (seq 0 n))
    (reading twoChapters).

(** Files to import. *)
Definition alphaEpub : App.File := App.mkFile "book.epub" "PK".
Definition alphaTxt : App.File := App.mkFile "Alpha.txt" "Once upon a time".
Definition byBob : App.Probe := App.Probed "Alpha" "Bob" (App.CoverUrl None).
Definition untitled : App.Probe := App.Probed "???" "!!!" (App.CoverUrl None).

End Sample.

(** ** Further code of the cited files *)

(** *** Global settings (utils/storage)

    A settings object is modelled as the dictionary of its keys, so that a
    saved object of an older version may lack keys. A key whose value
    would be [undefined] is an absent key, which is also what
    [JSON.stringify] makes of it. *)

Module Settings.

Inductive Value :=
| VStr (s : string)
| VNum (q : Q)
| VBool (b : bool).

Definition DEFAULT_SETTINGS : gmap string Value :=
  list_to_map
    [("theme", VStr "light"); ("fontSize", VNum 18); ("fontFamily", VStr "serif");
     ("lineHeight", VNum (16 # 10)); ("letterSpacing", VNum 0);
     ("paragraphSpacing", VNum 10); ("marginX", VNum 10);
     ("flow", VStr "paginated"); ("align", VStr "auto"); ("columns", VStr "auto");
     ("useMathJax", VBool false); ("reduceMotion", VBool false);
     ("hideFootnotes", VBool false); ("hideIndicators", VBool false);
     ("hideFurigana", VBool false); ("disableRtl", VBool false);
     ("enableFocusMode", VBool false); ("enableReadingRuler", VBool false);
     ("highlightColor", VStr "#fde047"); ("customAiPrompt", VStr "");
     ("aiModel", VStr "gemini-2.5-flash")].

(** What [localStorage.getItem('lumina_global_settings')] holds: nothing
    (or the empty text), a text [JSON.parse] throws on, or a serialised
    object. *)
Inductive Item :=
| Missing
| Malformed
| Json (settings : gmap string Value).

(** [quota_exceeded]: [setItem] throws. *)
Record LocalStorage := mkLS { SETTINGS : Item; quota_exceeded : bool }.

(** [saveGlobalSettings(settings)] *)
Definition saveGlobalSettings (settings : gmap string Value) (ls : LocalStorage)
  : LocalStorage :=
  if quota_exceeded ls then ls else mkLS (Json settings) (quota_exceeded ls).

(** [loadGlobalSettings()]: [{ ...DEFAULT_SETTINGS, ...JSON.parse(saved) }],
    the defaults when nothing is saved or the parse throws. *)
Definition loadGlobalSettings (ls : LocalStorage) : gmap string Value :=
  match SETTINGS ls with
  | Missing => DEFAULT_SETTINGS
  | Malformed => DEFAULT_SETTINGS
  | Json saved => saved ∪ DEFAULT_SETTINGS
  end.

(** [settings.fontSize] of a settings object that has the number. *)
Definition fontSize (settings : gmap string Value) : option Q :=
  match settings !! "fontSize" with
  | Some (VNum q) => Some q
  | _ => None
  end.

(** The objects the zoom buttons of the reader hand to [onSettingsChange]:
    [{...settings, fontSize: Math.max(12, settings.fontSize - 2)}] and
    [{...settings, fontSize: Math.min(36, settings.fontSize + 2)}]. *)
Definition Math_max (a b : Q) : Q := if Qle_bool a b then b else a.
Definition Math_min (a b : Q) : Q := if Qle_bool a b then a else b.

Definition zoomOut (settings : gmap string Value) : option (gmap string Value) :=
  (fun f => <["fontSize" := VNum (Math_max 12 (f - 2))]> settings) <$> fontSize settings.

Definition zoomIn (settings : gmap string Value) : option (gmap string Value) :=
  (fun f => <["fontSize" := VNum (Math_min 36 (f + 2))]> settings) <$> fontSize settings.

End Settings.

(** *** More of the reader component *)

Module ReaderOps.

Import Reader.

Definition setBookmarks (f : list BookmarkData.t -> list BookmarkData.t)
  : State -> State :=
  onAnnot (fun a => mkAnnotationUi (f (bookmarks a)) (annotations a)
                      (isAnnotationModalOpen a) (pendingAnnotation a)
                      (editingAnnotation a)).

(** [handleRemoveBookmark(cfi)] *)
Definition handleRemoveBookmark (cfi : string) (now : Z) (st : State) : State :=
  let updated :=
    List.filter (fun b => negb (String.eqb (BookmarkData.cfi b) cfi))
      (bookmarks (annot st)) in
  saveForBook (BookUserData.mk None None None (Some updated) None None) now
    (setBookmarks (fun _ => updated) st).

(** [handleCopy()]; the clipboard and the browser's selection are outside
    the state. *)
Definition handleCopy (st : State) : State := hideMenu st.

(** [handleAskAI()]; [onAiQuery] belongs to the shell. *)
Definition handleAskAI (st : State) : State := hideMenu st.

(** The class the effect gives the overlay of a stored annotation:
    [`${prefix}-${note.color || 'yellow'}`]. *)
Definition restoredClass (a : Annotation.t) : string :=
  overlayClass (Annotation.style a) (Js.or_else (Annotation.color a) "yellow").

(** [savedData.annotations.forEach(note => rendition.annotations.add(...))] *)
Definition restoreOverlays (l : list Annotation.t) (m : Epub.Marks) : Epub.Marks :=
  foldl (fun acc a =>
           Epub.add (style_name (Annotation.style a)) (Annotation.cfiRange a)
             (restoredClass a) acc)
        m l.

(** The effect that renders an EPUB, run for the book of the props, up to
    the end of the callback of [rendition.display(startCfi)]. [epubBook]
    is what [ePub(book.content)] gives and [page] the content document the
    new rendition mounts; [displays] says whether [display] resolved. The
    effect does nothing for a missing book or a book that is no EPUB. The
    flags [loading], [error] and [isGeneratingLocations] it also sets are
    not part of the state modelled here. *)
Definition openEpub (epubBook : Epub.Book) (page : Dom.t) (displays : bool)
    (st : State) : State :=
  match book (props st) with
  | None => st
  | Some b =>
      match Book.type b with
      | epub =>
          let savedData := Storage.loadUserData (Book.id b) (localStorage (env st)) in
          let saved {A} (f : BookUserData.t -> option (list A)) : list A :=
            default [] (savedData ≫= f) in
          let startCfi :=
            match savedData ≫= BookUserData.lastCfi with
            | Some c => if Js.truthy c then Some c else None
            | None => None
            end in
          let rendition :=
            Epub.mkRendition
              (if displays
               then restoreOverlays (saved BookUserData.annotations) ∅
               else ∅)
              startCfi in
          let st1 := setInlineNotes (fun _ => []) (hideMenu st) in
          let st2 :=
            onEnv (fun e => mkEnv (Some rendition) (Some epubBook)
                              (selectionTimeRef e) (localStorage e) page) st1 in
          setAnnotations (fun _ => saved BookUserData.annotations)
            (setBookmarks (fun _ => saved BookUserData.bookmarks) st2)
      | _ => st
      end
  end.

(** The message [handleAiSubmit] shows when the request fails. *)
Definition aiError : string := "Error generating response. Please try again.".

(** What [geminiService.sendMessageStream] and the stream it returns do:
    the call rejects, or the stream yields chunks (each with its [text],
    the empty string for a chunk without one) and then ends or throws. *)
Inductive Reply :=
| Rejected
| Chunks (texts : list string) (completes : bool).

(** The values [fullText] takes in [for await (const chunk of stream)]. *)
Fixpoint running (fullText : string) (texts : list string) : list string :=
  match texts with
  | [] => []
  | t :: rest => (fullText +:+ t) :: running (fullText +:+ t) rest
  end.

(** [updateState(isLoading, response?)] inside [handleAiSubmit(note, _)],
    a closure of the render in which the display mode was [mode]. *)
Definition updateState (mode : AiDisplayMode) (note : ActiveInlineNote.t)
    (isLoading : bool) (response : option string) (st : State) : State :=
  let upd (n : ActiveInlineNote.t) :=
    ActiveInlineNote.mk (ActiveInlineNote.id n) (ActiveInlineNote.cfi n)
      (ActiveInlineNote.textContext n)
      (default (ActiveInlineNote.aiResponse n) response)
      isLoading (ActiveInlineNote.domNode n) in
  match mode with
  | popup => setActivePopupNote (upd <$> activePopupNote (notes st)) st
  | inline =>
      setInlineNotes
        (List.map (fun n => if String.eqb (ActiveInlineNote.id n) (ActiveInlineNote.id note)
                            then upd n else n)) st
  end.

(** The state updates [handleAiSubmit(note, prompt)] makes, in order; other
    events may be handled between two of them. *)
Definition aiUpdates (mode : AiDisplayMode) (note : ActiveInlineNote.t)
    (reply : Reply) : list (State -> State) :=
  updateState mode note true None ::
  match reply with
  | Rejected => [updateState mode note false (Some aiError)]
  | Chunks texts completes =>
      List.map (fun fullText => updateState mode note true (Some fullText))
        (running "" texts)
      ++ [if completes then updateState mode note false None
          else updateState mode note false (Some aiError)]
  end.

(** [handleAiSubmit(note, prompt)] with nothing handled in between. *)
Definition handleAiSubmit (note : ActiveInlineNote.t) (reply : Reply) (st : State)
  : State :=
  foldl (fun s u => u s) st (aiUpdates (aiDisplayMode (props st)) note reply).

End ReaderOps.

(** *** More of the application shell *)

Module Shell.

Inductive ActiveView := home | reader.

Inductive Role := user | model.

Module ChatMessage.
Record t := mk { id : string; role : Role; text : string; isError : bool }.
End ChatMessage.

(** The state of [App] that the handlers below read and write;
    [currentSelection] holds the text of the selection. *)
Record State := mkState {
  activeView : ActiveView;
  books : list Reader.Book.t;
  activeBookId : option string;
  messages : list ChatMessage.t;
  isAiLoading : bool;
  currentSelection : option string
}.

Definition setBooks (f : list Reader.Book.t -> list Reader.Book.t) (st : State)
  : State :=
  mkState (activeView st) (f (books st)) (activeBookId st) (messages st)
    (isAiLoading st) (currentSelection st).

Definition setMessages (f : list ChatMessage.t -> list ChatMessage.t) (st : State)
  : State :=
  mkState (activeView st) (books st) (activeBookId st) (f (messages st))
    (isAiLoading st) (currentSelection st).

Definition setIsAiLoading (b : bool) (st : State) : State :=
  mkState (activeView st) (books st) (activeBookId st) (messages st) b
    (currentSelection st).

Definition setCurrentSelection (sel : option string) (st : State) : State :=
  mkState (activeView st) (books st) (activeBookId st) (messages st)
    (isAiLoading st) sel.

(** [const activeBook = books.find(b => b.id === activeBookId) || null] *)
Definition activeBook (st : State) : option Reader.Book.t :=
  match activeBookId st with
  | Some i => List.find (fun b => String.eqb (Reader.Book.id b) i) (books st)
  | None => None
  end.

(** [handleAddBook(file)] on the state of the shell. *)
Definition handleAddBook (file : App.File) (probe : App.Probe) (uuid : string)
    (st : State) : State :=
  setBooks (App.handleAddBook file probe uuid) st.

(** [handleDeleteBook(id)] *)
Definition handleDeleteBook (id : string) (st : State) : State :=
  let st1 :=
    setBooks (List.filter (fun b => negb (String.eqb (Reader.Book.id b) id))) st in
  match activeBookId st with
  | Some a =>
      if String.eqb a id
      then mkState home (books st1) None (messages st1) (isAiLoading st1)
             (currentSelection st1)
      else st1
  | None => st1
  end.

(** [handleSelectBook(book)] *)
Definition handleSelectBook (book : Reader.Book.t) (st : State) : State :=
  mkState reader (books st) (Some (Reader.Book.id book)) (messages st)
    (isAiLoading st) (currentSelection st).

(** The text of the message shown when the chat request fails. *)
Definition chatError : string :=
  "Sorry, I encountered an error. Please check your API Key or try again.".

(** [handleSendMessage(text)]. [userId], [modelMsgId] and [errorId] are
    the values [uuidv4()] returns for the three messages; [reply] is what
    [startChat] and [sendMessageStream] do ([Rejected] when either throws
    before a stream is there). *)
Definition handleSendMessage (text : string) (userId modelMsgId errorId : string)
    (reply : ReaderOps.Reply) (st : State) : State :=
  let st1 :=
    setIsAiLoading true
      (setMessages (fun prev => prev ++ [ChatMessage.mk userId user text false]) st) in
  let fail (s : State) :=
    setMessages (fun prev => prev ++ [ChatMessage.mk errorId model chatError true]) s in
  let st2 :=
    match reply with
    | ReaderOps.Rejected => fail st1
    | ReaderOps.Chunks texts completes =>
        let placed :=
          setMessages (fun prev => prev ++ [ChatMessage.mk modelMsgId model "" false])
            st1 in
        let streamed :=
          foldl (fun s fullText =>
                   setMessages
                     (List.map (fun m => if String.eqb (ChatMessage.id m) modelMsgId
                                         then ChatMessage.mk (ChatMessage.id m)
                                                (ChatMessage.role m) fullText
                                                (ChatMessage.isError m)
                                         else m)) s)
            placed (ReaderOps.running "" texts) in
        if completes then setCurrentSelection None streamed else fail streamed
    end in
  setIsAiLoading false st2.

End Shell.

(** *** The chat service (services/geminiService) *)

Module Gemini.

(** The double quote, as a string. *)
Definition quote : string := String (ascii_of_nat 34) "".
Definition newline : string := String (ascii_of_nat 10) "".

(** What [client.chats.create] was given. *)
Record Chat := mkChat { chat_model : string; systemInstruction : string }.

Record Service := mkService { chatSession : option Chat; currentModelId : string }.

(** The service as its constructor leaves it. *)
Definition fresh : Service := mkService None "gemini-2.5-flash".

Definition defaultInstruction : string :=
  "You are an intelligent literary assistant called Lumina. You help users understand books, analyze themes, and translate text. Be concise, helpful, and polite.".

Definition withBook (instruction bookContext : string) : string :=
  instruction +:+ newline +:+ newline +:+ "=== ATTACHED BOOK CONTENT ===" +:+ newline
  +:+ "The user is currently reading the following book. Use this text as the primary source of truth for your answers. Quote specific passages where relevant. If the user asks about the plot, characters, or themes, use this full text to provide accurate, deep analysis."
  +:+ newline +:+ newline +:+ bookContext +:+ newline +:+ newline
  +:+ "=== END OF BOOK CONTENT ===".

(** [startChat(modelId, systemInstruction?, bookContext?)]; a missing
    argument is [None]. *)
Definition startChat (modelId : string) (systemInstruction bookContext : option string)
    (s : Service) : Service :=
  let instruction := Js.or_else (default "" systemInstruction) defaultInstruction in
  let instruction :=
    match bookContext with
    | Some ctx => if Js.truthy ctx then withBook instruction ctx else instruction
    | None => instruction
    end in
  mkService (Some (mkChat modelId instruction)) modelId.

(** The message [sendMessageStream] sends for [message] and [context]. *)
Definition fullMessage (message : string) (context : option string) : string :=
  match context with
  | Some ctx =>
      if Js.truthy ctx
      then "User Highlighted Selection:" +:+ newline +:+ quote +:+ quote +:+ quote
           +:+ ctx +:+ quote +:+ quote +:+ quote +:+ newline +:+ newline
           +:+ "Question about selection: " +:+ message
      else message
  | None => message
  end.

(** [sendMessageStream(message, context?, bookFullText?, modelId)].
    [accepted] says whether the session's own [sendMessageStream]
    resolved. The result is the service after the call and the message
    that was sent, [None] when the call throws. *)
Definition sendMessageStream (message : string) (context bookFullText : option string)
    (modelId : string) (accepted : bool) (s : Service) : Service * option string :=
  let s1 :=
    match chatSession s with
    | Some _ =>
        if negb (String.eqb (currentModelId s) modelId)
        then startChat modelId None bookFullText s
        else s
    | None => startChat modelId None bookFullText s
    end in
  let sent := fullMessage message context in
  let s2 :=
    match chatSession s1 with
    | Some _ => s1
    | None => startChat modelId None bookFullText s1
    end in
  if accepted then (s2, Some sent)
  else (startChat modelId None bookFullText s2, None).

End Gemini.

(** *** The tags of the annotation modal (components/AnnotationModal) *)

Module AnnotationModal.

(** [s.trim()] on the 7-bit range. *)
Fixpoint trimStart (s : string) : string :=
  match s with
  | EmptyString => EmptyString
  | String c r => if Js.is_ws c then trimStart r else s
  end.

Definition trim (s : string) : string :=
  String.rev (trimStart (String.rev (trimStart s))).

(** [tags.includes(t)] *)
Definition includes (t : string) (tags : list string) : bool :=
  existsb (String.eqb t) tags.

(** [handleAddTag(e)] for a key press in the tag field: the new [tags] and
    the new [tagInput]. *)
Definition handleAddTag (key : string) (tagInput : string) (tags : list string)
  : list string * string :=
  if String.eqb key "Enter" && Js.truthy (trim tagInput) then
    (if negb (includes (trim tagInput) tags) then tags ++ [trim tagInput] else tags, "")
  else (tags, tagInput).

(** [removeTag(tagToRemove)] *)
Definition removeTag (tagToRemove : string) (tags : list string) : list string :=
  List.filter (fun t => negb (String.eqb t tagToRemove)) tags.

End AnnotationModal.

(** *** The rest of the per-book storage *)

Module StorageOps.

(** [getAllUserData()]: the whole dictionary, [{}] when reading throws. *)
Definition getAllUserData (ls : Storage.LocalStorage) : gmap string BookUserData.t :=
  default ∅ (Storage.parse ls).

End StorageOps.

(** *** More concrete inputs *)

Module Sample2.

(** A settings object saved by a version that knew three keys only. *)
Definition oldSettings : gmap string Settings.Value :=
  list_to_map [("theme", Settings.VStr "dark"); ("fontSize", Settings.VNum 22);
               ("aiDisplayMode", Settings.VStr "popup")].

Definition settingsStorage : Settings.LocalStorage :=
  Settings.mkLS Settings.Missing false.

(** The partial bundle an annotation save writes. *)
Definition someAnnotations : BookUserData.t :=
  BookUserData.mk None None None None (Some [Sample.anAnnotation]) None.

(** The annotated reader with two bookmarks. *)
Definition bookmarkOne : BookmarkData.t :=
  BookmarkData.mk "epubcfi(/6/4)" "one" "2024-01-01T00:00:00.000Z".
Definition bookmarkTwo : BookmarkData.t :=
  BookmarkData.mk "epubcfi(/6/8)" "two" "2024-01-02T00:00:00.000Z".
Definition withBookmarks : Reader.State :=
  ReaderOps.setBookmarks (fun _ => [bookmarkOne; bookmarkTwo]) Sample.annotatedOnce.

(** An inline note opened from the first paragraph of the text book, and
    the reader that shows it. *)
Definition theNote : Reader.ActiveInlineNote.t :=
  Reader.ActiveInlineNote.mk Sample.uuid1 (Some "txt-0") "Hello" "" false None.
Definition openedNote : Reader.State :=
  Reader.txtTriggerClick 0 Sample.uuid1 Sample.readingText.

(** The shell before a book is imported. *)
Definition atHome : Shell.State := Shell.mkState Shell.home [] None [] false None.

(** The shell with two books in the library. *)
Definition library : Shell.State :=
  Shell.mkState Shell.home [Sample.alphaBook; Sample.helloBook] None [] false None.

End Sample2.

(** *** The interactive search on the overlay registry

    What the search handlers of the reader do to
    [rendition.annotations], step by step. *)

Module Registry.





(** The test of the loop of [closeSearchBar] on an entry:
    [note.className && note.className.includes('search-result')]. *)
Definition searchClass (note : Epub.Mark) : bool :=
  Js.truthy (Epub.className note)
  && Js.includes "search-result" (Epub.className note).

(** Every entry is filed under its own anchor and kind, which is how
    [add] files it. *)
Definition filed (m : Epub.Marks) : Prop :=
  forall c t note, m !! (c, t) = Some note ->
                   Epub.cfiRange note = c /\ Epub.type note = t.

(** The entries with a search class are highlights, which is how the
    search adds them. *)
Definition searchIsHighlight (m : Epub.Marks) : Prop :=
  forall k note, m !! k = Some note -> searchClass note = true ->
                 Epub.type note = "highlight".

End Registry.

(** * Properties *)

(** ** Storage *)

Section StorageFacts.

Context (bookId : string) (data : BookUserData.t) (now : Z).

(** A save that cannot read or write the storage leaves it as it was. *)
Lemma saveUserData_unusable (ls : Storage.LocalStorage) :
  Storage.usable ls = false -> Storage.saveUserData bookId data now ls = ls.
Proof.
  destruct ls as [[| |store] [|]]; cbn; intros H; try reflexivity; discriminate H.
Qed.

(** What a save that goes through leaves in the storage. *)
Lemma saveUserData_usable (ls : Storage.LocalStorage) (store : gmap string BookUserData.t) :
  Storage.usable ls = true ->
  Storage.parse ls = Some store ->
  Storage.saveUserData bookId data now ls =
    Storage.mkLS
      (Storage.Json
         (<[bookId := Storage.stamped bookId now
                        (BookUserData.spread (Storage.bundle store bookId) data)]> store))
      false.
Proof.
  destruct ls as [[| |s] [|]]; cbn; intros H Hp; try discriminate H;
    injection Hp as <-; reflexivity.
Qed.

Lemma usable_parse (ls : Storage.LocalStorage) :
  Storage.usable ls = true -> exists store, Storage.parse ls = Some store.
Proof.
  destruct ls as [[| |s] q]; cbn; intros H; try discriminate H; eauto.
Qed.

Lemma bundle_load (ls : Storage.LocalStorage) (store : gmap string BookUserData.t) :
  Storage.parse ls = Some store ->
  Storage.bundle store bookId =
    default BookUserData.empty (Storage.loadUserData bookId ls).
Proof. intros Hp. unfold Storage.loadUserData, Storage.bundle. now rewrite Hp. Qed.

End StorageFacts.

(** C7. A save of per-book user data is a read-modify-write of the bundle
    read from the storage at that moment: when the storage can be read and
    written, [saveUserData bookId data] leaves under [bookId] the stored
    bundle with the fields of [data] merged in and [id] and [lastRead]
    stamped; the fields [data] names take its values, the fields it does
    not name keep the stored ones, and the bundle of every other book is
    the one that was there. *)
Theorem saveUserData_read_modify_write
    (bookId : string) (data : BookUserData.t) (now : Z) (ls : Storage.LocalStorage) :
  Storage.usable ls = true ->
  let ls' := Storage.saveUserData bookId data now ls in
  let old := default BookUserData.empty (Storage.loadUserData bookId ls) in
  Storage.loadUserData bookId ls'
    = Some (Storage.stamped bookId now (BookUserData.spread old data))
  /\ Storage.stored BookUserData.lastRead bookId ls' = Some now
  /\ Storage.stored BookUserData.id bookId ls' = Some bookId
  /\ (forall v, BookUserData.lastCfi data = Some v ->
        Storage.stored BookUserData.lastCfi bookId ls' = Some v)
  /\ (forall v, BookUserData.progress data = Some v ->
        Storage.stored BookUserData.progress bookId ls' = Some v)
  /\ (forall v, BookUserData.bookmarks data = Some v ->
        Storage.stored BookUserData.bookmarks bookId ls' = Some v)
  /\ (forall v, BookUserData.annotations data = Some v ->
        Storage.stored BookUserData.annotations bookId ls' = Some v)
  /\ (BookUserData.lastCfi data = None ->
        Storage.stored BookUserData.lastCfi bookId ls'
          = Storage.stored BookUserData.lastCfi bookId ls)
  /\ (BookUserData.progress data = None ->
        Storage.stored BookUserData.progress bookId ls'
          = Storage.stored BookUserData.progress bookId ls)
  /\ (BookUserData.bookmarks data = None ->
        Storage.stored BookUserData.bookmarks bookId ls'
          = Storage.stored BookUserData.bookmarks bookId ls)
  /\ (BookUserData.annotations data = None ->
        Storage.stored BookUserData.annotations bookId ls'
          = Storage.stored BookUserData.annotations bookId ls)
  /\ (forall other, other <> bookId ->
        Storage.loadUserData other ls' = Storage.loadUserData other ls).
Proof.
  intros Hok ls' old.
  destruct (usable_parse ls Hok) as [store Hp].
  assert (Hload : Storage.loadUserData bookId ls'
                  = Some (Storage.stamped bookId now (BookUserData.spread old data))).
  { subst ls' old.
    rewrite (saveUserData_usable bookId data now ls store Hok Hp).
    rewrite (bundle_load bookId ls store Hp).
    unfold Storage.loadUserData at 1. cbn. apply lookup_insert_eq. }
  assert (Hold : forall A (f : BookUserData.t -> option A),
             f BookUserData.empty = None ->
             Storage.stored f bookId ls = f old).
  { intros A f Hf. subst old. unfold Storage.stored.
    destruct (Storage.loadUserData bookId ls); cbn; [reflexivity | now rewrite Hf]. }
  unfold Storage.stored. rewrite Hload. cbn.
  repeat split; try reflexivity.
  - intros v ->. reflexivity.
  - intros v ->. reflexivity.
  - intros v ->. reflexivity.
  - intros v ->. reflexivity.
  - intros ->. cbn. symmetry. now apply (Hold _ BookUserData.lastCfi).
  - intros ->. cbn. symmetry. now apply (Hold _ BookUserData.progress).
  - intros ->. cbn. symmetry. now apply (Hold _ BookUserData.bookmarks).
  - intros ->. cbn. symmetry. now apply (Hold _ BookUserData.annotations).
  - intros other Hne. subst ls'.
    rewrite (saveUserData_usable bookId data now ls store Hok Hp).
    unfold Storage.loadUserData. rewrite Hp. cbn.
    apply lookup_insert_ne. congruence.
Qed.

Lemma saveUserData_read_modify_write_witness :
  Storage.usable Sample.twoBundles = true
  /\ Storage.stored BookUserData.annotations "alphabob"
       (Storage.saveUserData "alphabob" Sample.aPosition 200 Sample.twoBundles)
     = Some [Sample.anAnnotation]
  /\ Storage.stored BookUserData.lastRead "alphabob"
       (Storage.saveUserData "alphabob" Sample.aPosition 200 Sample.twoBundles)
     = Some 200%Z.
Proof.
  pose proof (saveUserData_read_modify_write "alphabob" Sample.aPosition 200
                Sample.twoBundles eq_refl) as H.
  cbv zeta in H.
  destruct H as (_ & Hstamp & _ & _ & _ & _ & _ & _ & _ & _ & Hann & _).
  split; [reflexivity | split; [| exact Hstamp]].
  rewrite (Hann eq_refl). reflexivity.
Defined.

(** ** The selection menu *)

Lemma hideMenu_hidden (st : Reader.State) :
  Reader.visible (Reader.menu (Reader.view (Reader.hideMenu st))) = false.
Proof. reflexivity. Qed.

Lemma on_relocated_hidden b epubBook cfi now (st : Reader.State) :
  Reader.visible
    (Reader.menu (Reader.view (Reader.on_relocated b epubBook cfi now st))) = false.
Proof.
  unfold Reader.on_relocated.
  destruct (0 <? Epub.locations_length epubBook)%nat; reflexivity.
Qed.

Lemma run_snoc (st : Reader.State) (events : list Reader.Event) (e : Reader.Event) :
  Reader.run st (events ++ [e]) = Reader.handle (Reader.run st events) e.
Proof. unfold Reader.run. now rewrite foldl_app. Qed.

(** C9. Whatever happened before, once a relocated or a resized event has
    been handled the selection menu is hidden (so a menu that was visible
    when the event arrived is back in its idle state). *)
Theorem menu_hidden_after_relocation
    (st : Reader.State) (events : list Reader.Event) (e : Reader.Event) :
  Reader.relocates e = true ->
  Reader.visible (Reader.menu (Reader.view (Reader.run st (events ++ [e])))) = false.
Proof.
  intros He. rewrite run_snoc.
  destruct e as [ev now | cfi d | now | b epubBook cfi now | ]; try discriminate He; cbn.
  - apply on_relocated_hidden.
  - apply (hideMenu_hidden (Reader.run st events)).
Qed.

Lemma menu_hidden_after_relocation_witness :
  Reader.visible
    (Reader.menu (Reader.view
       (Reader.run (Sample.reading Sample.twoChapters)
          [Reader.EvSelected Sample.aSelection 1000]))) = true
  /\ Reader.visible
       (Reader.menu (Reader.view
          (Reader.run (Sample.reading Sample.twoChapters)
             ([Reader.EvSelected Sample.aSelection 1000]
              ++ [Reader.EvRelocated Sample.alphaBook Sample.twoChapters
                    "epubcfi(/6/8)" 2000])))) = false.
Proof.
  split; [reflexivity |].
  apply (menu_hidden_after_relocation (Sample.reading Sample.twoChapters)
           [Reader.EvSelected Sample.aSelection 1000]
           (Reader.EvRelocated Sample.alphaBook Sample.twoChapters "epubcfi(/6/8)" 2000)).
  reflexivity.
Defined.

(** ** Batch search *)

(** C10. A query of fewer than two characters (the empty one included), or
    a search with no book loaded, gives the empty list, and no content
    unit is loaded for it. *)
Theorem performSearch_short_query (st : Reader.State) (query : string) :
  Reader.bookRef (Reader.env st) = None \/ (String.length query < 2)%nat ->
  Reader.performSearch st query = [] /\ Reader.unitsScanned st query = [].
Proof.
  unfold Reader.performSearch, Reader.unitsScanned, Reader.performSearchLog.
  intros [-> | Hlen]; [split; reflexivity |].
  destruct (Reader.bookRef (Reader.env st)) as [bk |]; [| split; reflexivity].
  apply Nat.ltb_lt in Hlen. rewrite Hlen, orb_true_r. split; reflexivity.
Qed.

Lemma performSearch_short_query_witness :
  (String.length "a" < 2)%nat
  /\ Reader.performSearch (Sample.reading (Sample.dense 3 40)) "a" = []
  /\ Reader.unitsScanned (Sample.reading (Sample.dense 3 40)) "a" = []
  /\ length (Reader.performSearch (Sample.reading (Sample.dense 3 40)) "ab") = 120%nat.
Proof.
  split; [cbn; lia |].
  destruct (performSearch_short_query (Sample.reading (Sample.dense 3 40)) "a") as [H1 H2].
  - right. cbn. lia.
  - split; [exact H1 | split; [exact H2 | vm_compute; reflexivity]].
Defined.

Lemma index_bounds (s1 s2 : string) :
  forall n m, String.index n s1 s2 = Some m -> (n <= m <= String.length s2)%nat.
Proof.
  induction s2 as [| b s2 IH]; intros n m H; destruct n as [| n'];
    cbn [String.index] in H; repeat case_match; simplify_eq; cbn [String.length];
    try lia.
  - match goal with Hk : String.index 0 _ _ = Some _ |- _ => apply IH in Hk end. lia.
  - match goal with Hk : String.index n' _ _ = Some _ |- _ => apply IH in Hk end. lia.
Qed.

Section ScanFacts.

Context (item : Epub.SpineItem) (i : nat) (query lowerQuery cleanText lowerText : string).

Lemma scanMatches_done (fuel : nat) (results : list Reader.SearchResult) :
  Reader.scanMatches fuel item i query lowerQuery cleanText lowerText None results
  = results.
Proof. destruct fuel; reflexivity. Qed.

(** The loop of a unit ends by itself: once there are more rounds than
    characters left, further rounds change nothing. *)
Lemma scanMatches_fuel (fuel : nat) :
  forall fuel' index results,
    (0 < String.length query)%nat ->
    (index <= String.length lowerText)%nat ->
    (String.length lowerText - index < fuel)%nat ->
    (String.length lowerText - index < fuel')%nat ->
    Reader.scanMatches fuel item i query lowerQuery cleanText lowerText
      (Some index) results
    = Reader.scanMatches fuel' item i query lowerQuery cleanText lowerText
        (Some index) results.
Proof.
  induction fuel as [| fuel IH]; intros fuel' index results Hq Hle Hf Hf'; [lia |].
  destruct fuel' as [| fuel']; [lia |].
  cbn [Reader.scanMatches].
  destruct (500 <? length _)%nat; [reflexivity |].
  unfold Js.indexOf.
  destruct (String.index (index + String.length query) lowerQuery lowerText)
    as [index' |] eqn:Hi.
  - apply index_bounds in Hi. apply IH; lia.
  - now rewrite !scanMatches_done.
Qed.

(** A unit adds to the list until the list is longer than 500: it leaves
    at most 501 results, or one more than it found. *)
Lemma scanMatches_length (fuel : nat) :
  forall index results,
    (length (Reader.scanMatches fuel item i query lowerQuery cleanText lowerText
               index results)
     <= Nat.max (S (length results)) 501)%nat.
Proof.
  induction fuel as [| fuel IH]; intros index results; [cbn; lia |].
  destruct index as [index |]; [| cbn; lia].
  cbn [Reader.scanMatches].
  match goal with
  | |- context [(500 <? length ?r)%nat] =>
      assert (Hr : length r = S (length results))
        by (rewrite length_app; cbn; lia);
      destruct (500 <? length r)%nat eqn:Hcap
  end.
  - lia.
  - apply Nat.ltb_ge in Hcap.
    etransitivity; [apply IH |]. lia.
Qed.

End ScanFacts.

(** The rounds [scanUnit] allows are enough for the loop of a unit to end
    by itself: with any number of further rounds the result is the same. *)
Lemma scanUnit_fuel (item : Epub.SpineItem) (i : nat)
    (query lowerQuery innerText textContent : string)
    (results : list Reader.SearchResult) (extra : nat) :
  (0 < String.length query)%nat ->
  let cleanText :=
    Js.collapse_ws (Js.or_else (Js.or_else innerText textContent) "") in
  let lowerText := Js.toLowerCase cleanText in
  Reader.scanMatches (S (String.length lowerText) + extra) item i query lowerQuery
    cleanText lowerText (Js.indexOf lowerQuery 0 lowerText) results
  = Reader.scanUnit item i query lowerQuery innerText textContent results.
Proof.
  intros Hq cleanText lowerText. unfold Reader.scanUnit. fold cleanText lowerText.
  unfold Js.indexOf.
  destruct (String.index 0 lowerQuery lowerText) as [index |] eqn:Hi.
  - apply index_bounds in Hi. apply scanMatches_fuel; lia.
  - now rewrite !scanMatches_done.
Qed.

Lemma searchSection_length (bk : Epub.Book) (query lowerQuery : string)
    (acc : list Reader.SearchResult * list string) (i : nat) :
  (length (fst (Reader.searchSection bk query lowerQuery acc i))
   <= Nat.max (S (length (fst acc))) 501)%nat.
Proof.
  unfold Reader.searchSection. destruct acc as [results loads]. cbn [fst].
  destruct (Epub.spine_get bk i) as [item |]; [| cbn; lia].
  destruct (negb (Js.truthy (Epub.href item))); [cbn; lia |].
  destruct (Epub.load bk (Epub.href item)); cbn [fst]; try lia.
  apply scanMatches_length.
Qed.

Lemma searchSpine_length (bk : Epub.Book) (query lowerQuery : string) (units : list nat) :
  forall acc k,
    (length (fst acc) <= 500 + k)%nat ->
    (length (fst (foldl (Reader.searchSection bk query lowerQuery) acc units))
     <= 500 + k + length units)%nat.
Proof.
  induction units as [| i units IH]; intros acc k Hacc; cbn [foldl length]; [lia |].
  specialize (IH (Reader.searchSection bk query lowerQuery acc i) (S k)).
  pose proof (searchSection_length bk query lowerQuery acc i).
  etransitivity; [apply IH |]; lia.
Qed.

(** What does hold of the length of the result: the break at "more than
    500" leaves the loop of one unit only, so the list grows to 501 in a
    unit and by one more in every unit after it. *)
Lemma performSearch_length (st : Reader.State) (query : string) :
  (length (Reader.performSearch st query)
   <= 500 + match Reader.bookRef (Reader.env st) with
            | Some bk => length (Epub.spineItems bk)
            | None => 0
            end)%nat.
Proof.
  unfold Reader.performSearch, Reader.performSearchLog.
  destruct (Reader.bookRef (Reader.env st)) as [bk |]; [| cbn; lia].
  destruct (negb (Js.truthy query) || (String.length query <? 2)%nat); [cbn; lia |].
  pose proof (searchSpine_length bk query (Js.toLowerCase query)
                (seq 0 (length (Epub.spineItems bk))) ([], []) 0%nat) as H.
  rewrite length_seq in H. cbn [fst length] in H. specialize (H ltac:(lia)). lia.
Qed.

(** C2. The claim is that the batch scan never returns more than 500
    matches. On a book of one chapter holding the query 600 times the scan
    returns 501 matches, and on three such chapters 503: the test that
    stops the scan is [results.length > 500], made after the push, and its
    [break] leaves the loop of the chapter only. *)
Theorem performSearch_exceeds_cap :
  length (Reader.performSearch (Sample.reading (Sample.dense 1 600)) "ab") = 501%nat
  /\ length (Reader.performSearch (Sample.reading (Sample.dense 3 600)) "ab") = 503%nat.
Proof. split; vm_compute; reflexivity. Qed.

(** ** Interactive search: overlays *)


(** C4. The claim is that sending a new query first clears the overlays of
    the previous one. After a search for "cat" (two matches) and then one
    for "dog" (one match) the rendition still holds both overlays of "cat",
    one of them in the active class next to the active overlay of "dog":
    three search overlays for a result of one match. [closeSearchBar],
    which tests the class of the entries, does clear them. *)
Theorem interactive_search_keeps_old_overlays :
  let st1 := Sample.searchFor "cat" (Sample.reading Sample.twoChapters) in
  let st2 := Sample.searchFor "dog" st1 in
  List.map Epub.cfi (Reader.searchMatches (Reader.search st2)) = ["ch2/dog"]
  /\ Observe.overlayClassAt "ch1/cat" "highlight" st2 = Some "search-result-active"
  /\ Observe.overlayClassAt "ch2/cat" "highlight" st2 = Some "search-result"
  /\ Observe.overlayClassAt "ch2/dog" "highlight" st2 = Some "search-result-active"
  /\ Observe.overlayCount st2 = 3%nat
  /\ Observe.overlayCount (Reader.closeSearchBar st1) = 0%nat.
Proof. vm_compute. repeat split; reflexivity. Qed.

(** ** Inline notes: one note per trigger *)

(** Opening a note under an identifier other than the key leaves the
    lookup by key empty. *)
Lemma findNote_none_app (id : string) (l : list Reader.ActiveInlineNote.t)
    (n : Reader.ActiveInlineNote.t) :
  Reader.findNote id l = None ->
  Reader.ActiveInlineNote.id n <> id ->
  Reader.findNote id (l ++ [n]) = None.
Proof.
  unfold Reader.findNote. intros Hl Hn.
  induction l as [| a l IH]; cbn in *.
  - apply String.eqb_neq in Hn. now rewrite Hn.
  - destruct (String.eqb (Reader.ActiveInlineNote.id a) id); [discriminate | auto].
Qed.

(** The guard of the plain-text trigger looks for a note whose [id] is the
    key of the paragraph. The [id] of a note is the identifier drawn when
    it was opened, so while no identifier equals the key the guard lets
    every click open one more note for the paragraph. *)
Lemma txtTriggerClick_opens_again (idx : nat) (noteId : string) (st : Reader.State)
    (b : Reader.Book.t) (body para : string) :
  Reader.book (Reader.props st) = Some b ->
  Reader.Book.type b = txt ->
  Reader.Book.content b = Reader.Text body ->
  Js.split_lines body !! idx = Some para ->
  Js.blank para = false ->
  Reader.aiDisplayMode (Reader.props st) = Reader.inline ->
  Reader.findNote (Reader.txtKey idx) (Reader.inlineNotes (Reader.notes st)) = None ->
  Reader.inlineNotes (Reader.notes (Reader.txtTriggerClick idx noteId st))
  = Reader.inlineNotes (Reader.notes st)
    ++ [Reader.ActiveInlineNote.mk noteId (Some (Reader.txtKey idx)) para "" false None].
Proof.
  intros Hb Ht Hc Hp Hblank Hmode Hfind.
  unfold Reader.txtTriggerClick, Reader.openInlinePanel.
  rewrite Hb, Ht, Hc, Hp, Hblank, Hfind, Hmode. reflexivity.
Qed.

(** The trigger of an EPUB paragraph looks at the page: while the mount
    of its note follows the paragraph, a further click changes nothing. *)
Lemma epubTriggerClick_again (p : nat) (now now' : Z) (noteId noteId' : string)
    (st : Reader.State) :
  Reader.aiDisplayMode (Reader.props st) = Reader.inline ->
  Reader.epubTriggerClick p now' noteId' (Reader.epubTriggerClick p now noteId st)
  = Reader.epubTriggerClick p now noteId st.
Proof.
  intros Hmode.
  destruct (Dom.paragraphs (Reader.dom (Reader.env st)) !! p) as [innerText |] eqn:Hp;
    [destruct (Dom.mounts (Reader.dom (Reader.env st)) !! p) as [c |] eqn:Hm |];
    unfold Reader.epubTriggerClick at 2; rewrite Hp, ?Hm, ?Hmode.
  - unfold Reader.epubTriggerClick. now rewrite Hp, Hm.
  - unfold Reader.epubTriggerClick, Reader.openInlinePanel.
    cbn. rewrite !Hmode. cbn. rewrite Hp, lookup_insert_eq, Hm. reflexivity.
  - unfold Reader.epubTriggerClick. now rewrite Hp.
Qed.

(** C6. The claim is that clicking a paragraph's trigger again while its
    note is open is a no-op. In the plain-text view two clicks on the
    trigger of the first paragraph leave two inline notes opened from
    that trigger; on an EPUB page the second click is the no-op claimed. *)
Theorem txt_trigger_reclick_duplicates :
  let once := Reader.txtTriggerClick 0 Sample.uuid1 Sample.readingText in
  let twice := Reader.txtTriggerClick 0 Sample.uuid2 once in
  length (Observe.notesOf "txt-0" once) = 1%nat
  /\ List.map Reader.ActiveInlineNote.id (Observe.notesOf "txt-0" twice)
     = [Sample.uuid1; Sample.uuid2]
  /\ twice <> once
  /\ Reader.epubTriggerClick 0 2000 Sample.uuid2
       (Reader.epubTriggerClick 0 1000 Sample.uuid1 Sample.readingPage)
     = Reader.epubTriggerClick 0 1000 Sample.uuid1 Sample.readingPage.
Proof.
  cbv zeta. split; [vm_compute; reflexivity |].
  split; [vm_compute; reflexivity |].
  split.
  - intros H.
    apply (f_equal (fun s => length (Reader.inlineNotes (Reader.notes s)))) in H.
    vm_compute in H. discriminate H.
  - apply epubTriggerClick_again. reflexivity.
Qed.

(** ** Removing twice *)

Create HintDb setters.
#[local] Hint Unfold Reader.onView Reader.onAnnot Reader.onSearch Reader.onNotes
  Reader.onEnv Reader.setMenu Reader.setCurrentCfi Reader.setProgress
  Reader.setAnnotations Reader.setIsAnnotationModalOpen Reader.setPendingAnnotation
  Reader.setEditingAnnotation Reader.setIsSearchBarOpen Reader.setSearchQuery
  Reader.setSearchMatches Reader.setCurrentMatchIndex Reader.setIsSearching
  Reader.setInlineNotes Reader.setActivePopupNote Reader.onRendition
  Reader.setSelectionTime Reader.onLocalStorage Reader.onDom Reader.hideMenu
  Reader.saveForBook Epub.mark Epub.display : setters.

(** Runs the state setters of a goal down to the record they build. *)
Ltac run_setters :=
  autounfold with setters;
  cbn -[Storage.saveUserData Epub.remove Epub.add Reader.updateActiveSearchHighlight].

Lemma filter_twice {A} (f : A -> bool) (l : list A) :
  List.filter f (List.filter f l) = List.filter f l.
Proof.
  induction l as [| a l IH]; [reflexivity |]. cbn.
  destruct (f a) eqn:Hf; cbn; [rewrite Hf; f_equal |]; exact IH.
Qed.

Lemma findNote_removed (id : string) (l : list Reader.ActiveInlineNote.t) :
  Reader.findNote id
    (List.filter (fun n => negb (String.eqb (Reader.ActiveInlineNote.id n) id)) l)
  = None.
Proof.
  unfold Reader.findNote. induction l as [| a l IH]; [reflexivity |]. cbn.
  destruct (String.eqb (Reader.ActiveInlineNote.id a) id) eqn:Ha; cbn;
    [| rewrite Ha]; exact IH.
Qed.

(** Dismissing an inline note a second time changes nothing. *)
Lemma removeInlineNote_twice (id : string) (st : Reader.State) :
  Reader.removeInlineNote id (Reader.removeInlineNote id st)
  = Reader.removeInlineNote id st.
Proof.
  unfold Reader.removeInlineNote at 1.
  set (once := Reader.removeInlineNote id st).
  assert (Hnotes : Reader.inlineNotes (Reader.notes once)
                   = List.filter
                       (fun n => negb (String.eqb (Reader.ActiveInlineNote.id n) id))
                       (Reader.inlineNotes (Reader.notes st))).
  { subst once. unfold Reader.removeInlineNote.
    destruct (Reader.findNote id _) as [n |]; [| reflexivity].
    destruct (Reader.ActiveInlineNote.domNode n); reflexivity. }
  rewrite Hnotes, findNote_removed.
  destruct once as [pr vw an se [notes popup] en]. cbn in Hnotes. subst notes.
  unfold Reader.setInlineNotes, Reader.onNotes. cbn. now rewrite filter_twice.
Qed.

(** Removing an overlay a second time changes nothing. *)
Lemma remove_overlay_twice (cfi kind : string) (m : Epub.Marks) :
  Epub.remove cfi kind (Epub.remove cfi kind m) = Epub.remove cfi kind m.
Proof. unfold Epub.remove. apply delete_delete_eq. Qed.

(** The same for the two removals a deletion makes, one per kind. *)
Lemma remove_both_twice (cfi : string) (m : Epub.Marks) :
  Epub.remove cfi "underline"
    (Epub.remove cfi "highlight"
       (Epub.remove cfi "underline" (Epub.remove cfi "highlight" m)))
  = Epub.remove cfi "underline" (Epub.remove cfi "highlight" m).
Proof.
  unfold Epub.remove. apply map_eq; intros k.
  rewrite !lookup_delete. repeat case_decide; reflexivity.
Qed.

Lemma spread_twice (old d : BookUserData.t) (bookId : string) (t1 t2 : Z) :
  Storage.stamped bookId t2
    (BookUserData.spread (Storage.stamped bookId t1 (BookUserData.spread old d)) d)
  = Storage.stamped bookId t2 (BookUserData.spread old d).
Proof.
  destruct old, d as [i c p b a r]. unfold Storage.stamped, BookUserData.spread. cbn.
  destruct c, p, b, a; reflexivity.
Qed.

Lemma bundle_inserted (store : gmap string BookUserData.t) (bookId : string)
    (v : BookUserData.t) :
  Storage.bundle (<[bookId := v]> store) bookId = v.
Proof. unfold Storage.bundle. now rewrite lookup_insert_eq. Qed.

(** Saving the same fields again at a later time gives what one save at
    the later time gives. *)
Lemma saveUserData_again (bookId : string) (d : BookUserData.t) (t1 t2 : Z)
    (ls : Storage.LocalStorage) :
  Storage.saveUserData bookId d t2 (Storage.saveUserData bookId d t1 ls)
  = Storage.saveUserData bookId d t2 ls.
Proof.
  destruct (Storage.usable ls) eqn:Hok.
  - destruct (usable_parse ls Hok) as [store Hp].
    rewrite (saveUserData_usable bookId d t1 ls store Hok Hp).
    rewrite (saveUserData_usable bookId d t2 ls store Hok Hp).
    erewrite saveUserData_usable; [| reflexivity | reflexivity].
    rewrite bundle_inserted, spread_twice, insert_insert_eq. reflexivity.
  - now rewrite (saveUserData_unusable bookId d t1 ls Hok).
Qed.

(** Two saves of the same fields differ in the time stamp at most. *)
Lemma saveUserData_stamp_only {A} (f : BookUserData.t -> option A)
    (bookId other : string) (d : BookUserData.t) (t1 t2 : Z) (ls : Storage.LocalStorage) :
  (forall i c p b a r r',
      f (BookUserData.mk i c p b a r) = f (BookUserData.mk i c p b a r')) ->
  Storage.stored f other (Storage.saveUserData bookId d t2 ls)
  = Storage.stored f other (Storage.saveUserData bookId d t1 ls).
Proof.
  intros Hf. destruct (Storage.usable ls) eqn:Hok.
  - destruct (usable_parse ls Hok) as [store Hp].
    rewrite (saveUserData_usable bookId d t1 ls store Hok Hp).
    rewrite (saveUserData_usable bookId d t2 ls store Hok Hp).
    unfold Storage.stored, Storage.loadUserData. cbn.
    destruct (decide (bookId = other)) as [-> | Hne].
    + rewrite !lookup_insert_eq. cbn. apply Hf.
    + now rewrite !lookup_insert_ne.
  - now rewrite (saveUserData_unusable bookId d t1 ls Hok),
                (saveUserData_unusable bookId d t2 ls Hok).
Qed.

(** [handleRemoveAnnotation] on a state given by its parts. *)
Lemma handleRemoveAnnotation_built (cfi : string) (now : Z)
    (pr : Reader.Props) (vw : Reader.View) (bm : list BookmarkData.t)
    (an : list Annotation.t) (mo : bool) (pe : option Reader.Pending)
    (ed : option Annotation.t) (se : Reader.SearchBar) (no : Reader.AiNotes)
    (r : option Epub.Rendition) (eb : option Epub.Book) (t : Z)
    (ls : Storage.LocalStorage) (d : Dom.t) :
  let updated :=
    List.filter (fun a => negb (String.eqb (Annotation.cfiRange a) cfi)) an in
  Reader.handleRemoveAnnotation cfi now
    (Reader.mkState pr vw (Reader.mkAnnotationUi bm an mo pe ed) se no
       (Reader.mkEnv r eb t ls d))
  = Reader.mkState pr vw (Reader.mkAnnotationUi bm updated mo pe ed) se no
      (Reader.mkEnv
         (Epub.mark (fun m => Epub.remove cfi "underline" (Epub.remove cfi "highlight" m))
            <$> r)
         eb t
         (match Reader.book pr with
          | Some b =>
              Storage.saveUserData (Reader.Book.id b)
                (BookUserData.mk None None None None (Some updated) None) now ls
          | None => ls
          end)
         d).
Proof. destruct pr as [[b |] mode]; reflexivity. Qed.

Lemma handleRemoveAnnotation_again (cfi : string) (t1 t2 : Z) (st : Reader.State) :
  Reader.handleRemoveAnnotation cfi t2 (Reader.handleRemoveAnnotation cfi t1 st)
  = Reader.handleRemoveAnnotation cfi t2 st.
Proof.
  destruct st as [pr vw [bm an mo pe ed] se no [r eb t ls d]].
  rewrite !handleRemoveAnnotation_built. cbv zeta.
  rewrite filter_twice.
  f_equal. f_equal.
  - destruct r as [[m disp] |]; [| reflexivity].
    unfold Epub.mark. cbn -[Epub.remove]. now rewrite remove_both_twice.
  - destruct (Reader.book pr); [apply saveUserData_again | reflexivity].
Qed.

Lemma handleRemoveAnnotation_rest (cfi : string) (t1 t2 : Z) (st : Reader.State) :
  Observe.withStorageOf (Reader.handleRemoveAnnotation cfi t1 st)
    (Reader.handleRemoveAnnotation cfi t2 st)
  = Reader.handleRemoveAnnotation cfi t1 st.
Proof.
  destruct st as [[b mode] vw [bm an mo pe ed] se no [r eb t ls d]].
  unfold Observe.withStorageOf, Reader.handleRemoveAnnotation.
  destruct b as [b |]; run_setters; reflexivity.
Qed.

Lemma handleRemoveAnnotation_stamp_only {A} (f : BookUserData.t -> option A)
    (cfi other : string) (t1 t2 : Z) (st : Reader.State) :
  (forall i c p b a r r',
      f (BookUserData.mk i c p b a r) = f (BookUserData.mk i c p b a r')) ->
  Observe.storedField f other (Reader.handleRemoveAnnotation cfi t2 st)
  = Observe.storedField f other (Reader.handleRemoveAnnotation cfi t1 st).
Proof.
  intros Hf. destruct st as [[b mode] vw [bm an mo pe ed] se no [r eb t ls d]].
  unfold Observe.storedField, Reader.handleRemoveAnnotation.
  destruct b as [b |]; run_setters; [| reflexivity].
  now apply saveUserData_stamp_only.
Qed.

(** C8 (amended). Dismissing an inline note twice and removing an overlay
    twice are idempotent. Deleting the annotations of an anchor a second
    time leaves the state of the reader as the first deletion left it,
    but for the storage: the deletion saves again, so the stored bundle
    is stamped with the time of the second call, and every other stored
    field is the one the first deletion left. With the same clock value
    the second deletion changes nothing at all. *)
Theorem second_removal_restamps_only
    (id cfi kind : string) (t1 t2 : Z) (m : Epub.Marks) (st : Reader.State) :
  let once := Reader.handleRemoveAnnotation cfi t1 st in
  let twice := Reader.handleRemoveAnnotation cfi t2 once in
  Reader.removeInlineNote id (Reader.removeInlineNote id st)
    = Reader.removeInlineNote id st
  /\ Reader.closePopupNote (Reader.closePopupNote st) = Reader.closePopupNote st
  /\ Epub.remove cfi kind (Epub.remove cfi kind m) = Epub.remove cfi kind m
  /\ Observe.withStorageOf once twice = once
  /\ (forall other,
        Observe.storedField BookUserData.id other twice
          = Observe.storedField BookUserData.id other once
        /\ Observe.storedField BookUserData.lastCfi other twice
           = Observe.storedField BookUserData.lastCfi other once
        /\ Observe.storedField BookUserData.progress other twice
           = Observe.storedField BookUserData.progress other once
        /\ Observe.storedField BookUserData.bookmarks other twice
           = Observe.storedField BookUserData.bookmarks other once
        /\ Observe.storedField BookUserData.annotations other twice
           = Observe.storedField BookUserData.annotations other once)
  /\ Reader.handleRemoveAnnotation cfi t1 once = once.
Proof.
  intros once twice. subst once twice.
  rewrite !handleRemoveAnnotation_again.
  split; [apply removeInlineNote_twice |].
  split; [reflexivity |].
  split; [apply remove_overlay_twice |].
  split; [apply handleRemoveAnnotation_rest |].
  split; [| reflexivity].
  intros other.
  repeat split; apply handleRemoveAnnotation_stamp_only; reflexivity.
Qed.

(** C8, as stated, fails for the deletion: deleting the annotation of
    [anchorA] at time 2000 and again at time 3000 leaves the stored
    bundle stamped 3000 where the first deletion had stamped it 2000. *)
Lemma second_delete_restamps :
  let once := Reader.handleRemoveAnnotation Sample.anchorA 2000 Sample.annotatedOnce in
  let twice := Reader.handleRemoveAnnotation Sample.anchorA 3000 once in
  Observe.storedField BookUserData.lastRead "alphabob" once = Some 2000%Z
  /\ Observe.storedField BookUserData.lastRead "alphabob" twice = Some 3000%Z
  /\ twice <> once.
Proof.
  cbv zeta. split; [vm_compute; reflexivity |]. split; [vm_compute; reflexivity |].
  intros H.
  apply (f_equal (Observe.storedField BookUserData.lastRead "alphabob")) in H.
  vm_compute in H. discriminate H.
Qed.

(** ** Annotations and their anchors *)

Lemma count_at_app (anchor : string) (l1 l2 : list Annotation.t) :
  Observe.count_at anchor (l1 ++ l2)
  = (Observe.count_at anchor l1 + Observe.count_at anchor l2)%nat.
Proof.
  unfold Observe.count_at. now rewrite List.filter_app, length_app.
Qed.

(** The replacement the edit flow makes keeps the anchor of every entry. *)
Lemma count_at_replace (anchor cfi : string) (new : Annotation.t)
    (l : list Annotation.t) :
  Annotation.cfiRange new = cfi ->
  Observe.count_at anchor
    (List.map (fun a => if String.eqb (Annotation.cfiRange a) cfi then new else a) l)
  = Observe.count_at anchor l.
Proof.
  intros Hnew. unfold Observe.count_at.
  induction l as [| a l IH]; [reflexivity |]. cbn.
  destruct (String.eqb (Annotation.cfiRange a) cfi) eqn:Ha.
  - apply String.eqb_eq in Ha. rewrite Hnew, Ha.
    destruct (String.eqb cfi anchor); cbn; now rewrite IH.
  - destruct (String.eqb (Annotation.cfiRange a) anchor); cbn; now rewrite IH.
Qed.

Lemma replaced_at (cfi : string) (new : Annotation.t) (l : list Annotation.t)
    (a : Annotation.t) :
  Annotation.cfiRange new = cfi ->
  In a (List.map (fun a => if String.eqb (Annotation.cfiRange a) cfi then new else a) l) ->
  Annotation.cfiRange a = cfi -> a = new.
Proof.
  intros Hnew Hin Ha. apply in_map_iff in Hin as (a0 & <- & _).
  destruct (String.eqb (Annotation.cfiRange a0) cfi) eqn:H0; [reflexivity |].
  apply String.eqb_neq in H0. contradiction.
Qed.

(** The annotation list after a save from the modal. *)
Lemma handleSaveAnnotation_list (form : Reader.AnnotationForm) (iso : string) (now : Z)
    (st : Reader.State) (cfi textContext : string) :
  Reader.renditionRef (Reader.env st) <> None ->
  Js.truthy cfi = true -> Js.truthy textContext = true ->
  match Reader.editingAnnotation (Reader.annot st) with
  | Some e => Annotation.cfiRange e = cfi /\ Annotation.text e = textContext
  | None => Reader.pendingAnnotation (Reader.annot st)
            = Some (Reader.mkPending cfi textContext)
  end ->
  let new := Annotation.mk cfi textContext (Reader.form_note form)
               (Reader.form_color form) (Reader.form_style form)
               (Reader.form_tags form) iso in
  Reader.annotations (Reader.annot (Reader.handleSaveAnnotation form iso now st))
  = match Reader.editingAnnotation (Reader.annot st) with
    | Some _ =>
        List.map (fun a => if String.eqb (Annotation.cfiRange a) cfi then new else a)
          (Reader.annotations (Reader.annot st))
    | None => Reader.annotations (Reader.annot st) ++ [new]
    end.
Proof.
  intros Hr Hc Ht Hflow new. subst new.
  destruct st as [[b mode] vw [bm an mo pe ed] se no [r eb t ls d]].
  cbn in Hr, Hflow |- *. unfold Reader.handleSaveAnnotation. cbn.
  destruct r as [r |]; [| contradiction].
  destruct ed as [e |].
  - destruct Hflow as [-> ->]. rewrite Hc, Ht. cbn.
    destruct b; run_setters; reflexivity.
  - subst pe. cbn. rewrite Hc, Ht. cbn.
    destruct b; run_setters; reflexivity.
Qed.

(** C1 (amended). Saving a new annotation at anchor [X] appends it to the
    list, so after a creation at an anchor that carried no annotation the
    list holds exactly one annotation at [X]. Saving from the edit flow of
    an annotation at [X] overwrites in place: the list keeps its length,
    every anchor keeps its number of entries and the entry at [X] is the
    saved one, so no entry is added. *)
Theorem annotation_create_then_edit
    (form : Reader.AnnotationForm) (iso : string) (now : Z) (st : Reader.State)
    (X t : string) :
  Reader.renditionRef (Reader.env st) <> None ->
  Js.truthy X = true -> Js.truthy t = true ->
  let before := Reader.annotations (Reader.annot st) in
  let after :=
    Reader.annotations (Reader.annot (Reader.handleSaveAnnotation form iso now st)) in
  let new := Annotation.mk X t (Reader.form_note form) (Reader.form_color form)
               (Reader.form_style form) (Reader.form_tags form) iso in
  (Reader.editingAnnotation (Reader.annot st) = None ->
   Reader.pendingAnnotation (Reader.annot st) = Some (Reader.mkPending X t) ->
   after = before ++ [new]
   /\ (Observe.count_at X before = 0%nat -> Observe.count_at X after = 1%nat))
  /\ (forall e,
        Reader.editingAnnotation (Reader.annot st) = Some e ->
        Annotation.cfiRange e = X -> Annotation.text e = t ->
        length after = length before
        /\ (forall Y, Observe.count_at Y after = Observe.count_at Y before)
        /\ (forall a, In a after -> Annotation.cfiRange a = X -> a = new)).
Proof.
  intros Hr HX Ht before after new. split.
  - intros Hed Hpe.
    assert (Hafter : after = before ++ [new]).
    { subst after before new.
      rewrite (handleSaveAnnotation_list form iso now st X t Hr HX Ht);
        rewrite Hed; [reflexivity | exact Hpe]. }
    split; [exact Hafter |].
    intros H0. rewrite Hafter, count_at_app, H0. subst new.
    unfold Observe.count_at. cbn. now rewrite String.eqb_refl.
  - intros e Hed HeX Het.
    assert (Hafter : after
                     = List.map (fun a => if String.eqb (Annotation.cfiRange a) X
                                          then new else a) before).
    { subst after before new.
      rewrite (handleSaveAnnotation_list form iso now st X t Hr HX Ht);
        rewrite Hed; [reflexivity | split; assumption]. }
    rewrite Hafter. split; [apply length_map |]. split.
    + intros Y. now apply count_at_replace.
    + intros a. now apply replaced_at.
Qed.

Lemma annotation_create_then_edit_witness :
  Observe.count_at Sample.anchorA (Reader.annotations (Reader.annot Sample.annotatedOnce))
  = 1%nat
  /\ length (Reader.annotations
               (Reader.annot
                  (Reader.handleSaveAnnotation Sample.blueUnderline
                     "2024-01-02T00:00:00.000Z" 2000
                     (Reader.on_markClicked Sample.anchorA None Sample.annotatedOnce))))
     = 1%nat.
Proof.
  split.
  - pose (st := Reader.handleOpenAnnotationModal
                  (Reader.on_selected Sample.aSelection 1000
                     (Sample.reading Sample.twoChapters))).
    destruct (annotation_create_then_edit Sample.yellowHighlight
                "2024-01-01T00:00:00.000Z" 1000 st Sample.anchorA "Alpha")
      as [Hcreate _].
    + discriminate.
    + reflexivity.
    + reflexivity.
    + destruct (Hcreate eq_refl eq_refl) as [_ Hone]. exact (Hone eq_refl).
  - destruct (annotation_create_then_edit Sample.blueUnderline
                "2024-01-02T00:00:00.000Z" 2000
                (Reader.on_markClicked Sample.anchorA None Sample.annotatedOnce)
                Sample.anchorA "Alpha")
      as [_ Hedit].
    + discriminate.
    + reflexivity.
    + reflexivity.
    + destruct (Hedit _ eq_refl eq_refl eq_refl) as [Hlen _]. exact Hlen.
Defined.

(** C1, as stated, fails for the creation: annotating the same selection
    twice through the menu leaves two annotations at its anchor. *)
Lemma create_twice_duplicates :
  let twice :=
    Sample.annotate Sample.aSelection Sample.blueUnderline
      "2024-01-02T00:00:00.000Z" 2000 Sample.annotatedOnce in
  Observe.count_at Sample.anchorA (Reader.annotations (Reader.annot twice)) = 2%nat
  /\ Observe.count_at Sample.anchorA (Reader.annotations (Reader.annot twice)) <> 1%nat
  /\ Observe.storedField BookUserData.annotations "alphabob" twice
     = Some (Reader.annotations (Reader.annot twice)).
Proof.
  cbv zeta. split; [vm_compute; reflexivity |].
  split; [vm_compute; discriminate | vm_compute; reflexivity].
Qed.

(** ** The cursor of the interactive search *)

Lemma updateActiveSearchHighlight_cursor (seen : Reader.State) (index : Z)
    (matches : list Epub.Found) (st : Reader.State) :
  Observe.cursor (Reader.updateActiveSearchHighlight seen index matches st) = index
  /\ Reader.searchMatches
       (Reader.search (Reader.updateActiveSearchHighlight seen index matches st))
     = Reader.searchMatches (Reader.search st).
Proof.
  unfold Reader.updateActiveSearchHighlight, Observe.cursor.
  destruct (negb (Reader.currentMatchIndex (Reader.search seen) =? -1)%Z);
    [destruct (Reader.at_index matches (Reader.currentMatchIndex (Reader.search seen))) |];
    destruct (Reader.at_index matches index); split; reflexivity.
Qed.

(** One press of "next": the cursor moves on by one and wraps to 0 past
    the last match; the matches stay. *)
Lemma next_cursor (st : Reader.State) :
  let N := Z.of_nat (length (Reader.searchMatches (Reader.search st))) in
  (1 <= N)%Z ->
  Observe.cursor (Reader.next st)
  = (if (N <=? Observe.cursor st + 1)%Z then 0 else Observe.cursor st + 1)%Z
  /\ Reader.searchMatches (Reader.search (Reader.next st))
     = Reader.searchMatches (Reader.search st).
Proof.
  intros N HN. unfold Reader.next, Reader.nextSearchMatch. cbn [default].
  destruct (length (Reader.searchMatches (Reader.search st)) =? 0)%nat eqn:H0.
  - apply Nat.eqb_eq in H0. subst N. rewrite H0 in HN. cbn in HN. lia.
  - fold N. unfold Observe.cursor at 2 3.
    apply updateActiveSearchHighlight_cursor.
Qed.

Lemma previous_cursor (st : Reader.State) :
  let N := Z.of_nat (length (Reader.searchMatches (Reader.search st))) in
  (1 <= N)%Z ->
  Observe.cursor (Reader.previous st)
  = (if (Observe.cursor st - 1 <? 0)%Z then N - 1 else Observe.cursor st - 1)%Z.
Proof.
  intros N HN. unfold Reader.previous, Reader.prevSearchMatch.
  destruct (length (Reader.searchMatches (Reader.search st)) =? 0)%nat eqn:H0.
  - apply Nat.eqb_eq in H0. subst N. rewrite H0 in HN. cbn in HN. lia.
  - fold N. unfold Observe.cursor at 2 3.
    apply updateActiveSearchHighlight_cursor.
Qed.

(** [k] presses of "next" that stay below the last match add [k]. *)
Lemma next_steps (k : nat) :
  forall (st : Reader.State),
    let N := Z.of_nat (length (Reader.searchMatches (Reader.search st))) in
    (-1 <= Observe.cursor st)%Z ->
    (Observe.cursor st + Z.of_nat k < N)%Z ->
    Observe.cursor (Nat.iter k Reader.next st) = (Observe.cursor st + Z.of_nat k)%Z
    /\ Reader.searchMatches (Reader.search (Nat.iter k Reader.next st))
       = Reader.searchMatches (Reader.search st).
Proof.
  induction k as [| k IH]; intros st N Hlo Hhi.
  - cbn. split; [lia | reflexivity].
  - destruct (IH st) as [Hc Hm]; [exact Hlo | fold N; lia |].
    rewrite Nat.iter_succ.
    destruct (next_cursor (Nat.iter k Reader.next st)) as [Hc' Hm'].
    + rewrite Hm. fold N. lia.
    + rewrite Hm in Hc'. fold N in Hc'. rewrite Hc in Hc'.
      split; [| now rewrite Hm', Hm].
      rewrite Hc'. destruct (N <=? _)%Z eqn:Hw; [apply Z.leb_le in Hw |]; lia.
Qed.

(** C3 (amended). With N >= 1 matches the first "next" from the unset
    cursor lands on the first match, N presses from the unset cursor stop
    on the last match, and the press after that wraps to the first: the
    cursor is back on the first match after N presses counted from the
    first match, which is where a finished search leaves it. One
    "previous" from the first match lands on match N-1. *)
Theorem search_cursor_wraps (st : Reader.State) :
  let N := length (Reader.searchMatches (Reader.search st)) in
  (1 <= N)%nat ->
  (Observe.cursor st = (-1)%Z ->
     Observe.cursor (Reader.next st) = 0%Z
     /\ Observe.cursor (Nat.iter N Reader.next st) = (Z.of_nat N - 1)%Z
     /\ Observe.cursor (Nat.iter (S N) Reader.next st) = 0%Z)
  /\ (Observe.cursor st = 0%Z -> Observe.cursor (Nat.iter N Reader.next st) = 0%Z)
  /\ (Observe.cursor st = (Z.of_nat N - 1)%Z -> Observe.cursor (Reader.next st) = 0%Z)
  /\ (Observe.cursor st = 0%Z ->
      Observe.cursor (Reader.previous st) = (Z.of_nat N - 1)%Z).
Proof.
  intros N HN.
  assert (Hlast : forall s : Reader.State,
             Reader.searchMatches (Reader.search s)
             = Reader.searchMatches (Reader.search st) ->
             Observe.cursor s = (Z.of_nat N - 1)%Z ->
             Observe.cursor (Reader.next s) = 0%Z).
  { intros s Hm Hc. destruct (next_cursor s) as [Hn _]; [rewrite Hm; fold N; lia |].
    rewrite Hn, Hm, Hc. fold N.
    destruct (Z.of_nat N <=? _)%Z eqn:Hw; [reflexivity | apply Z.leb_gt in Hw; lia]. }
  split; [| split; [| split]].
  - intros Hc.
    destruct (next_steps N st) as [HcN HmN]; [lia | fold N; lia |].
    split; [| split].
    + destruct (next_cursor st) as [Hn _]; [fold N; lia |].
      rewrite Hn, Hc. fold N.
      destruct (Z.of_nat N <=? _)%Z eqn:Hw; [reflexivity | lia].
    + rewrite HcN, Hc. lia.
    + rewrite Nat.iter_succ. apply Hlast; [exact HmN | rewrite HcN, Hc; lia].
  - intros Hc. destruct N as [| n] eqn:HNn; [lia |].
    destruct (next_steps n st) as [Hcn Hmn]; [lia | fold N; lia |].
    rewrite Nat.iter_succ. apply Hlast; [exact Hmn | rewrite Hcn, Hc; lia].
  - intros Hc. now apply Hlast.
  - intros Hc. rewrite previous_cursor by (fold N; lia). rewrite Hc. reflexivity.
Qed.

Lemma search_cursor_wraps_witness :
  Observe.cursor (Nat.iter 4 Reader.next (Sample.withMatches 3)) = 0%Z
  /\ Observe.cursor (Reader.previous (Reader.next (Sample.withMatches 3))) = 2%Z.
Proof.
  split.
  - destruct (search_cursor_wraps (Sample.withMatches 3)) as [Hunset _].
    + vm_compute. lia.
    + destruct (Hunset eq_refl) as (_ & _ & Hwrap). exact Hwrap.
  - destruct (search_cursor_wraps (Reader.next (Sample.withMatches 3)))
      as (_ & _ & _ & Hprev).
    + vm_compute. lia.
    + exact (Hprev eq_refl).
Defined.

(** C3, as stated, fails for "next": with two matches, two presses from
    the unset cursor stop on the second match, not on the first. *)
Lemma next_twice_from_unset :
  Observe.cursor (Sample.withMatches 2) = (-1)%Z
  /\ Observe.cursor (Nat.iter 2 Reader.next (Sample.withMatches 2)) = 1%Z
  /\ Observe.cursor (Nat.iter 2 Reader.next (Sample.withMatches 2)) <> 0%Z.
Proof. vm_compute. repeat split; discriminate. Qed.

(** ** Import *)

Lemma bookId_slug (title author uuid : string) :
  App.idString title author <> "" ->
  App.bookId title author uuid = App.idString title author.
Proof.
  intros H. unfold App.bookId, Js.or_else, Js.truthy.
  apply String.eqb_neq in H. now rewrite H.
Qed.

Lemma bookId_random (title author uuid : string) :
  App.idString title author = "" -> App.bookId title author uuid = uuid.
Proof. intros H. unfold App.bookId. now rewrite H. Qed.

Lemma existsb_last (id : string) (books : list Reader.Book.t) (b : Reader.Book.t) :
  Reader.Book.id b = id ->
  existsb (fun b => String.eqb (Reader.Book.id b) id) (books ++ [b]) = true.
Proof.
  intros Hb. rewrite existsb_app. cbn. rewrite Hb, String.eqb_refl.
  now rewrite orb_true_r.
Qed.

(** C5 (amended). A file that can be imported is filed under the id made
    of the lower-cased "title-author" with every character outside a-z
    and 0-9 taken out (the hyphen too: "Alpha" by "Bob" gives "alphabob"),
    and under the random id when nothing is left of it. When the derived
    id is not empty, importing the same file again leaves the library as
    the first import left it. *)
Theorem import_is_keyed_by_slug
    (file : App.File) (probe : App.Probe) (u1 u2 : string)
    (books : list Reader.Book.t) :
  App.sniff file <> unsupported ->
  (App.sniff file = txt -> Js.truthy (App.data file) = true) ->
  let title := (App.describe file (App.sniff file) probe).1.1 in
  let author := (App.describe file (App.sniff file) probe).1.2 in
  let once := App.handleAddBook file probe u1 books in
  let twice := App.handleAddBook file probe u2 once in
  (exists b, In b once /\ Reader.Book.id b = App.bookId title author u1)
  /\ (App.idString title author <> "" ->
      App.bookId title author u1 = App.idString title author /\ twice = once)
  /\ (App.idString title author = "" -> App.bookId title author u1 = u1)
  /\ App.idString "Alpha" "Bob" = "alphabob".
Proof.
  intros Hsup Hread title author once twice.
  assert (Hstep : forall u lib,
             App.handleAddBook file probe u lib
             = if existsb (fun b => String.eqb (Reader.Book.id b)
                                      (App.bookId title author u)) lib
               then lib
               else lib ++ [Reader.Book.mk (App.bookId title author u) title author
                              (match App.sniff file with
                               | txt => Reader.Text (App.data file)
                               | _ => Reader.Buffer (App.data file)
                               end)
                              (App.sniff file)
                              (App.describe file (App.sniff file) probe).2
                              (match App.sniff file with
                               | txt => Some (App.data file) | _ => None end)
                              (match App.sniff file with
                               | txt => true | _ => false end)]).
  { intros u lib. subst title author. unfold App.handleAddBook.
    destruct (App.describe file (App.sniff file) probe) as [[ti au] co].
    destruct (App.sniff file) eqn:Hty; try contradiction; cbn;
      try reflexivity.
    rewrite (Hread eq_refl). reflexivity. }
  split; [| split; [| split]].
  - subst once. rewrite Hstep.
    destruct (existsb _ books) eqn:Hex.
    + apply existsb_exists in Hex as (b & Hin & Hb).
      apply String.eqb_eq in Hb. now exists b.
    + eexists. split; [apply in_or_app; right; left; reflexivity | reflexivity].
  - intros Hslug. split; [now apply bookId_slug |].
    subst twice once. rewrite (Hstep u2).
    rewrite (bookId_slug title author u2 Hslug), <- (bookId_slug title author u1 Hslug).
    rewrite Hstep.
    destruct (existsb _ books) eqn:Hex; [now rewrite Hex |].
    now rewrite existsb_last.
  - apply bookId_random.
  - reflexivity.
Qed.

Lemma import_is_keyed_by_slug_witness :
  List.map Reader.Book.id
    (App.handleAddBook Sample.alphaEpub Sample.byBob Sample.uuid2
       (App.handleAddBook Sample.alphaEpub Sample.byBob Sample.uuid1 []))
  = ["alphabob"].
Proof.
  destruct (import_is_keyed_by_slug Sample.alphaEpub Sample.byBob Sample.uuid1
              Sample.uuid2 []) as (_ & Hslug & _).
  - discriminate.
  - discriminate.
  - destruct Hslug as [_ Hsame]; [discriminate |].
    rewrite Hsame. reflexivity.
Defined.

(** C5, as stated, fails on the id and on the second import: "Alpha" by
    "Bob" is filed under "alphabob" (and the plain-text file Alpha.txt,
    whose author is always "Unknown Author", under "alphaunknownauthor"),
    not under "alpha-bob"; and a book whose title and author leave nothing
    of the derived id gets a new random id at every import, so the second
    import adds a second entry. *)
Lemma import_slug_has_no_hyphen :
  List.map Reader.Book.id (App.handleAddBook Sample.alphaEpub Sample.byBob Sample.uuid1 [])
  = ["alphabob"]
  /\ List.map Reader.Book.id (App.handleAddBook Sample.alphaTxt Sample.byBob Sample.uuid1 [])
     = ["alphaunknownauthor"]
  /\ "alphabob" <> "alpha-bob"
  /\ List.map Reader.Book.id
       (App.handleAddBook Sample.alphaEpub Sample.untitled Sample.uuid2
          (App.handleAddBook Sample.alphaEpub Sample.untitled Sample.uuid1 []))
     = [Sample.uuid1; Sample.uuid2].
Proof. vm_compute. repeat split; discriminate. Qed.

(** * Further properties *)

(** ** Storage: how saves compose *)

Lemma pick_assoc {A} (a b c : option A) :
  BookUserData.pick (BookUserData.pick a b) c
  = BookUserData.pick a (BookUserData.pick b c).
Proof. destruct c, b; reflexivity. Qed.

Lemma stamped_spread_spread (old d1 d2 : BookUserData.t) (bookId : string) (t1 t2 : Z) :
  Storage.stamped bookId t2
    (BookUserData.spread (Storage.stamped bookId t1 (BookUserData.spread old d1)) d2)
  = Storage.stamped bookId t2 (BookUserData.spread old (BookUserData.spread d1 d2)).
Proof.
  unfold Storage.stamped, BookUserData.spread. cbn. now rewrite !pick_assoc.
Qed.

(** X1. Two saves for a book, one after the other, leave what one save of
    the two partial updates merged (the later one winning on the fields
    both name) leaves at the time of the second: no field saved by the
    first is lost to the second. *)
Theorem saveUserData_composes
    (bookId : string) (d1 d2 : BookUserData.t) (t1 t2 : Z) (ls : Storage.LocalStorage) :
  Storage.saveUserData bookId d2 t2 (Storage.saveUserData bookId d1 t1 ls)
  = Storage.saveUserData bookId (BookUserData.spread d1 d2) t2 ls.
Proof.
  destruct (Storage.usable ls) eqn:Hok.
  - destruct (usable_parse ls Hok) as [store Hp].
    rewrite (saveUserData_usable bookId d1 t1 ls store Hok Hp).
    rewrite (saveUserData_usable bookId _ t2 ls store Hok Hp).
    erewrite saveUserData_usable; [| reflexivity | reflexivity].
    now rewrite bundle_inserted, stamped_spread_spread, insert_insert_eq.
  - rewrite (saveUserData_unusable bookId d1 t1 ls Hok).
    now rewrite !saveUserData_unusable.
Qed.

(** X2. Saves for two different books do not interfere: in either order
    they leave the same storage. *)
Theorem saveUserData_commutes
    (a b : string) (da db : BookUserData.t) (ta tb : Z) (ls : Storage.LocalStorage) :
  a <> b ->
  Storage.saveUserData a da ta (Storage.saveUserData b db tb ls)
  = Storage.saveUserData b db tb (Storage.saveUserData a da ta ls).
Proof.
  intros Hab. destruct (Storage.usable ls) eqn:Hok.
  - destruct (usable_parse ls Hok) as [store Hp].
    rewrite (saveUserData_usable b db tb ls store Hok Hp).
    rewrite (saveUserData_usable a da ta ls store Hok Hp).
    erewrite !saveUserData_usable; try reflexivity.
    unfold Storage.bundle. rewrite !lookup_insert_ne by congruence.
    f_equal. f_equal. apply insert_insert_ne. congruence.
  - rewrite (saveUserData_unusable b db tb ls Hok).
    rewrite (saveUserData_unusable a da ta ls Hok).
    now rewrite saveUserData_unusable.
Qed.

Lemma saveUserData_commutes_witness :
  Storage.saveUserData "alphabob" Sample.aPosition 200
    (Storage.saveUserData "other" Sample2.someAnnotations 300 Sample.twoBundles)
  = Storage.saveUserData "other" Sample2.someAnnotations 300
      (Storage.saveUserData "alphabob" Sample.aPosition 200 Sample.twoBundles).
Proof.
  apply (saveUserData_commutes "alphabob" "other"). discriminate.
Defined.

(** X3. A save never touches the bundle of another book, whether it goes
    through or fails; and a save that fails (the stored text does not
    parse, or writing throws) leaves the storage as it was, so every load
    gives what it gave before. *)
Theorem saveUserData_failure_and_frame
    (bookId other : string) (data : BookUserData.t) (now : Z)
    (ls : Storage.LocalStorage) :
  (other <> bookId ->
   Storage.loadUserData other (Storage.saveUserData bookId data now ls)
   = Storage.loadUserData other ls)
  /\ (Storage.usable ls = false ->
      Storage.saveUserData bookId data now ls = ls)
  /\ (Storage.DATA ls = Storage.Malformed ->
      Storage.loadUserData other (Storage.saveUserData bookId data now ls) = None).
Proof.
  split; [| split].
  - intros Hne. destruct (Storage.usable ls) eqn:Hok.
    + destruct (usable_parse ls Hok) as [store Hp].
      rewrite (saveUserData_usable bookId data now ls store Hok Hp).
      unfold Storage.loadUserData. rewrite Hp. cbn.
      apply lookup_insert_ne. congruence.
    + now rewrite saveUserData_unusable.
  - apply saveUserData_unusable.
  - intros Hbad. rewrite saveUserData_unusable.
    + unfold Storage.loadUserData, Storage.parse. now rewrite Hbad.
    + unfold Storage.usable. now rewrite Hbad.
Qed.

Lemma saveUserData_failure_and_frame_witness :
  Storage.loadUserData "other"
    (Storage.saveUserData "alphabob" Sample.aPosition 200 Sample.twoBundles)
  = Storage.loadUserData "other" Sample.twoBundles
  /\ Storage.saveUserData "alphabob" Sample.aPosition 200
       (Storage.mkLS (Storage.DATA Sample.twoBundles) true)
     = Storage.mkLS (Storage.DATA Sample.twoBundles) true.
Proof.
  split.
  - apply (saveUserData_failure_and_frame "alphabob" "other"). discriminate.
  - apply (saveUserData_failure_and_frame "alphabob" "other"). reflexivity.
Defined.

(** X4. [getAllUserData] and [loadUserData] agree: the bundle loaded for a
    book is the entry of the dictionary under its id. After a save that
    goes through, the dictionary lists the saved book and the books it
    listed before, and no other. *)
Theorem getAllUserData_lists_saved
    (bookId : string) (data : BookUserData.t) (now : Z) (ls : Storage.LocalStorage) :
  Storage.usable ls = true ->
  (forall k, Storage.loadUserData k ls = StorageOps.getAllUserData ls !! k)
  /\ dom (StorageOps.getAllUserData (Storage.saveUserData bookId data now ls))
     = {[bookId]} ∪ dom (StorageOps.getAllUserData ls).
Proof.
  intros Hok. destruct (usable_parse ls Hok) as [store Hp]. split.
  - intros k. unfold Storage.loadUserData, StorageOps.getAllUserData.
    now rewrite Hp.
  - rewrite (saveUserData_usable bookId data now ls store Hok Hp).
    unfold StorageOps.getAllUserData. rewrite Hp. cbn. apply dom_insert_L.
Qed.

Lemma getAllUserData_lists_saved_witness :
  dom (StorageOps.getAllUserData
         (Storage.saveUserData "third" Sample.aPosition 200 Sample.twoBundles))
  = {["third"]} ∪ dom (StorageOps.getAllUserData Sample.twoBundles).
Proof.
  apply (getAllUserData_lists_saved "third" Sample.aPosition 200 Sample.twoBundles).
  reflexivity.
Defined.

(** ** Global settings *)

(** X5. Settings that were saved are loaded back completed by the
    defaults: a key the saved object has keeps the saved value, a key it
    lacks takes the default. Settings that have every default key are
    loaded back as they were saved. *)
Theorem settings_round_trip
    (settings : gmap string Settings.Value) (ls : Settings.LocalStorage) :
  Settings.quota_exceeded ls = false ->
  let loaded := Settings.loadGlobalSettings (Settings.saveGlobalSettings settings ls) in
  (forall k, loaded !! k = match settings !! k with
                           | Some v => Some v
                           | None => Settings.DEFAULT_SETTINGS !! k
                           end)
  /\ (dom Settings.DEFAULT_SETTINGS ⊆ dom settings -> loaded = settings).
Proof.
  intros Hq loaded.
  assert (Hl : loaded = settings ∪ Settings.DEFAULT_SETTINGS).
  { subst loaded. unfold Settings.saveGlobalSettings. now rewrite Hq. }
  assert (Hk : forall k, loaded !! k = match settings !! k with
                                       | Some v => Some v
                                       | None => Settings.DEFAULT_SETTINGS !! k
                                       end).
  { intros k. rewrite Hl, lookup_union.
    destruct (settings !! k), (Settings.DEFAULT_SETTINGS !! k); reflexivity. }
  split; [exact Hk |].
  intros Hdom. apply map_eq. intros k. rewrite Hk.
  destruct (settings !! k) eqn:Hs; [reflexivity |].
  apply not_elem_of_dom. apply not_elem_of_dom in Hs.
  intros Hin. apply Hs, Hdom, Hin.
Qed.

Lemma settings_round_trip_witness :
  Settings.loadGlobalSettings
    (Settings.saveGlobalSettings Sample2.oldSettings Sample2.settingsStorage)
  !! "theme" = Some (Settings.VStr "dark")
  /\ Settings.loadGlobalSettings
       (Settings.saveGlobalSettings Sample2.oldSettings Sample2.settingsStorage)
     !! "flow" = Some (Settings.VStr "paginated").
Proof.
  destruct (settings_round_trip Sample2.oldSettings Sample2.settingsStorage eq_refl)
    as [Hk _].
  split; rewrite Hk; reflexivity.
Defined.

(** X6. Whatever the storage holds, the loaded settings have every key of
    the defaults; with nothing saved, or a saved text that does not parse,
    they are the defaults; and a save that throws leaves the settings that
    are loaded unchanged. *)
Theorem settings_fall_back_to_defaults
    (settings : gmap string Settings.Value) (ls : Settings.LocalStorage) :
  dom Settings.DEFAULT_SETTINGS ⊆ dom (Settings.loadGlobalSettings ls)
  /\ (Settings.SETTINGS ls = Settings.Missing \/ Settings.SETTINGS ls = Settings.Malformed ->
      Settings.loadGlobalSettings ls = Settings.DEFAULT_SETTINGS)
  /\ (Settings.quota_exceeded ls = true ->
      Settings.loadGlobalSettings (Settings.saveGlobalSettings settings ls)
      = Settings.loadGlobalSettings ls).
Proof.
  split; [| split].
  - unfold Settings.loadGlobalSettings.
    destruct (Settings.SETTINGS ls); [reflexivity | reflexivity |].
    rewrite dom_union_L. apply union_subseteq_r.
  - unfold Settings.loadGlobalSettings. intros [-> | ->]; reflexivity.
  - intros Hq. unfold Settings.saveGlobalSettings. now rewrite Hq.
Qed.

Lemma settings_fall_back_to_defaults_witness :
  Settings.loadGlobalSettings (Settings.mkLS Settings.Malformed false)
  = Settings.DEFAULT_SETTINGS
  /\ Settings.loadGlobalSettings
       (Settings.saveGlobalSettings Sample2.oldSettings
          (Settings.mkLS (Settings.Json Sample2.oldSettings) true))
     = Settings.loadGlobalSettings (Settings.mkLS (Settings.Json Sample2.oldSettings) true).
Proof.
  split.
  - apply (settings_fall_back_to_defaults Sample2.oldSettings
             (Settings.mkLS Settings.Malformed false)).
    right. reflexivity.
  - apply (settings_fall_back_to_defaults Sample2.oldSettings
             (Settings.mkLS (Settings.Json Sample2.oldSettings) true)).
    reflexivity.
Defined.

Lemma Math_max_bounds (f : Q) :
  (12 <= f)%Q -> (f <= 36)%Q ->
  (12 <= Settings.Math_max 12 (f - 2))%Q /\ (Settings.Math_max 12 (f - 2) <= 36)%Q.
Proof.
  intros Hlo Hhi. unfold Settings.Math_max.
  destruct (Qle_bool 12 (f - 2)) eqn:Hb.
  - apply Qle_bool_iff in Hb. split; lra.
  - split; lra.
Qed.

Lemma Math_min_bounds (f : Q) :
  (12 <= f)%Q -> (f <= 36)%Q ->
  (12 <= Settings.Math_min 36 (f + 2))%Q /\ (Settings.Math_min 36 (f + 2) <= 36)%Q.
Proof.
  intros Hlo Hhi. unfold Settings.Math_min.
  destruct (Qle_bool 36 (f + 2)) eqn:Hb.
  - split; lra.
  - assert (~ (36 <= f + 2)%Q) by (rewrite <- Qle_bool_iff, Hb; discriminate).
    split; lra.
Qed.

(** X7. The zoom buttons keep the font size between 12 and 36: from a
    size in that range both buttons lead to a size in that range (zooming
    out stops at 12, zooming in at 36), and they change no other setting. *)
Theorem zoom_keeps_font_size_in_range (settings : gmap string Settings.Value) (f : Q) :
  Settings.fontSize settings = Some f ->
  (12 <= f)%Q -> (f <= 36)%Q ->
  exists smaller larger fo fi,
    Settings.zoomOut settings = Some smaller
    /\ Settings.zoomIn settings = Some larger
    /\ Settings.fontSize smaller = Some fo /\ (12 <= fo)%Q /\ (fo <= f)%Q
    /\ Settings.fontSize larger = Some fi /\ (f <= fi)%Q /\ (fi <= 36)%Q
    /\ (forall k, k <> "fontSize" ->
          smaller !! k = settings !! k /\ larger !! k = settings !! k).
Proof.
  intros Hf Hlo Hhi.
  destruct (Math_max_bounds f Hlo Hhi) as [Ho1 Ho2].
  destruct (Math_min_bounds f Hlo Hhi) as [Hi1 Hi2].
  unfold Settings.zoomOut, Settings.zoomIn. rewrite Hf. cbn.
  eexists _, _, _, _. split; [reflexivity |]. split; [reflexivity |].
  unfold Settings.fontSize. rewrite !lookup_insert_eq.
  split; [reflexivity |]. split; [exact Ho1 |]. split.
  - unfold Settings.Math_max. destruct (Qle_bool 12 (f - 2)); lra.
  - split; [reflexivity |]. split.
    + unfold Settings.Math_min. destruct (Qle_bool 36 (f + 2)); lra.
    + split; [exact Hi2 |].
      intros k Hk. now rewrite !lookup_insert_ne by congruence.
Qed.

Lemma zoom_keeps_font_size_in_range_witness :
  exists smaller larger fo fi,
    Settings.zoomOut Settings.DEFAULT_SETTINGS = Some smaller
    /\ Settings.zoomIn Settings.DEFAULT_SETTINGS = Some larger
    /\ Settings.fontSize smaller = Some fo /\ (12 <= fo)%Q /\ (fo <= 18)%Q
    /\ Settings.fontSize larger = Some fi /\ (18 <= fi)%Q /\ (fi <= 36)%Q
    /\ (forall k, k <> "fontSize" ->
          smaller !! k = Settings.DEFAULT_SETTINGS !! k
          /\ larger !! k = Settings.DEFAULT_SETTINGS !! k).
Proof.
  apply (zoom_keeps_font_size_in_range Settings.DEFAULT_SETTINGS 18).
  - reflexivity.
  - discriminate.
  - discriminate.
Defined.

(** ** Annotations: deletion, overlays, persistence *)







(** [handleSaveAnnotation] on a state given by its parts, when the save
    goes through. *)
Lemma handleSaveAnnotation_built (form : Reader.AnnotationForm) (iso : string) (now : Z)
    (pr : Reader.Props) (vw : Reader.View) (bm : list BookmarkData.t)
    (an : list Annotation.t) (mo : bool) (pe : option Reader.Pending)
    (ed : option Annotation.t) (se : Reader.SearchBar) (no : Reader.AiNotes)
    (r : Epub.Rendition) (eb : option Epub.Book) (t : Z)
    (ls : Storage.LocalStorage) (d : Dom.t) (cfi textContext : string) :
  Js.truthy cfi = true -> Js.truthy textContext = true ->
  match ed with
  | Some e => Annotation.cfiRange e = cfi /\ Annotation.text e = textContext
  | None => pe = Some (Reader.mkPending cfi textContext)
  end ->
  let new := Annotation.mk cfi textContext (Reader.form_note form)
               (Reader.form_color form) (Reader.form_style form)
               (Reader.form_tags form) iso in
  let updated :=
    match ed with
    | Some _ =>
        List.map (fun a => if String.eqb (Annotation.cfiRange a) cfi then new else a) an
    | None => an ++ [new]
    end in
  Reader.handleSaveAnnotation form iso now
    (Reader.mkState pr vw (Reader.mkAnnotationUi bm an mo pe ed) se no
       (Reader.mkEnv (Some r) eb t ls d))
  = Reader.mkState pr vw (Reader.mkAnnotationUi bm updated mo None None) se no
      (Reader.mkEnv
         (Some (Epub.mark
                  (fun m =>
                     Epub.add (style_name (Reader.form_style form)) cfi
                       (Reader.overlayClass (Reader.form_style form)
                          (Reader.form_color form))
                       (match ed with
                        | Some _ =>
                            Epub.remove cfi "underline" (Epub.remove cfi "highlight" m)
                        | None => m
                        end)) r))
         eb t
         (match Reader.book pr with
          | Some b =>
              Storage.saveUserData (Reader.Book.id b)
                (BookUserData.mk None None None None (Some updated) None) now ls
          | None => ls
          end)
         d).
Proof.
  intros Hc Ht Hflow new updated. subst new updated.
  unfold Reader.handleSaveAnnotation.
  cbn [Reader.env Reader.renditionRef Reader.annot Reader.editingAnnotation
       Reader.pendingAnnotation].
  destruct ed as [e |].
  - destruct Hflow as [He1 He2]. rewrite He1, He2, Hc, Ht.
    destruct pr as [[b |] mode]; reflexivity.
  - rewrite Hflow. cbn [fmap option_fmap option_map Reader.pending_cfi Reader.pending_text].
    rewrite Hc, Ht. destruct pr as [[b |] mode]; reflexivity.
Qed.

(** The overlays of a state are those of its rendition. *)
Lemma overlayClassAt_env (anchor kind : string) (st : Reader.State) :
  Observe.overlayClassAt anchor kind st
  = match Reader.renditionRef (Reader.env st) with
    | Some r => Epub.className <$> (Epub.annotations r !! (anchor, kind))
    | None => None
    end.
Proof.
  unfold Observe.overlayClassAt.
  destruct (Reader.renditionRef (Reader.env st)); reflexivity.
Qed.



(** What is stored under a book after a save that goes through. *)
Lemma stored_after_save {A} (f : BookUserData.t -> option A) (bookId : string)
    (data : BookUserData.t) (now : Z) (ls : Storage.LocalStorage) :
  Storage.usable ls = true ->
  Storage.stored f bookId (Storage.saveUserData bookId data now ls)
  = f (Storage.stamped bookId now
         (BookUserData.spread
            (default BookUserData.empty (Storage.loadUserData bookId ls)) data)).
Proof.
  intros Hok. destruct (usable_parse ls Hok) as [store Hp].
  rewrite (saveUserData_usable bookId data now ls store Hok Hp).
  rewrite (bundle_load bookId ls store Hp).
  unfold Storage.stored, Storage.loadUserData. cbn.
  now rewrite lookup_insert_eq.
Qed.

(** A save that does not name the annotations leaves the stored
    annotations of every book as they were, also when it fails. *)
Lemma saveUserData_keeps_annotations (bookId k : string) (data : BookUserData.t)
    (now : Z) (ls : Storage.LocalStorage) :
  BookUserData.annotations data = None ->
  Storage.stored BookUserData.annotations k (Storage.saveUserData bookId data now ls)
  = Storage.stored BookUserData.annotations k ls.
Proof.
  intros Hd. destruct (Storage.usable ls) eqn:Hok.
  - destruct (decide (k = bookId)) as [-> | Hne].
    + rewrite stored_after_save by exact Hok. cbn. rewrite Hd. cbn.
      unfold Storage.stored. now destruct (Storage.loadUserData bookId ls).
    + destruct (usable_parse ls Hok) as [store Hp].
      rewrite (saveUserData_usable bookId data now ls store Hok Hp).
      unfold Storage.stored, Storage.loadUserData. rewrite Hp. cbn.
      now rewrite lookup_insert_ne by congruence.
  - now rewrite saveUserData_unusable.
Qed.

(** X10. A save from the annotation modal writes the list through: with
    a book open and a working storage, the annotations stored for the
    book after the save are the list the reader holds, stamped with the
    time of the save, and the modal's pending and editing entries are
    cleared. *)
Theorem handleSaveAnnotation_persists
    (form : Reader.AnnotationForm) (iso : string) (now : Z) (st : Reader.State)
    (X t : string) (b : Reader.Book.t) :
  Reader.renditionRef (Reader.env st) <> None ->
  Js.truthy X = true -> Js.truthy t = true ->
  match Reader.editingAnnotation (Reader.annot st) with
  | Some e => Annotation.cfiRange e = X /\ Annotation.text e = t
  | None => Reader.pendingAnnotation (Reader.annot st) = Some (Reader.mkPending X t)
  end ->
  Reader.book (Reader.props st) = Some b ->
  Storage.usable (Reader.localStorage (Reader.env st)) = true ->
  let st' := Reader.handleSaveAnnotation form iso now st in
  Observe.storedField BookUserData.annotations (Reader.Book.id b) st'
  = Some (Reader.annotations (Reader.annot st'))
  /\ Observe.storedField BookUserData.lastRead (Reader.Book.id b) st' = Some now
  /\ Reader.pendingAnnotation (Reader.annot st') = None
  /\ Reader.editingAnnotation (Reader.annot st') = None.
Proof.
  destruct st as [pr vw [bm an mo pe ed] se no [r eb ti ls d]].
  cbn [Reader.env Reader.renditionRef Reader.annot Reader.editingAnnotation
       Reader.pendingAnnotation Reader.props Reader.localStorage].
  intros Hr HX Ht Hflow Hb Hok.
  destruct r as [r |]; [| contradiction].
  cbv zeta.
  rewrite (handleSaveAnnotation_built form iso now pr vw bm an mo pe ed se no r eb ti
             ls d X t HX Ht Hflow).
  cbv zeta. unfold Observe.storedField.
  cbn [Reader.env Reader.localStorage Reader.annot Reader.annotations
       Reader.pendingAnnotation Reader.editingAnnotation].
  rewrite Hb, !stored_after_save by exact Hok.
  repeat split; reflexivity.
Qed.

Lemma handleSaveAnnotation_persists_witness :
  Observe.storedField BookUserData.annotations "alphabob" Sample.annotatedOnce
  = Some (Reader.annotations (Reader.annot Sample.annotatedOnce)).
Proof.
  assert (Hr : Reader.renditionRef
                 (Reader.env
                    (Reader.handleOpenAnnotationModal
                       (Reader.on_selected Sample.aSelection 1000
                          (Sample.reading Sample.twoChapters)))) <> None)
    by discriminate.
  exact (proj1 (handleSaveAnnotation_persists Sample.yellowHighlight
                  "2024-01-01T00:00:00.000Z" 1000
                  (Reader.handleOpenAnnotationModal
                     (Reader.on_selected Sample.aSelection 1000
                        (Sample.reading Sample.twoChapters)))
                  Sample.anchorA "Alpha" Sample.alphaBook
                  Hr eq_refl eq_refl eq_refl eq_refl eq_refl)).
Defined.

(** X11. Saving from the annotation modal changes nothing (no annotation
    is added, no overlay, nothing is written to the storage) when there
    is no rendition, as for a plain-text or PDF book; when there is
    neither a pending selection nor an annotation being edited; or when
    the anchor or the quoted text of the one that is used is empty. *)
Theorem handleSaveAnnotation_needs_target
    (form : Reader.AnnotationForm) (iso : string) (now : Z) (st : Reader.State) :
  Reader.renditionRef (Reader.env st) = None
  \/ (Reader.editingAnnotation (Reader.annot st) = None
      /\ Reader.pendingAnnotation (Reader.annot st) = None)
  \/ (Reader.editingAnnotation (Reader.annot st) = None
      /\ exists p, Reader.pendingAnnotation (Reader.annot st) = Some p
                   /\ (Reader.pending_cfi p = "" \/ Reader.pending_text p = ""))
  \/ (exists e, Reader.editingAnnotation (Reader.annot st) = Some e
                /\ (Annotation.cfiRange e = "" \/ Annotation.text e = "")) ->
  Reader.handleSaveAnnotation form iso now st = st.
Proof.
  unfold Reader.handleSaveAnnotation.
  intros [-> | [[-> ->] | [[-> (p & -> & Hp)] | (e & -> & He)]]];
    [reflexivity | | |];
    destruct (Reader.renditionRef (Reader.env st)); try reflexivity; cbn.
  - destruct Hp as [-> | ->]; cbn; [reflexivity | now rewrite orb_true_r].
  - destruct He as [-> | ->]; cbn; [reflexivity | now rewrite orb_true_r].
Qed.

Lemma handleSaveAnnotation_needs_target_witness :
  Reader.handleSaveAnnotation Sample.yellowHighlight "2024-01-01T00:00:00.000Z" 1000
    Sample.readingText = Sample.readingText.
Proof.
  apply handleSaveAnnotation_needs_target. left. reflexivity.
Defined.

(** [handleRemoveBookmark] on a state given by its parts. *)
Lemma handleRemoveBookmark_built (cfi : string) (now : Z)
    (pr : Reader.Props) (vw : Reader.View) (bm : list BookmarkData.t)
    (an : list Annotation.t) (mo : bool) (pe : option Reader.Pending)
    (ed : option Annotation.t) (se : Reader.SearchBar) (no : Reader.AiNotes)
    (en : Reader.Env) :
  let updated :=
    List.filter (fun b => negb (String.eqb (BookmarkData.cfi b) cfi)) bm in
  ReaderOps.handleRemoveBookmark cfi now
    (Reader.mkState pr vw (Reader.mkAnnotationUi bm an mo pe ed) se no en)
  = Reader.mkState pr vw (Reader.mkAnnotationUi updated an mo pe ed) se no
      (Reader.mkEnv (Reader.renditionRef en) (Reader.bookRef en)
         (Reader.selectionTimeRef en)
         (match Reader.book pr with
          | Some b =>
              Storage.saveUserData (Reader.Book.id b)
                (BookUserData.mk None None None (Some updated) None None) now
                (Reader.localStorage en)
          | None => Reader.localStorage en
          end)
         (Reader.dom en)).
Proof. destruct pr as [[b |] mode], en; reflexivity. Qed.

(** X12. Removing the bookmarks of a position keeps exactly the bookmarks
    of the other positions, in their order; it leaves the annotations
    alone, in memory and in the storage; and with a book open and a
    working storage the stored bookmarks are the list in memory. *)
Theorem handleRemoveBookmark_removes (cfi : string) (now : Z) (st : Reader.State) :
  let st' := ReaderOps.handleRemoveBookmark cfi now st in
  Reader.bookmarks (Reader.annot st')
  = List.filter (fun b => negb (String.eqb (BookmarkData.cfi b) cfi))
      (Reader.bookmarks (Reader.annot st))
  /\ (forall b, In b (Reader.bookmarks (Reader.annot st')) <->
                In b (Reader.bookmarks (Reader.annot st)) /\ BookmarkData.cfi b <> cfi)
  /\ Reader.annotations (Reader.annot st') = Reader.annotations (Reader.annot st)
  /\ (forall k, Observe.storedField BookUserData.annotations k st'
                = Observe.storedField BookUserData.annotations k st)
  /\ (forall b, Reader.book (Reader.props st) = Some b ->
        Storage.usable (Reader.localStorage (Reader.env st)) = true ->
        Observe.storedField BookUserData.bookmarks (Reader.Book.id b) st'
        = Some (Reader.bookmarks (Reader.annot st'))).
Proof.
  destruct st as [pr vw [bm an mo pe ed] se no en].
  cbv zeta. rewrite handleRemoveBookmark_built. cbv zeta.
  cbn [Reader.annot Reader.bookmarks Reader.annotations Reader.props Reader.env
       Reader.localStorage].
  split; [reflexivity |]. split.
  - intros b. rewrite filter_In, negb_true_iff, String.eqb_neq. reflexivity.
  - split; [reflexivity |]. unfold Observe.storedField.
    cbn [Reader.env Reader.localStorage]. split.
    + intros k. destruct (Reader.book pr); [| reflexivity].
      now apply saveUserData_keeps_annotations.
    + intros b Hb Hok. rewrite Hb, stored_after_save by exact Hok. reflexivity.
Qed.

Lemma handleRemoveBookmark_removes_witness :
  Observe.storedField BookUserData.bookmarks "alphabob"
    (ReaderOps.handleRemoveBookmark "epubcfi(/6/4)" 3000 Sample2.withBookmarks)
  = Some [Sample2.bookmarkTwo].
Proof.
  refine (eq_trans
            (proj2 (proj2 (proj2 (proj2
               (handleRemoveBookmark_removes "epubcfi(/6/4)" 3000
                  Sample2.withBookmarks))))
               Sample.alphaBook eq_refl eq_refl) _).
  reflexivity.
Defined.

(** ** Reopening a book *)

Section RestoreFacts.

(** The registry key of the overlay of an annotation. *)
Let key (a : Annotation.t) : string * string :=
  (Annotation.cfiRange a, style_name (Annotation.style a)).




End RestoreFacts.

(** [openEpub] for an EPUB book, on a state given by its parts. *)
Lemma openEpub_built (epubBook : Epub.Book) (page : Dom.t) (displays : bool)
    (b : Reader.Book.t) (mode : Reader.AiDisplayMode) (mn : Reader.SelectionMenu)
    (cc : string) (pg : Q) (bm : list BookmarkData.t)
    (an : list Annotation.t) (mo : bool) (pe : option Reader.Pending)
    (ed : option Annotation.t) (se : Reader.SearchBar)
    (ino : list Reader.ActiveInlineNote.t) (po : option Reader.ActiveInlineNote.t)
    (r : option Epub.Rendition) (eb : option Epub.Book) (t : Z)
    (ls : Storage.LocalStorage) (d : Dom.t) :
  Reader.Book.type b = epub ->
  let savedData := Storage.loadUserData (Reader.Book.id b) ls in
  ReaderOps.openEpub epubBook page displays
    (Reader.mkState (Reader.mkProps (Some b) mode) (Reader.mkView mn cc pg)
       (Reader.mkAnnotationUi bm an mo pe ed) se (Reader.mkAiNotes ino po)
       (Reader.mkEnv r eb t ls d))
  = Reader.mkState (Reader.mkProps (Some b) mode)
      (Reader.mkView
         (Reader.mkMenu false (Reader.x mn) (Reader.y mn) (Reader.cfiRange mn)
            (Reader.text mn)) cc pg)
      (Reader.mkAnnotationUi
         (default [] (savedData ≫= BookUserData.bookmarks))
         (default [] (savedData ≫= BookUserData.annotations)) mo pe ed)
      se (Reader.mkAiNotes [] po)
      (Reader.mkEnv
         (Some (Epub.mkRendition
                  (if displays
                   then ReaderOps.restoreOverlays
                          (default [] (savedData ≫= BookUserData.annotations)) ∅
                   else ∅)
                  (match savedData ≫= BookUserData.lastCfi with
                   | Some c => if Js.truthy c then Some c else None
                   | None => None
                   end)))
         (Some epubBook) t ls page).
Proof.
  intros Hty. unfold ReaderOps.openEpub.
  cbn [Reader.props Reader.book]. rewrite Hty. reflexivity.
Qed.



(** What [openEpub] reads from the storage, in terms of the state. *)
Lemma openEpub_reads (epubBook : Epub.Book) (page : Dom.t) (displays : bool)
    (st : Reader.State) (b : Reader.Book.t) :
  Reader.book (Reader.props st) = Some b ->
  Reader.Book.type b = epub ->
  let savedData :=
    Storage.loadUserData (Reader.Book.id b) (Reader.localStorage (Reader.env st)) in
  Reader.annotations (Reader.annot (ReaderOps.openEpub epubBook page displays st))
  = default [] (savedData ≫= BookUserData.annotations)
  /\ Reader.renditionRef (Reader.env (ReaderOps.openEpub epubBook page displays st))
     = Some (Epub.mkRendition
               (if displays
                then ReaderOps.restoreOverlays
                       (default [] (savedData ≫= BookUserData.annotations)) ∅
                else ∅)
               (match savedData ≫= BookUserData.lastCfi with
                | Some c => if Js.truthy c then Some c else None
                | None => None
                end)).
Proof.
  destruct st as [[bo mode] [mn cc pg] [bm an mo pe ed] se [ino po] [r eb t ls d]].
  cbn [Reader.props Reader.book]. intros -> Hty. cbv zeta.
  rewrite !(openEpub_built epubBook page _ b mode mn cc pg bm an mo pe ed se ino po
              r eb t ls d Hty).
  split; reflexivity.
Qed.



(** What the relocation listener leaves in the storage. *)
Lemma on_relocated_storage (b : Reader.Book.t) (epubBook : Epub.Book) (cfi : string)
    (now : Z) (st : Reader.State) :
  Reader.localStorage (Reader.env (Reader.on_relocated b epubBook cfi now st))
  = Storage.saveUserData (Reader.Book.id b)
      (BookUserData.mk None (Some cfi)
         (if (0 <? Epub.locations_length epubBook)%nat
          then Some (Epub.percentageFromCfi epubBook cfi) else None)
         None None None)
      now (Reader.localStorage (Reader.env st))
  /\ Reader.props (Reader.on_relocated b epubBook cfi now st) = Reader.props st
  /\ Reader.currentCfi (Reader.view (Reader.on_relocated b epubBook cfi now st)) = cfi.
Proof.
  unfold Reader.on_relocated.
  destruct (0 <? Epub.locations_length epubBook)%nat; repeat split; reflexivity.
Qed.

(** X15. The reading position survives closing and reopening the book:
    with a working storage, after the page moved to a position the book
    is next opened at that position, and the annotations stored for the
    book are untouched by the move. *)
Theorem position_survives_reopen
    (b : Reader.Book.t) (epubBook epubBook' : Epub.Book) (cfi : string) (now : Z)
    (page : Dom.t) (displays : bool) (st : Reader.State) :
  Reader.book (Reader.props st) = Some b ->
  Reader.Book.type b = epub ->
  Storage.usable (Reader.localStorage (Reader.env st)) = true ->
  Js.truthy cfi = true ->
  let moved := Reader.on_relocated b epubBook cfi now st in
  let reopened := ReaderOps.openEpub epubBook' page displays moved in
  Reader.renditionRef (Reader.env reopened) ≫= Epub.displayed = Some cfi
  /\ Observe.storedField BookUserData.lastCfi (Reader.Book.id b) moved = Some cfi
  /\ (forall k, Observe.storedField BookUserData.annotations k moved
                = Observe.storedField BookUserData.annotations k st).
Proof.
  intros Hb Hty Hok Hcfi moved reopened.
  destruct (on_relocated_storage b epubBook cfi now st) as (Hls & Hpr & _).
  fold moved in Hls, Hpr.
  assert (Hlast : Storage.stored BookUserData.lastCfi (Reader.Book.id b)
                    (Reader.localStorage (Reader.env moved)) = Some cfi).
  { rewrite Hls, stored_after_save by exact Hok. reflexivity. }
  split; [| split].
  - destruct (openEpub_reads epubBook' page displays moved b) as [_ Hre];
      [now rewrite Hpr | exact Hty |].
    fold reopened in Hre. rewrite Hre. cbn [mbind option_bind Epub.displayed].
    unfold Storage.stored in Hlast. rewrite Hlast, Hcfi. reflexivity.
  - exact Hlast.
  - intros k. unfold Observe.storedField. rewrite Hls.
    now apply saveUserData_keeps_annotations.
Qed.

Lemma position_survives_reopen_witness :
  Reader.renditionRef
    (Reader.env
       (ReaderOps.openEpub Sample.twoChapters Sample.twoParagraphs true
          (Reader.on_relocated Sample.alphaBook Sample.twoChapters "epubcfi(/6/8)"
             2000 Sample.annotatedOnce)))
  ≫= Epub.displayed = Some "epubcfi(/6/8)".
Proof.
  exact (proj1 (position_survives_reopen Sample.alphaBook Sample.twoChapters
                  Sample.twoChapters "epubcfi(/6/8)" 2000 Sample.twoParagraphs true
                  Sample.annotatedOnce eq_refl eq_refl eq_refl eq_refl)).
Defined.

(** ** Batch search: what the result list holds *)

(** X16. The batch search returns at most 500 matches plus one per
    content unit of the book: the test that stops the scan only leaves the
    loop of the unit it is in. *)
Theorem performSearch_bounded (st : Reader.State) (query : string) (bk : Epub.Book) :
  Reader.bookRef (Reader.env st) = Some bk ->
  (length (Reader.performSearch st query) <= 500 + length (Epub.spineItems bk))%nat.
Proof.
  intros Hbk. pose proof (performSearch_length st query) as H.
  now rewrite Hbk in H.
Qed.

Lemma performSearch_bounded_witness :
  (length (Reader.performSearch (Sample.reading (Sample.dense 3 600)) "ab")
   <= 500 + 3)%nat.
Proof.
  apply (performSearch_bounded (Sample.reading (Sample.dense 3 600)) "ab"
           (Sample.dense 3 600)).
  reflexivity.
Defined.







Lemma substring_length_le (s : string) :
  forall n m, (String.length (String.substring n m s) <= m)%nat.
Proof.
  induction s as [| c s IH]; intros n m.
  - destruct n, m; cbn; lia.
  - destruct n as [| n]; [destruct m as [| m] |]; cbn; [lia | | apply IH].
    specialize (IH 0%nat m). lia.
Qed.

Section ResultShape.

Context (bk : Epub.Book) (query : string).

(** What holds of a match of the batch search. *)
Let shaped (r : Reader.SearchResult) : Prop :=
  (exists i item,
      Epub.spineItems bk !! i = Some item
      /\ Reader.result_cfi r = Epub.href item
      /\ Epub.href item <> ""
      /\ Reader.result_label r
         = Js.or_else (Epub.idref item) ("Chapter " +:+ pretty (i + 1)%nat))
  /\ (String.length (Reader.result_excerpt r) <= String.length query + 60)%nat
  /\ Reader.result_context r = Reader.result_excerpt r.

Lemma scanMatches_shaped (fuel : nat) (item : Epub.SpineItem) (i : nat)
    (lowerQuery cleanText lowerText : string) :
  Epub.spineItems bk !! i = Some item ->
  Epub.href item <> "" ->
  forall index results,
    Forall shaped results ->
    Forall shaped
      (Reader.scanMatches fuel item i query lowerQuery cleanText lowerText index results).
Proof.
  intros Hitem Hhref.
  induction fuel as [| fuel IH]; intros index results Hres; [exact Hres |].
  destruct index as [index |]; [| exact Hres].
  cbn [Reader.scanMatches].
  match goal with
  | |- context [(500 <? length ?l)%nat] =>
      assert (Hl : Forall shaped l);
        [| destruct (500 <? length l)%nat; [exact Hl | apply IH, Hl]]
  end.
  apply Forall_app. split; [exact Hres |].
  apply Forall_cons. split; [| constructor].
  unfold shaped. cbn. split; [| split; [| reflexivity]].
  - exists i, item. auto.
  - unfold Js.substring. etransitivity; [apply substring_length_le |]. lia.
Qed.

Lemma searchSection_shaped (lowerQuery : string)
    (acc : list Reader.SearchResult * list string) (i : nat) :
  Forall shaped (fst acc) ->
  Forall shaped (fst (Reader.searchSection bk query lowerQuery acc i)).
Proof.
  destruct acc as [results loads]. cbn [fst]. intros Hres.
  unfold Reader.searchSection, Epub.spine_get.
  destruct (Epub.spineItems bk !! i) as [item |] eqn:Hitem; [| exact Hres].
  destruct (Js.truthy (Epub.href item)) eqn:Hh; cbn [negb]; [| exact Hres].
  destruct (Epub.load bk (Epub.href item)); cbn [fst]; try exact Hres.
  apply scanMatches_shaped; [exact Hitem | | exact Hres].
  intros E. rewrite E in Hh. discriminate Hh.
Qed.

Lemma searchSpine_shaped (lowerQuery : string) (units : list nat) :
  forall acc,
    Forall shaped (fst acc) ->
    Forall shaped (fst (foldl (Reader.searchSection bk query lowerQuery) acc units)).
Proof.
  induction units as [| i units IH]; intros acc Hacc; [exact Hacc |].
  cbn [foldl]. apply IH, searchSection_shaped, Hacc.
Qed.

(** X18. Every match of the batch search points at a content unit of the
    book with a non-empty [href] and is labelled with the unit's [idref]
    or, for a unit without one, with its chapter number; its excerpt is
    at most 60 characters longer than the query, and its context is its
    excerpt. A search that returns a match was made with a query of two
    characters or more. *)
Theorem performSearch_results_shape (st : Reader.State) (r : Reader.SearchResult) :
  Reader.bookRef (Reader.env st) = Some bk ->
  In r (Reader.performSearch st query) ->
  (exists i item,
      Epub.spineItems bk !! i = Some item
      /\ Reader.result_cfi r = Epub.href item
      /\ Epub.href item <> ""
      /\ Reader.result_label r
         = Js.or_else (Epub.idref item) ("Chapter " +:+ pretty (i + 1)%nat))
  /\ (String.length (Reader.result_excerpt r) <= String.length query + 60)%nat
  /\ Reader.result_context r = Reader.result_excerpt r
  /\ (2 <= String.length query)%nat.
Proof.
  intros Hbk. unfold Reader.performSearch, Reader.performSearchLog. rewrite Hbk.
  destruct (negb (Js.truthy query)) eqn:Ht; cbn [orb]; [contradiction |].
  destruct (String.length query <? 2)%nat eqn:Hlen; [contradiction |].
  apply Nat.ltb_ge in Hlen. intros Hin.
  pose proof (searchSpine_shaped (Js.toLowerCase query)
                (seq 0 (length (Epub.spineItems bk))) ([], [])
                ltac:(constructor)) as Hall.
  rewrite Forall_forall in Hall. apply list_elem_of_In in Hin.
  destruct (Hall r Hin) as (H1 & H2 & H3). auto.
Qed.

End ResultShape.

Lemma performSearch_results_shape_witness :
  In (Reader.mkResult "ch1.xhtml" "The cat sat." "ch1" "The cat sat.")
     (Reader.performSearch (Sample.reading Sample.twoChapters) "cat")
  /\ (String.length "The cat sat." <= 3 + 60)%nat.
Proof.
  assert (Hin : In (Reader.mkResult "ch1.xhtml" "The cat sat." "ch1" "The cat sat.")
                   (Reader.performSearch (Sample.reading Sample.twoChapters) "cat"))
    by (left; reflexivity).
  split; [exact Hin |].
  exact (proj1 (proj2 (performSearch_results_shape Sample.twoChapters "cat"
                         (Sample.reading Sample.twoChapters) _ eq_refl Hin))).
Defined.

(** The units a scan of the spine loads. *)
Lemma searchSpine_loads (bk : Epub.Book) (query lowerQuery : string)
    (items : list Epub.SpineItem) :
  forall i acc,
    (forall j item, items !! j = Some item ->
                    Epub.spineItems bk !! (i + j)%nat = Some item) ->
    snd (foldl (Reader.searchSection bk query lowerQuery) acc (seq i (length items)))
    = snd acc ++ List.filter Js.truthy (List.map Epub.href items).
Proof.
  induction items as [| item items IH]; intros i acc Hget.
  - cbn. now rewrite app_nil_r.
  - cbn [length seq foldl]. rewrite IH.
    + assert (Hi : Epub.spine_get bk i = Some item).
      { unfold Epub.spine_get. rewrite <- (Nat.add_0_r i). now apply Hget. }
      destruct acc as [results loads]. unfold Reader.searchSection. rewrite Hi.
      cbn [List.map List.filter].
      destruct (Js.truthy (Epub.href item)); cbn [negb snd]; [| reflexivity].
      destruct (Epub.load bk (Epub.href item)); cbn [snd];
        now rewrite <- app_assoc.
    + intros j it Hj. replace (S i + j)%nat with (i + S j)%nat by lia.
      now apply Hget.
Qed.

(** X19. For a query of two characters or more the batch search loads
    every content unit that has an [href] exactly once, in spine order;
    neither a unit that fails to load nor the cap on the matches stops
    it. *)
Theorem performSearch_loads_every_unit (st : Reader.State) (query : string)
    (bk : Epub.Book) :
  Reader.bookRef (Reader.env st) = Some bk ->
  (2 <= String.length query)%nat ->
  Reader.unitsScanned st query
  = List.filter Js.truthy (List.map Epub.href (Epub.spineItems bk)).
Proof.
  intros Hbk Hlen. unfold Reader.unitsScanned, Reader.performSearchLog. rewrite Hbk.
  assert (Ht : Js.truthy query = true) by (destruct query; [cbn in Hlen; lia | reflexivity]).
  rewrite Ht. apply Nat.ltb_ge in Hlen. rewrite Hlen. cbn [negb orb].
  now rewrite (searchSpine_loads bk query (Js.toLowerCase query) (Epub.spineItems bk)
                 0%nat ([], [])).
Qed.

Lemma performSearch_loads_every_unit_witness :
  Reader.unitsScanned (Sample.reading (Sample.dense 3 600)) "ab" = ["ch0"; "ch1"; "ch2"].
Proof.
  refine (eq_trans
            (performSearch_loads_every_unit (Sample.reading (Sample.dense 3 600)) "ab"
               (Sample.dense 3 600) eq_refl _) _).
  - cbn. lia.
  - reflexivity.
Defined.






Section ExcerptFacts.

Context (query cleanText : string).

Let lowerQuery := Js.toLowerCase query.
Let lowerText := Js.toLowerCase cleanText.




End ExcerptFacts.



(** ** Interactive search: the cursor and its overlays *)

Lemma previous_matches (st : Reader.State) :
  Reader.searchMatches (Reader.search (Reader.previous st))
  = Reader.searchMatches (Reader.search st).
Proof.
  unfold Reader.previous, Reader.prevSearchMatch.
  destruct (length (Reader.searchMatches (Reader.search st)) =? 0)%nat;
    [reflexivity | apply updateActiveSearchHighlight_cursor].
Qed.

(** X21. With at least one match and the cursor unset or on a match,
    "next" and "previous" leave the cursor on a match and the matches as
    they are; from a match, "previous" undoes "next" and "next" undoes
    "previous". *)
Theorem cursor_stays_on_a_match (st : Reader.State) :
  let N := Z.of_nat (length (Reader.searchMatches (Reader.search st))) in
  (1 <= N)%Z ->
  (-1 <= Observe.cursor st < N)%Z ->
  (0 <= Observe.cursor (Reader.next st) < N)%Z
  /\ (0 <= Observe.cursor (Reader.previous st) < N)%Z
  /\ Reader.searchMatches (Reader.search (Reader.next st))
     = Reader.searchMatches (Reader.search st)
  /\ Reader.searchMatches (Reader.search (Reader.previous st))
     = Reader.searchMatches (Reader.search st)
  /\ ((0 <= Observe.cursor st)%Z ->
      Observe.cursor (Reader.previous (Reader.next st)) = Observe.cursor st
      /\ Observe.cursor (Reader.next (Reader.previous st)) = Observe.cursor st).
Proof.
  intros N HN Hc.
  destruct (next_cursor st HN) as [Hn Hmn]. fold N in Hn.
  pose proof (previous_cursor st HN) as Hp. fold N in Hp.
  pose proof (previous_matches st) as Hmp.
  assert (Hn' : (0 <= Observe.cursor (Reader.next st) < N)%Z).
  { rewrite Hn. destruct (N <=? _)%Z eqn:E; [| apply Z.leb_gt in E]; lia. }
  assert (Hp' : (0 <= Observe.cursor (Reader.previous st) < N)%Z).
  { rewrite Hp. destruct (_ <? 0)%Z eqn:E; [| apply Z.ltb_ge in E]; lia. }
  split; [exact Hn' |]. split; [exact Hp' |]. split; [exact Hmn |].
  split; [exact Hmp |]. intros H0. split.
  - rewrite previous_cursor by (rewrite Hmn; exact HN). rewrite Hmn. fold N.
    rewrite Hn. destruct (N <=? _)%Z eqn:E.
    + apply Z.leb_le in E. change (0 - 1 <? 0)%Z with true. cbv iota. lia.
    + apply Z.leb_gt in E. clear Hp Hp'.
      destruct (Observe.cursor st + 1 - 1 <? 0)%Z eqn:E';
        [apply Z.ltb_lt in E' | apply Z.ltb_ge in E']; lia.
  - destruct (next_cursor (Reader.previous st)) as [Hnp _];
      [rewrite Hmp; exact HN |].
    rewrite Hmp in Hnp. fold N in Hnp. rewrite Hnp, Hp. clear Hnp Hp Hp' Hn Hn'.
    destruct (Observe.cursor st - 1 <? 0)%Z eqn:E;
      [apply Z.ltb_lt in E | apply Z.ltb_ge in E].
    + assert (Observe.cursor st = 0%Z) as -> by lia.
      replace (N - 1 + 1)%Z with N by lia. rewrite Z.leb_refl. reflexivity.
    + destruct (N <=? Observe.cursor st - 1 + 1)%Z eqn:E';
        [apply Z.leb_le in E' | apply Z.leb_gt in E']; lia.
Qed.

Lemma cursor_stays_on_a_match_witness :
  Observe.cursor
    (Reader.previous (Reader.next (Reader.next (Sample.withMatches 3)))) = 0%Z.
Proof.
  refine (eq_trans
            (proj1 (proj2 (proj2 (proj2 (proj2
               (cursor_stays_on_a_match (Reader.next (Sample.withMatches 3)) _ _))))
               _)) _).
  - vm_compute. discriminate.
  - vm_compute. split; [discriminate | reflexivity].
  - vm_compute. discriminate.
  - reflexivity.
Defined.
(** ** The answer of the assistant in a note *)

Lemma string_append_assoc (a b c : string) : (a +:+ b) +:+ c = a +:+ (b +:+ c).
Proof.
  induction a as [| ch a IH]; [reflexivity |].
  change (String ch ((a +:+ b) +:+ c) = String ch (a +:+ (b +:+ c))).
  f_equal. exact IH.
Qed.

Section AiSubmitFacts.

Import Reader.

Variable note : ActiveInlineNote.t.

(** Two updates in a row are one update; a response that is not given
    leaves the one of the first update. *)
Lemma updateState_inline_twice (l1 l2 : bool) (r1 r2 : option string) (st : State) :
  ReaderOps.updateState inline note l2 r2 (ReaderOps.updateState inline note l1 r1 st)
  = ReaderOps.updateState inline note l2
      (match r2 with Some _ => r2 | None => r1 end) st.
Proof.
  unfold ReaderOps.updateState, setInlineNotes, onNotes. cbn.
  f_equal. f_equal. rewrite List.map_map. apply List.map_ext. intros n.
  destruct (String.eqb (ActiveInlineNote.id n) (ActiveInlineNote.id note)) eqn:E;
    cbn; rewrite E; [| reflexivity].
  destruct r2, r1; reflexivity.
Qed.

Lemma updateState_popup_twice (l1 l2 : bool) (r1 r2 : option string) (st : State) :
  ReaderOps.updateState popup note l2 r2 (ReaderOps.updateState popup note l1 r1 st)
  = ReaderOps.updateState popup note l2
      (match r2 with Some _ => r2 | None => r1 end) st.
Proof.
  unfold ReaderOps.updateState, setActivePopupNote, onNotes. cbn.
  f_equal. f_equal. destruct (activePopupNote (notes st)); [| reflexivity].
  cbn. destruct r2, r1; reflexivity.
Qed.

Lemma updateState_twice (mode : AiDisplayMode) (l1 l2 : bool)
    (r1 r2 : option string) (st : State) :
  ReaderOps.updateState mode note l2 r2 (ReaderOps.updateState mode note l1 r1 st)
  = ReaderOps.updateState mode note l2
      (match r2 with Some _ => r2 | None => r1 end) st.
Proof.
  destruct mode; [apply updateState_inline_twice | apply updateState_popup_twice].
Qed.

(** The updates of the chunks of a stream amount to the last of them. *)
Lemma stream_updates (mode : AiDisplayMode) (texts : list string) :
  forall (fullText : string) (r0 : option string) (st : State),
  foldl (fun s u => u s) (ReaderOps.updateState mode note true r0 st)
    (List.map (fun t => ReaderOps.updateState mode note true (Some t))
       (ReaderOps.running fullText texts))
  = ReaderOps.updateState mode note true
      (match texts with
       | [] => r0
       | _ => Some (fullText +:+ String.concat "" texts)
       end) st.
Proof.
  induction texts as [| t rest IH]; intros fullText r0 st; [reflexivity |].
  cbn [ReaderOps.running List.map foldl].
  rewrite updateState_twice, IH.
  destruct rest as [| t' rest].
  - reflexivity.
  - f_equal. f_equal.
    change (String.concat "" (t :: t' :: rest))
      with (t +:+ String.concat "" (t' :: rest)).
    apply string_append_assoc.
Qed.

(** [handleAiSubmit] as one update. *)
Lemma handleAiSubmit_once (reply : ReaderOps.Reply) (st : State) :
  ReaderOps.handleAiSubmit note reply st
  = ReaderOps.updateState (aiDisplayMode (props st)) note false
      (match reply with
       | ReaderOps.Rejected => Some ReaderOps.aiError
       | ReaderOps.Chunks [] true => None
       | ReaderOps.Chunks texts true => Some (String.concat "" texts)
       | ReaderOps.Chunks _ false => Some ReaderOps.aiError
       end) st.
Proof.
  unfold ReaderOps.handleAiSubmit, ReaderOps.aiUpdates.
  set (mode := aiDisplayMode (props st)). clearbody mode.
  destruct reply as [| texts completes].
  - cbn [foldl]. apply updateState_twice.
  - cbn [foldl]. rewrite foldl_app, stream_updates. cbn [foldl].
    destruct completes; rewrite updateState_twice; destruct texts; reflexivity.
Qed.

End AiSubmitFacts.

(** X22. When [handleAiSubmit] is through and nothing else was handled in
    between, the reader differs from the one before in the answered note
    only: the note is no longer loading and shows the chunks of the
    stream put together, the error text when the request or the stream
    failed, and what it showed before when the stream ended without a
    chunk. With inline notes the answered notes are those with the id of
    the submitted note; with the popup it is the popup that is open,
    whatever its id. *)
Theorem handleAiSubmit_outcome (note : Reader.ActiveInlineNote.t)
    (reply : ReaderOps.Reply) (st : Reader.State) :
  let answered (n : Reader.ActiveInlineNote.t) :=
    Reader.ActiveInlineNote.mk (Reader.ActiveInlineNote.id n)
      (Reader.ActiveInlineNote.cfi n) (Reader.ActiveInlineNote.textContext n)
      (match reply with
       | ReaderOps.Rejected => ReaderOps.aiError
       | ReaderOps.Chunks [] true => Reader.ActiveInlineNote.aiResponse n
       | ReaderOps.Chunks texts true => String.concat "" texts
       | ReaderOps.Chunks _ false => ReaderOps.aiError
       end)
      false (Reader.ActiveInlineNote.domNode n) in
  (Reader.aiDisplayMode (Reader.props st) = Reader.inline ->
   ReaderOps.handleAiSubmit note reply st
   = Reader.setInlineNotes
       (List.map (fun n =>
          if String.eqb (Reader.ActiveInlineNote.id n) (Reader.ActiveInlineNote.id note)
          then answered n else n)) st)
  /\ (Reader.aiDisplayMode (Reader.props st) = Reader.popup ->
      ReaderOps.handleAiSubmit note reply st
      = Reader.setActivePopupNote
          (answered <$> Reader.activePopupNote (Reader.notes st)) st).
Proof.
  intros answered. split; intros Hmode; rewrite handleAiSubmit_once, Hmode;
    unfold ReaderOps.updateState.
  - unfold Reader.setInlineNotes, Reader.onNotes. f_equal. f_equal.
    apply List.map_ext. intros n.
    destruct (String.eqb _ _); [| reflexivity].
    subst answered. cbn beta. f_equal.
    destruct reply as [| [| t texts] [|]]; reflexivity.
  - f_equal. destruct (Reader.activePopupNote (Reader.notes st)) as [n |];
      [| reflexivity].
    cbn. f_equal. f_equal.
    destruct reply as [| [| t texts] [|]]; reflexivity.
Qed.

Lemma handleAiSubmit_outcome_witness :
  Reader.inlineNotes
    (Reader.notes
       (ReaderOps.handleAiSubmit Sample2.theNote
          (ReaderOps.Chunks ["Hel"; "lo"] true) Sample2.openedNote))
  = [Reader.ActiveInlineNote.mk Sample.uuid1 (Some "txt-0") "Hello" "Hello" false None].
Proof.
  refine (eq_trans
            (f_equal (fun s => Reader.inlineNotes (Reader.notes s))
               (proj1 (handleAiSubmit_outcome Sample2.theNote
                         (ReaderOps.Chunks ["Hel"; "lo"] true) Sample2.openedNote)
                  eq_refl)) _).
  reflexivity.
Defined.

Lemma aiUpdates_are_updates (mode : Reader.AiDisplayMode)
    (note : Reader.ActiveInlineNote.t) (reply : ReaderOps.Reply)
    (u : Reader.State -> Reader.State) :
  In u (ReaderOps.aiUpdates mode note reply) ->
  exists l r, u = ReaderOps.updateState mode note l r.
Proof.
  unfold ReaderOps.aiUpdates. intros [<- | Hin]; [now eexists _, _ |].
  destruct reply as [| texts completes].
  - destruct Hin as [<- | []]. now eexists _, _.
  - apply in_app_or in Hin. destruct Hin as [Hin | [<- | []]].
    + apply in_map_iff in Hin. destruct Hin as (t & <- & _). now eexists _, _.
    + destruct completes; now eexists _, _.
Qed.

(** X23. No state update [handleAiSubmit] makes, whenever it is applied,
    adds, removes or reorders an inline note, opens or closes the popup, or
    touches any other part of the reader; and once no inline note carries
    the id of the submitted note (it was dismissed while the answer
    streamed in), an update leaves the inline notes as they are. *)
Theorem aiUpdates_keep_the_notes (mode : Reader.AiDisplayMode)
    (note : Reader.ActiveInlineNote.t) (reply : ReaderOps.Reply)
    (u : Reader.State -> Reader.State) (st : Reader.State) :
  In u (ReaderOps.aiUpdates mode note reply) ->
  List.map Reader.ActiveInlineNote.id (Reader.inlineNotes (Reader.notes (u st)))
  = List.map Reader.ActiveInlineNote.id (Reader.inlineNotes (Reader.notes st))
  /\ Reader.ActiveInlineNote.id <$> Reader.activePopupNote (Reader.notes (u st))
     = Reader.ActiveInlineNote.id <$> Reader.activePopupNote (Reader.notes st)
  /\ (Reader.props (u st), Reader.view (u st), Reader.annot (u st),
      Reader.search (u st), Reader.env (u st))
     = (Reader.props st, Reader.view st, Reader.annot st, Reader.search st,
        Reader.env st)
  /\ (Reader.findNote (Reader.ActiveInlineNote.id note)
        (Reader.inlineNotes (Reader.notes st)) = None ->
      mode = Reader.inline ->
      Reader.notes (u st) = Reader.notes st).
Proof.
  intros Hin. destruct (aiUpdates_are_updates _ _ _ _ Hin) as (l & r & ->).
  clear Hin. unfold ReaderOps.updateState.
  destruct mode; cbn.
  - split; [| split; [reflexivity | split; [reflexivity |]]].
    + rewrite List.map_map. apply List.map_ext. intros n.
      now destruct (String.eqb _ _).
    + intros Hnone _. destruct (Reader.notes st) as [ns p]. cbn in *. f_equal.
      induction ns as [| n ns IH]; [reflexivity |]. cbn in Hnone |- *.
      destruct (String.eqb _ _); [discriminate |]. f_equal. apply IH, Hnone.
  - split; [reflexivity |]. split; [| split; [reflexivity | discriminate]].
    now destruct (Reader.activePopupNote (Reader.notes st)).
Qed.

Lemma aiUpdates_keep_the_notes_witness :
  Reader.notes
    (ReaderOps.updateState Reader.inline Sample2.theNote false
       (Some ReaderOps.aiError)
       (Reader.removeInlineNote Sample.uuid1 Sample2.openedNote))
  = Reader.notes (Reader.removeInlineNote Sample.uuid1 Sample2.openedNote).
Proof.
  refine (proj2 (proj2 (proj2
            (aiUpdates_keep_the_notes Reader.inline Sample2.theNote
               ReaderOps.Rejected _
               (Reader.removeInlineNote Sample.uuid1 Sample2.openedNote) _)))
            eq_refl eq_refl).
  right. left. reflexivity.
Defined.

(** ** The chat of the shell *)

Section ChatFacts.

Import Shell.

Variable modelMsgId : string.

(** The update of one chunk, on the messages. *)
Let put (fullText : string) (m : ChatMessage.t) : ChatMessage.t :=
  if String.eqb (ChatMessage.id m) modelMsgId
  then ChatMessage.mk (ChatMessage.id m) (ChatMessage.role m) fullText
         (ChatMessage.isError m)
  else m.

Lemma put_others (fullText : string) (l : list ChatMessage.t) :
  (forall m, In m l -> ChatMessage.id m <> modelMsgId) ->
  List.map (put fullText) l = l.
Proof.
  induction l as [| m l IH]; intros H; [reflexivity |]. cbn. f_equal.
  - unfold put. destruct (String.eqb_spec (ChatMessage.id m) modelMsgId) as [E |];
      [| reflexivity].
    exfalso. apply (H m); [now left | exact E].
  - apply IH. intros m' Hm'. apply H. now right.
Qed.

Lemma put_placeholder (fullText t : string) (l : list ChatMessage.t) :
  (forall m, In m l -> ChatMessage.id m <> modelMsgId) ->
  List.map (put fullText) (l ++ [ChatMessage.mk modelMsgId model t false])
  = l ++ [ChatMessage.mk modelMsgId model fullText false].
Proof.
  intros H. rewrite List.map_app, put_others by exact H. cbn. unfold put. cbn.
  now rewrite String.eqb_refl.
Qed.

(** The chunks of a stream leave the placeholder with the last full text. *)
Lemma stream_fills_placeholder (texts : list string) :
  forall (fullText t : string) (l : list ChatMessage.t) (st : State),
  (forall m, In m l -> ChatMessage.id m <> modelMsgId) ->
  messages st = l ++ [ChatMessage.mk modelMsgId model t false] ->
  let st' :=
    foldl (fun s fullText =>
             setMessages
               (List.map (fun m => if String.eqb (ChatMessage.id m) modelMsgId
                                   then ChatMessage.mk (ChatMessage.id m)
                                          (ChatMessage.role m) fullText
                                          (ChatMessage.isError m)
                                   else m)) s)
      st (ReaderOps.running fullText texts) in
  messages st'
  = l ++ [ChatMessage.mk modelMsgId model
            (match texts with
             | [] => t
             | _ => fullText +:+ String.concat "" texts
             end) false]
  /\ (activeView st', books st', activeBookId st', isAiLoading st',
      currentSelection st')
     = (activeView st, books st, activeBookId st, isAiLoading st,
        currentSelection st).
Proof.
  induction texts as [| c rest IH]; intros fullText t l st Hl Hst;
    [split; [exact Hst | reflexivity] |].
  cbn [ReaderOps.running foldl].
  edestruct (IH (fullText +:+ c) (fullText +:+ c) l) as [Hm Hrest];
    [exact Hl | | split; [rewrite Hm | rewrite Hrest; reflexivity]].
  - cbn [setMessages messages]. rewrite Hst. apply (put_placeholder _ _ _ Hl).
  - destruct rest as [| c' rest]; [reflexivity |].
    change (String.concat "" (c :: c' :: rest))
      with (c +:+ String.concat "" (c' :: rest)).
    now rewrite string_append_assoc.
Qed.

End ChatFacts.

(** X24. The transcript after [handleSendMessage], when the id drawn for
    the answer is not the id of the question or of an earlier message: the
    earlier messages are kept in order and followed by the question and
    then by the answer, whose text is the chunks of the stream put
    together; a stream that fails leaves what it gave so far, followed by
    the error message; a request that is rejected leaves the error message
    alone. The loading flag is off at the end, the selection is cleared
    only when the stream came to its end, and the library and the view are
    as before. *)
Theorem handleSendMessage_transcript (text userId modelMsgId errorId : string)
    (reply : ReaderOps.Reply) (st : Shell.State) :
  userId <> modelMsgId ->
  (forall m, In m (Shell.messages st) -> Shell.ChatMessage.id m <> modelMsgId) ->
  let st' := Shell.handleSendMessage text userId modelMsgId errorId reply st in
  let question := Shell.ChatMessage.mk userId Shell.user text false in
  let answer (t : string) := Shell.ChatMessage.mk modelMsgId Shell.model t false in
  let failure := Shell.ChatMessage.mk errorId Shell.model Shell.chatError true in
  Shell.messages st'
  = Shell.messages st ++ question ::
      match reply with
      | ReaderOps.Rejected => [failure]
      | ReaderOps.Chunks texts true => [answer (String.concat "" texts)]
      | ReaderOps.Chunks texts false => [answer (String.concat "" texts); failure]
      end
  /\ Shell.isAiLoading st' = false
  /\ Shell.currentSelection st'
     = match reply with
       | ReaderOps.Chunks _ true => None
       | _ => Shell.currentSelection st
       end
  /\ (Shell.activeView st', Shell.books st', Shell.activeBookId st')
     = (Shell.activeView st, Shell.books st, Shell.activeBookId st).
Proof.
  intros Hid Hfresh st' question answer failure.
  destruct reply as [| texts completes].
  - subst st'. cbn. rewrite <- List.app_assoc. repeat split; reflexivity.
  - pose proof (stream_fills_placeholder modelMsgId texts "" ""
                  (Shell.messages st ++ [question])
                  (Shell.setMessages
                     (fun prev => prev ++ [Shell.ChatMessage.mk modelMsgId Shell.model
                                             "" false])
                     (Shell.setIsAiLoading true
                        (Shell.setMessages (fun prev => prev ++ [question]) st))))
      as H.
    cbv zeta in H. destruct H as [Hm Hrest].
    + intros m Hm. apply List.in_app_or in Hm. destruct Hm as [Hm | [<- | []]];
        [now apply Hfresh | exact Hid].
    + reflexivity.
    + assert (Hcat : match texts with
                     | [] => ""
                     | _ => "" +:+ String.concat "" texts
                     end = String.concat "" texts) by now destruct texts.
      rewrite Hcat in Hm. injection Hrest as Hv Hb Ha _ Hs.
      subst st'. unfold Shell.handleSendMessage. fold question.
      destruct completes; cbn [Shell.messages Shell.setIsAiLoading
        Shell.setCurrentSelection Shell.setMessages Shell.isAiLoading
        Shell.currentSelection Shell.activeView Shell.books Shell.activeBookId].
      * rewrite Hm, Hv, Hb, Ha, <- List.app_assoc. repeat split; reflexivity.
      * rewrite Hm, Hv, Hb, Ha, Hs, <- !List.app_assoc. repeat split; reflexivity.
Qed.

Lemma handleSendMessage_transcript_witness :
  Shell.messages
    (Shell.handleSendMessage "Who is Alpha?" Sample.uuid1 Sample.uuid2 "e"
       (ReaderOps.Chunks ["A "; "hero"; "."] false) Sample2.atHome)
  = [Shell.ChatMessage.mk Sample.uuid1 Shell.user "Who is Alpha?" false;
     Shell.ChatMessage.mk Sample.uuid2 Shell.model "A hero." false;
     Shell.ChatMessage.mk "e" Shell.model Shell.chatError true].
Proof.
  refine (eq_trans
            (proj1 (handleSendMessage_transcript "Who is Alpha?" Sample.uuid1
                      Sample.uuid2 "e" (ReaderOps.Chunks ["A "; "hero"; "."] false)
                      Sample2.atHome _ _)) _).
  - discriminate.
  - intros m [].
  - reflexivity.
Defined.

(** ** The library of the shell *)



Lemma NoDup_map_filter {A B} (f : A -> B) (p : A -> bool) (l : list A) :
  List.NoDup (List.map f l) -> List.NoDup (List.map f (List.filter p l)).
Proof.
  induction l as [| a l IH]; intros H; [constructor |].
  cbn in H |- *. apply List.NoDup_cons_iff in H. destruct H as [Hn Hd].
  destruct (p a); [| now apply IH].
  cbn. apply List.NoDup_cons_iff. split; [| now apply IH].
  intros Hin. apply Hn. apply in_map_iff in Hin. destruct Hin as (x & <- & Hx).
  apply in_map. apply filter_In in Hx. apply Hx.
Qed.

Lemma find_by_id (b : Reader.Book.t) (books : list Reader.Book.t) :
  List.NoDup (List.map Reader.Book.id books) -> In b books ->
  List.find (fun b' => String.eqb (Reader.Book.id b') (Reader.Book.id b)) books
  = Some b.
Proof.
  induction books as [| a l IH]; intros Hd Hin; [destruct Hin |].
  cbn in Hd |- *. apply List.NoDup_cons_iff in Hd. destruct Hd as [Hn Hd].
  destruct Hin as [-> | Hin]; [now rewrite String.eqb_refl |].
  destruct (String.eqb_spec (Reader.Book.id a) (Reader.Book.id b)) as [E |];
    [| now apply IH].
  exfalso. apply Hn. rewrite E. now apply in_map.
Qed.



(** X26. Selecting a book of a library with distinct ids opens the reader
    on that book; deleting the book that is open leaves no book open and
    goes back to the library; deleting another book leaves the open book
    open. *)
Theorem selected_book_is_active (st : Shell.State) (b : Reader.Book.t) (id : string) :
  List.NoDup (List.map Reader.Book.id (Shell.books st)) ->
  In b (Shell.books st) ->
  let opened := Shell.handleSelectBook b st in
  Shell.activeBook opened = Some b
  /\ Shell.activeView opened = Shell.reader
  /\ (Reader.Book.id b = id ->
      Shell.activeBook (Shell.handleDeleteBook id opened) = None
      /\ Shell.activeBookId (Shell.handleDeleteBook id opened) = None
      /\ Shell.activeView (Shell.handleDeleteBook id opened) = Shell.home)
  /\ (Reader.Book.id b <> id ->
      Shell.activeBook (Shell.handleDeleteBook id opened) = Some b
      /\ Shell.activeView (Shell.handleDeleteBook id opened) = Shell.reader).
Proof.
  intros Hd Hb opened. split; [| split; [reflexivity | split]].
  - unfold Shell.activeBook. cbn. now apply find_by_id.
  - intros <-. unfold Shell.handleDeleteBook. cbn. rewrite String.eqb_refl.
    repeat split; reflexivity.
  - intros Hne. unfold Shell.handleDeleteBook. cbn.
    apply String.eqb_neq in Hne. rewrite Hne. split; [| reflexivity].
    unfold Shell.activeBook. cbn. apply find_by_id.
    + now apply NoDup_map_filter.
    + apply filter_In. split; [exact Hb | now rewrite Hne].
Qed.

Lemma selected_book_is_active_witness :
  Shell.activeBook (Shell.handleSelectBook Sample.helloBook Sample2.library)
  = Some Sample.helloBook.
Proof.
  refine (proj1 (selected_book_is_active Sample2.library Sample.helloBook "x" _ _)).
  - apply List.NoDup_cons; [intros [H | []]; discriminate H |].
    apply List.NoDup_cons; [intros [] | apply List.NoDup_nil].
  - right. left. reflexivity.
Defined.

(** ** Interactive search: what a search leaves *)

Section SearchOverlays.

Import Reader.











End SearchOverlays.



(** ** Closing the search bar *)

Section CloseSearch.

Let step (acc : Epub.Marks) (kv : string * string * Epub.Mark) : Epub.Marks :=
  let note := snd kv in
  if Js.truthy (Epub.className note)
     && Js.includes "search-result" (Epub.className note)
  then Epub.remove (Epub.cfiRange note) "highlight" acc
  else acc.

Lemma clear_none (l : list (string * string * Epub.Mark)) :
  forall (acc : Epub.Marks) (key : string * string),
  acc !! key = None -> foldl step acc l !! key = None.
Proof.
  induction l as [| kv l IH]; intros acc key H; [exact H |].
  cbn [foldl]. apply IH. unfold step. cbn zeta.
  destruct (_ && _); [| exact H].
  unfold Epub.remove. rewrite lookup_delete. case_decide; [reflexivity | exact H].
Qed.

Lemma clear_kept (l : list (string * string * Epub.Mark)) :
  forall (acc : Epub.Marks) (key : string * string),
  (forall kv, In kv l -> Registry.searchClass (snd kv) = true ->
              (Epub.cfiRange (snd kv), "highlight") <> key) ->
  foldl step acc l !! key = acc !! key.
Proof.
  induction l as [| kv l IH]; intros acc key H; [reflexivity |].
  cbn [foldl]. rewrite IH by (intros kv' Hin; apply H; now right).
  unfold step. cbn zeta.
  pose proof (H kv (or_introl eq_refl)) as Hkv. unfold Registry.searchClass in Hkv.
  destruct (_ && _); [| reflexivity].
  unfold Epub.remove. apply lookup_delete_ne. now apply Hkv.
Qed.

Lemma clear_removed (l : list (string * string * Epub.Mark)) :
  forall (acc : Epub.Marks) (kv : string * string * Epub.Mark),
  In kv l -> Registry.searchClass (snd kv) = true ->
  foldl step acc l !! (Epub.cfiRange (snd kv), "highlight") = None.
Proof.
  induction l as [| a l IH]; intros acc kv Hin Hs; [destruct Hin |].
  cbn [foldl]. destruct Hin as [-> | Hin]; [| now apply IH].
  apply clear_none. unfold step. cbn zeta.
  unfold Registry.searchClass in Hs. rewrite Hs.
  unfold Epub.remove. apply lookup_delete_eq.
Qed.

(** The loop of [closeSearchBar] removes the entries with a search class
    and no other entry. *)
Lemma clearByClass_lookup (m : Epub.Marks) (c t : string) :
  Registry.filed m -> Registry.searchIsHighlight m ->
  Reader.clearByClass m !! (c, t)
  = match m !! (c, t) with
    | Some note => if Registry.searchClass note then None else Some note
    | None => None
    end.
Proof.
  intros Hf Hs. unfold Reader.clearByClass. fold step.
  destruct (m !! (c, t)) as [note |] eqn:E; [| now apply clear_none].
  destruct (Registry.searchClass note) eqn:Hn.
  - destruct (Hf c t note E) as [Hc Ht]. pose proof (Hs _ _ E Hn) as Hh.
    rewrite <- Hc, <- Ht, Hh.
    apply (clear_removed (map_to_list m) m ((c, t), note)); [| exact Hn].
    apply list_elem_of_In, elem_of_map_to_list, E.
  - rewrite clear_kept; [exact E |].
    intros [[c' t'] note'] Hin Hn' Hk. cbn [snd] in Hn', Hk.
    apply list_elem_of_In, elem_of_map_to_list in Hin.
    destruct (Hf c' t' note' Hin) as [Hc' Ht']. pose proof (Hs _ _ Hin Hn') as Hh.
    assert ((c', t') = (c, t)) as Hkey by congruence.
    rewrite Hkey in Hin. congruence.
Qed.

End CloseSearch.

(** X28. Closing the search bar, on a registry in which every entry is
    filed under its own anchor and kind and the entries with a search
    class are highlights: every overlay with a search class is gone from
    the rendition, every other overlay is where it was, the bar is closed
    with an empty query, no match and the cursor unset, and the rest of
    the reader (the page shown by the rendition included) is as
    before. *)
Theorem closeSearchBar_clears (st : Reader.State) (r : Epub.Rendition) :
  Reader.renditionRef (Reader.env st) = Some r ->
  Registry.filed (Epub.annotations r) ->
  Registry.searchIsHighlight (Epub.annotations r) ->
  let st' := Reader.closeSearchBar st in
  (exists r', Reader.renditionRef (Reader.env st') = Some r'
              /\ Epub.displayed r' = Epub.displayed r
              /\ forall c t,
                 Epub.annotations r' !! (c, t)
                 = match Epub.annotations r !! (c, t) with
                   | Some note =>
                       if Registry.searchClass note then None else Some note
                   | None => None
                   end)
  /\ Reader.search st'
     = Reader.mkSearchBar false "" [] (-1) (Reader.isSearching (Reader.search st))
  /\ (Reader.props st', Reader.view st', Reader.annot st', Reader.notes st')
     = (Reader.props st, Reader.view st, Reader.annot st, Reader.notes st)
  /\ (Reader.bookRef (Reader.env st'), Reader.localStorage (Reader.env st'),
      Reader.dom (Reader.env st'))
     = (Reader.bookRef (Reader.env st), Reader.localStorage (Reader.env st),
        Reader.dom (Reader.env st)).
Proof.
  destruct st as [pr vw an [o q ms cur sr] no [rr eb t ls d]].
  intros Hr Hf Hs st'. cbn in Hr. subst rr. destruct r as [m disp].
  subst st'. cbn. split; [| repeat split; reflexivity].
  eexists. split; [reflexivity |]. split; [reflexivity |].
  intros c k. cbn. now apply clearByClass_lookup.
Qed.

Lemma closeSearchBar_clears_witness :
  let st := Sample.searchFor "cat" Sample.annotatedOnce in
  Observe.overlayClassAt "ch1/cat" "highlight" (Reader.closeSearchBar st) = None
  /\ Observe.overlayClassAt Sample.anchorA "highlight" (Reader.closeSearchBar st)
     = Some "hl-yellow".
Proof.
  pose proof (closeSearchBar_clears
                (Sample.searchFor "cat" Sample.annotatedOnce) _ eq_refl) as H.
  cbv zeta in H. destruct H as [(r' & Hr' & _ & Hl) _].
  - intros c t note Hn. apply elem_of_map_to_list in Hn. revert Hn.
    vm_compute map_to_list. intros Hn.
    repeat (apply elem_of_cons in Hn; destruct Hn as [Hn | Hn];
            [simplify_eq; split; reflexivity |]).
    now apply elem_of_nil in Hn.
  - intros [c t] note Hn. apply elem_of_map_to_list in Hn. revert Hn.
    vm_compute map_to_list. intros Hn.
    repeat (apply elem_of_cons in Hn; destruct Hn as [Hn | Hn];
            [simplify_eq; intros _; reflexivity |]).
    now apply elem_of_nil in Hn.
  - cbv zeta. rewrite !overlayClassAt_env, Hr'. rewrite !Hl. split; reflexivity.
Defined.

(** ** Inline notes on an EPUB page: open and dismiss *)

Lemma findNote_fresh_filter (id : string) (l : list Reader.ActiveInlineNote.t) :
  Reader.findNote id l = None ->
  List.filter (fun n => negb (String.eqb (Reader.ActiveInlineNote.id n) id)) l = l.
Proof.
  unfold Reader.findNote. induction l as [| a l IH]; intros H; [reflexivity |].
  cbn in H |- *. destruct (String.eqb (Reader.ActiveInlineNote.id a) id);
    [discriminate |].
  cbn. f_equal. now apply IH.
Qed.

Lemma findNote_fresh_app (id : string) (l : list Reader.ActiveInlineNote.t)
    (n : Reader.ActiveInlineNote.t) :
  Reader.findNote id l = None -> Reader.ActiveInlineNote.id n = id ->
  Reader.findNote id (l ++ [n]) = Some n.
Proof.
  unfold Reader.findNote. intros H <-. induction l as [| a l IH]; cbn in H |- *.
  - now rewrite String.eqb_refl.
  - destruct (String.eqb _ _); [discriminate | now apply IH].
Qed.

(** X29. On an EPUB page with inline notes, the trigger of a paragraph
    that has no note mounts a new container after the paragraph and opens
    a note for the text of the paragraph; dismissing that note takes the
    container off the page and the note off the list, so that the notes
    and the mounts are as before the click and the trigger opens a note
    again. The id drawn for the note is that of no open note, and the
    node handed out by [createElement] is not on the page yet. *)
Theorem epub_note_opens_and_closes (p : nat) (now : Z) (noteId text : string)
    (st : Reader.State) :
  let d := Reader.dom (Reader.env st) in
  Reader.aiDisplayMode (Reader.props st) = Reader.inline ->
  Dom.paragraphs d !! p = Some text ->
  Dom.mounts d !! p = None ->
  Reader.findNote noteId (Reader.inlineNotes (Reader.notes st)) = None ->
  (forall k node, Dom.mounts d !! k = Some node -> node <> Dom.next_node d) ->
  let opened := Reader.epubTriggerClick p now noteId st in
  let closed := Reader.removeInlineNote noteId opened in
  Reader.inlineNotes (Reader.notes opened)
  = Reader.inlineNotes (Reader.notes st)
    ++ [Reader.ActiveInlineNote.mk noteId (Some ("p-" +:+ pretty now)) text ""
          false (Some (Dom.next_node d))]
  /\ Dom.mounts (Reader.dom (Reader.env opened)) = <[p := Dom.next_node d]> (Dom.mounts d)
  /\ Reader.inlineNotes (Reader.notes closed) = Reader.inlineNotes (Reader.notes st)
  /\ Dom.mounts (Reader.dom (Reader.env closed)) = Dom.mounts d
  /\ Dom.paragraphs (Reader.dom (Reader.env closed)) = Dom.paragraphs d
  /\ Reader.epubTriggerClick p now noteId closed <> closed.
Proof.
  destruct st as [[b mode] vw an se [ns pop] [rr eb t ls [ps nx ms]]].
  intros d Hmode Hp Hm Hfresh Hnode opened closed. subst d.
  cbn [Reader.dom Reader.env Reader.props Reader.aiDisplayMode Reader.notes
       Reader.inlineNotes Dom.paragraphs Dom.mounts Dom.next_node]
    in Hmode, Hp, Hm, Hfresh, Hnode |- *.
  subst mode.
  assert (Hopened : opened
            = Reader.mkState (Reader.mkProps b Reader.inline) vw an se
                (Reader.mkAiNotes
                   (ns ++ [Reader.ActiveInlineNote.mk noteId
                             (Some ("p-" +:+ pretty now)) text "" false (Some nx)])
                   pop)
                (Reader.mkEnv rr eb t ls (Dom.mk ps (S nx) (<[p := nx]> ms)))).
  { subst opened. unfold Reader.epubTriggerClick.
    cbn [Reader.dom Reader.env Dom.paragraphs Dom.mounts].
    rewrite Hp, Hm. reflexivity. }
  assert (Hfilter : filter (fun kv : nat * nat => snd kv <> nx) (<[p := nx]> ms) = ms).
  { rewrite map_filter_insert_not'.
    - apply map_filter_id. intros k node Hk. cbn. now apply (Hnode k).
    - cbn. intros H. now apply H.
    - intros y Hy. congruence. }
  assert (Hclosed : closed
            = Reader.mkState (Reader.mkProps b Reader.inline) vw an se
                (Reader.mkAiNotes ns pop)
                (Reader.mkEnv rr eb t ls (Dom.mk ps (S nx) ms))).
  { subst closed. rewrite Hopened. unfold Reader.removeInlineNote.
    cbn [Reader.notes Reader.inlineNotes].
    rewrite (findNote_fresh_app noteId ns
               (Reader.ActiveInlineNote.mk noteId (Some ("p-" +:+ pretty now)) text ""
                  false (Some nx)) Hfresh eq_refl).
    cbn [Reader.ActiveInlineNote.domNode]. unfold Reader.onDom, Reader.onEnv,
      Reader.setInlineNotes, Reader.onNotes, Dom.remove.
    cbn [Reader.props Reader.view Reader.annot Reader.search Reader.notes Reader.env
         Reader.renditionRef Reader.bookRef Reader.selectionTimeRef
         Reader.localStorage Reader.dom Reader.inlineNotes Reader.activePopupNote
         Dom.paragraphs Dom.next_node Dom.mounts].
    rewrite Hfilter, List.filter_app, (findNote_fresh_filter _ _ Hfresh).
    cbn. rewrite String.eqb_refl. cbn. now rewrite List.app_nil_r. }
  rewrite Hclosed, Hopened. repeat (split; [reflexivity |]).
  unfold Reader.epubTriggerClick.
  cbn [Reader.dom Reader.env Dom.paragraphs Dom.mounts]. rewrite Hp, Hm.
  intros E.
  apply (f_equal (fun s => length (Reader.inlineNotes (Reader.notes s)))) in E.
  cbn in E. rewrite List.length_app in E. cbn in E. lia.
Qed.

Lemma epub_note_opens_and_closes_witness :
  Reader.inlineNotes
    (Reader.notes
       (Reader.removeInlineNote Sample.uuid1
          (Reader.epubTriggerClick 0 2000 Sample.uuid1 Sample.readingPage)))
  = [].
Proof.
  refine (proj1 (proj2 (proj2
            (epub_note_opens_and_closes 0 2000 Sample.uuid1 "First."
               Sample.readingPage eq_refl eq_refl eq_refl eq_refl _)))).
  intros k node H. discriminate H.
Defined.

(** ** The chat service *)

(** [startChat] without an instruction of the caller gives the session the
    default instruction, followed by the book when there is one. *)
Lemma startChat_default (modelId : string) (bookContext : option string)
    (s : Gemini.Service) :
  Gemini.startChat modelId None bookContext s
  = Gemini.mkService
      (Some (Gemini.mkChat modelId
               (match bookContext with
                | Some ctx => if Js.truthy ctx
                              then Gemini.withBook Gemini.defaultInstruction ctx
                              else Gemini.defaultInstruction
                | None => Gemini.defaultInstruction
                end)))
      modelId.
Proof. reflexivity. Qed.

(** X30. [sendMessageStream] on a service whose session, if it has one,
    was created for the model the service records: afterwards the service
    has a session of the requested model and records that model. The
    session that was there is used and kept, with its system instruction,
    only when it is of the requested model and takes the message; a
    service without a session, a change of model, or a session that
    refuses the message ends with a new session that has the default
    instruction (and the book, if one is given), whatever instruction the
    earlier session had. The message goes out only when the session takes
    it. *)
Theorem sendMessageStream_session (message : string)
    (context bookFullText : option string) (modelId : string) (accepted : bool)
    (s : Gemini.Service) :
  (forall c, Gemini.chatSession s = Some c ->
             Gemini.chat_model c = Gemini.currentModelId s) ->
  let out := Gemini.sendMessageStream message context bookFullText modelId accepted s in
  let renewed := Gemini.startChat modelId None bookFullText s in
  (exists c, Gemini.chatSession (fst out) = Some c /\ Gemini.chat_model c = modelId)
  /\ Gemini.currentModelId (fst out) = modelId
  /\ (snd out = None <-> accepted = false)
  /\ (accepted = true -> Gemini.currentModelId s = modelId ->
      Gemini.chatSession s <> None -> fst out = s)
  /\ (accepted = false \/ Gemini.currentModelId s <> modelId
      \/ Gemini.chatSession s = None ->
      fst out = renewed).
Proof.
  intros Hinv out renewed. subst out renewed. unfold Gemini.sendMessageStream.
  destruct s as [[c |] cur]; cbn [Gemini.chatSession Gemini.currentModelId] in *.
  - specialize (Hinv c eq_refl).
    destruct (String.eqb_spec cur modelId) as [-> | Hne]; cbn [negb].
    + destruct c as [cm ci]. cbn in Hinv. subst cm. cbn [Gemini.chatSession].
      destruct accepted; cbn [fst snd].
      * split; [eexists; split; reflexivity |]. split; [reflexivity |].
        split; [split; discriminate |]. split; [reflexivity |].
        intros [H | [H | H]]; [discriminate | now destruct H | discriminate].
      * split; [eexists; split; reflexivity |]. split; [reflexivity |].
        split; [split; reflexivity |]. split; [discriminate |]. reflexivity.
    + rewrite !startChat_default. cbn [Gemini.chatSession].
      destruct accepted; cbn [fst snd]; rewrite ?startChat_default;
        (split; [eexists; split; reflexivity |]); (split; [reflexivity |]).
      * split; [split; discriminate |]. split; [now intros _ H |]. reflexivity.
      * split; [split; reflexivity |]. split; [discriminate |]. reflexivity.
  - rewrite !startChat_default. cbn [Gemini.chatSession].
    destruct accepted; cbn [fst snd]; rewrite ?startChat_default;
      (split; [eexists; split; reflexivity |]); (split; [reflexivity |]).
    + split; [split; discriminate |]. split; [now intros _ _ H |]. reflexivity.
    + split; [split; reflexivity |]. split; [discriminate |]. reflexivity.
Qed.

Lemma sendMessageStream_session_witness :
  Gemini.systemInstruction
  <$> Gemini.chatSession
        (fst (Gemini.sendMessageStream "Why?" None None "gemini-2.5-pro" true
                (Gemini.startChat "gemini-2.5-flash" (Some "Answer in verse.") None
                   Gemini.fresh)))
  = Some Gemini.defaultInstruction.
Proof.
  refine (eq_trans
            (f_equal (fun s => Gemini.systemInstruction <$> Gemini.chatSession s)
               (proj2 (proj2 (proj2 (proj2
                  (sendMessageStream_session "Why?" None None "gemini-2.5-pro" true
                     (Gemini.startChat "gemini-2.5-flash" (Some "Answer in verse.")
                        None Gemini.fresh) _))))
                  (or_intror (or_introl _)))) _).
  - intros c H. injection H as <-. reflexivity.
  - discriminate.
  - reflexivity.
Defined.
